(** * Arina recommendation engine: a shallow embedding and its properties

    The development follows the TypeScript module that computes rule-based
    recommendations from stored analysis results, chat transcripts and a
    season tag (sortByRecency, the three per-type extractors,
    extractChatInsights, addSeasonalRecommendations, generateRecommendations).

    Conventions of the embedding.
    - A JavaScript Number is an extended rational: a finite rational,
      +Infinity, -Infinity or NaN.  The result of an addition, a
      multiplication or a division, and of the subtraction whose value is
      used (the growth rate), is the exact result rounded to binary64
      ([round64]: nearest, ties to even, gradual underflow, overflow to an
      infinity).  A comparator is read through the sign of its difference,
      which rounding keeps, so it carries the difference before rounding.
      The literals 0.1, -0.1, 0.3 and 1.2, which meet the result of an
      arithmetic operation, are their nearest doubles ([double]); the other
      literals are written exactly.  The sign of zero is outside the model (a
      zero divisor counts as +0).
    - The [data] payload of an analysis is an arbitrary stored value (null,
      a boolean, a Number, a string, an array, an object; [undefined] where a
      property is absent); reading a property of [undefined] or [null], or
      calling [toFixed] on something that is not a Number, raises TypeError.
      Converting to a string or to a number an object that carries a property
      named [toString] raises TypeError as well; [ToString] and [ToNumber]
      are the conversions of the other values, and the statement that a whole
      run completes assumes payloads free of such objects ([ownToString]).
    - Number formatting, string-to-number conversion, the local calendar day
      of an instant and the wall clock belong to the host; they are the
      fields of the class [Host] and every result holds for all hosts.
    - Strings are sequences of 8-bit characters; case folding and white
      space are those of ASCII, which are those of JavaScript on ASCII text.
      The statements about the words and sentences of chat messages assume
      ASCII text ([asciiText]).
    - [Array.prototype.sort] is a stable insertion sort driven by the sign of
      the comparator, a NaN result counting as zero.  For a comparator that
      is a total preorder every conforming sort returns this same array; a
      date that is invalid makes the recency comparators answer NaN, the
      order then depends on the engine, and the statements about which
      records are the most recent assume that no date is invalid
      ([parseable], [messageParseable]). *)

From Stdlib Require Import QArith Qabs ZArith String Ascii List Permutation Sorted.
From stdpp Require Import base list strings gmap.

Set Warnings "-register-all".
Local Open Scope Z_scope.
Local Open Scope string_scope.
Local Open Scope list_scope.

(** ** Numbers *)

Inductive num :=
| Fin (q : Q)
| PInf
| NInf
| NaN.

Definition Qltb (a b : Q) : bool := negb (Qle_bool b a).

Definition num_sgn (a : num) : Z :=
  match a with
  | Fin q => Z.sgn (Qnum q)
  | PInf => 1
  | NInf => -1
  | NaN => 0
  end.

Definition inf_of_sign (s : Z) : num :=
  match s with
  | Zpos _ => PInf
  | Zneg _ => NInf
  | Z0 => NaN
  end.

Definition num_neg (a : num) : num :=
  match a with
  | Fin q => Fin (- q)
  | PInf => NInf
  | NInf => PInf
  | NaN => NaN
  end.

Definition num_add (a b : num) : num :=
  match a, b with
  | NaN, _ | _, NaN => NaN
  | Fin x, Fin y => Fin (x + y)
  | PInf, NInf | NInf, PInf => NaN
  | PInf, _ | _, PInf => PInf
  | NInf, _ | _, NInf => NInf
  end.

Definition num_sub (a b : num) : num := num_add a (num_neg b).

Definition num_mul (a b : num) : num :=
  match a, b with
  | NaN, _ | _, NaN => NaN
  | Fin x, Fin y => Fin (x * y)
  | _, _ => inf_of_sign (num_sgn a * num_sgn b)
  end.

Definition num_div (a b : num) : num :=
  match a, b with
  | NaN, _ | _, NaN => NaN
  | Fin x, Fin y =>
      if Qeq_bool y 0 then inf_of_sign (num_sgn a) else Fin (x / y)
  | Fin _, _ => Fin 0
  | _, Fin y => inf_of_sign (num_sgn a * (if Qltb y 0 then -1 else 1))
  | _, _ => NaN
  end.

Definition num_abs (a : num) : num :=
  match a with
  | Fin q => Fin (Qabs q)
  | PInf | NInf => PInf
  | NaN => NaN
  end.

(** [a < b] on Numbers; false as soon as one side is NaN. *)
Definition num_ltb (a b : num) : bool :=
  match a, b with
  | NaN, _ | _, NaN => false
  | Fin x, Fin y => Qltb x y
  | NInf, NInf | PInf, _ | _, NInf => false
  | NInf, _ | _, PInf => true
  end.

Definition num_gtb (a b : num) : bool := num_ltb b a.
Definition num_geb (a b : num) : bool :=
  match a, b with
  | NaN, _ | _, NaN => false
  | _, _ => negb (num_ltb a b)
  end.

Definition num_is_zero (a : num) : bool :=
  match a with
  | Fin q => Qeq_bool q 0
  | _ => false
  end.

Definition num_of_Z (z : Z) : num := Fin (inject_Z z).

(** The binary64 value nearest to a rational, ties to the even significand:
    the significand has 53 bits, the least exponent of a unit in the last
    place is -1074 (gradual underflow), and what rounds to 2^1024 or beyond
    overflows to an infinity. *)
Definition pow2 (e : Z) : Z := 2 ^ e.

Definition round64 (q : Q) : num :=
  let n := Qnum q in
  let d := Z.pos (Qden q) in
  if (n =? 0)%Z then Fin 0
  else
    let a := Z.abs n in
    let k := Z.log2 a - Z.log2 d in
    let lg := if (if (0 <=? k)%Z then (d * pow2 k <=? a)%Z else (d <=? a * pow2 (- k))%Z)
              then k else k - 1 in
    let e := Z.max (lg - 52) (-1074) in
    let scaled := if (e <? 0)%Z then a * pow2 (- e) else a in
    let unit := if (e <? 0)%Z then d else d * pow2 e in
    let m0 := scaled / unit in
    let r := scaled mod unit in
    let m := if (unit <? 2 * r)%Z then m0 + 1
             else if (2 * r =? unit)%Z then (if Z.even m0 then m0 else m0 + 1)
             else m0 in
    if ((0 <=? e) && (pow2 1024 <=? m * pow2 e))%Z
    then (if (0 <? n)%Z then PInf else NInf)
    else
      let v := if (e <? 0)%Z then Qmake m (Z.to_pos (pow2 (- e))) else inject_Z (m * pow2 e) in
      Fin (Qred (if (0 <? n)%Z then v else - v)).

(** The result of an arithmetic operation: the exact result, rounded. *)
Definition fl (a : num) : num :=
  match a with
  | Fin q => round64 q
  | _ => a
  end.

(** The Number that a decimal literal of the source denotes. *)
Definition double (q : Q) : num := round64 q.
Definition num_of_nat (n : nat) : num := num_of_Z (Z.of_nat n).

(** ** Values of the untyped payload *)

Inductive value :=
| VUndef
| VNull
| VBool (b : bool)
| VNum (n : num)
| VStr (s : string)
| VArr (elems : list value)
| VObj (props : list (string * value)).

(** Completion of an expression that may raise. Every exception the module can
    raise is a TypeError. *)
Inductive outcome (A : Type) :=
| Returned (a : A)
| TypeError.
Arguments Returned {A} a.
Arguments TypeError {A}.

Definition obind {A B} (m : outcome A) (f : A -> outcome B) : outcome B :=
  match m with
  | Returned a => f a
  | TypeError => TypeError
  end.

Fixpoint omapM {A B} (f : A -> outcome B) (l : list A) : outcome (list B) :=
  match l with
  | [] => Returned []
  | x :: l' => obind (f x) (fun y => obind (omapM f l') (fun ys => Returned (y :: ys)))
  end.

Fixpoint ofilterM {A} (f : A -> outcome bool) (l : list A) : outcome (list A) :=
  match l with
  | [] => Returned []
  | x :: l' =>
      obind (f x) (fun b =>
      obind (ofilterM f l') (fun ys => Returned (if b then x :: ys else ys)))
  end.

Fixpoint ofoldM {A B} (f : B -> A -> outcome B) (acc : B) (l : list A) : outcome B :=
  match l with
  | [] => Returned acc
  | x :: l' => obind (f acc x) (fun acc' => ofoldM f acc' l')
  end.

Fixpoint assoc (k : string) (ps : list (string * value)) : value :=
  match ps with
  | [] => VUndef
  | (k', v) :: ps' => if String.eqb k k' then v else assoc k ps'
  end.

(** [v.k] for the property names the module reads (none of them is defined
    on the prototype of a primitive or of an array). *)
Definition get (v : value) (k : string) : outcome value :=
  match v with
  | VUndef | VNull => TypeError
  | VObj ps => Returned (assoc k ps)
  | _ => Returned VUndef
  end.

Definition isArray (v : value) : bool :=
  match v with
  | VArr _ => true
  | _ => false
  end.

Definition array_elems (v : value) : list value :=
  match v with
  | VArr l => l
  | _ => []
  end.

Definition ToBoolean (v : value) : bool :=
  match v with
  | VUndef | VNull => false
  | VBool b => b
  | VNum (Fin q) => negb (Qeq_bool q 0)
  | VNum NaN => false
  | VNum _ => true
  | VStr s => negb (String.eqb s "")
  | VArr _ | VObj _ => true
  end.

Definition strict_eq_bool (v : value) (b : bool) : bool :=
  match v with
  | VBool b' => Bool.eqb b' b
  | _ => false
  end.

(** [v === 0] *)
Definition strict_eq_zero (v : value) : bool :=
  match v with
  | VNum n => num_is_zero n
  | _ => false
  end.

(** ** Array.prototype.sort *)

(** A comparator result above zero puts its first argument after the second;
    zero, a negative number and NaN leave the first argument first. *)
Definition goes_after (c : num) : bool := num_ltb (Fin 0) c.

Section Sort.
Context {A : Type}.

Fixpoint insert_sorted (cmp : A -> A -> num) (x : A) (l : list A) : list A :=
  match l with
  | [] => [x]
  | y :: l' => if goes_after (cmp x y) then y :: insert_sorted cmp x l' else x :: l
  end.

Fixpoint sort (cmp : A -> A -> num) (l : list A) : list A :=
  match l with
  | [] => []
  | x :: l' => insert_sorted cmp x (sort cmp l')
  end.

End Sort.

(** On an array of values the comparator may raise, and [undefined] elements
    are ordered last without the comparator being called (SortCompare). *)
Definition SortCompare (cmp : value -> value -> outcome num) (x y : value) : outcome num :=
  match x, y with
  | VUndef, VUndef => Returned (Fin 0)
  | VUndef, _ => Returned (Fin 1)
  | _, VUndef => Returned (Fin (-1))
  | _, _ => cmp x y
  end.

Fixpoint insert_sortedM (cmp : value -> value -> outcome num) (x : value) (l : list value)
  : outcome (list value) :=
  match l with
  | [] => Returned [x]
  | y :: l' =>
      obind (SortCompare cmp x y) (fun c =>
      if goes_after c
      then obind (insert_sortedM cmp x l') (fun r => Returned (y :: r))
      else Returned (x :: l))
  end.

Fixpoint sortM (cmp : value -> value -> outcome num) (l : list value) : outcome (list value) :=
  match l with
  | [] => Returned []
  | x :: l' => obind (sortM cmp l') (insert_sortedM cmp x)
  end.

(** ** Dates and the records of the schema *)

Inductive Date :=
| ValidDate (ms : Z)
| InvalidDate.

Definition getTime (d : Date) : num :=
  match d with
  | ValidDate ms => num_of_Z ms
  | InvalidDate => NaN
  end.

Module AnalysisResult.
Record t := {
    id : string;
    user_id : string;
    type : string;
    data : value;
    created_at : option Date;
    updated_at : option Date
}.
End AnalysisResult.

Module ChatMessage.
Record t := {
    id : string;
    conversation_id : string;
    role : string;
    content : string;
    created_at : option Date
}.
End ChatMessage.

Inductive Season := spring | summer | fall | winter.

Record RecommendationInput := {
  userId : string;
  analysisResults : list AnalysisResult.t;
  chatHistory : list ChatMessage.t;
  currentSeason : option Season
}.

Inductive RecType := crop | business | resource | market.
Inductive RecSource := analysis | chat | pattern | seasonal.

Module RecommendationItem.
Record t := {
    id : string;
    type : RecType;
    title : string;
    description : string;
    confidence : num;
    data : value;
    source : RecSource;
    createdAt : Date
}.
End RecommendationItem.

Module RecommendationSet.
Record t := {
    id : string;
    userId : string;
    recommendations : list RecommendationItem.t;
    summary : string;
    createdAt : Date
}.
End RecommendationSet.

#[global] Instance RecType_eq_dec : EqDecision RecType.
Proof. solve_decision. Defined.
#[global] Instance RecSource_eq_dec : EqDecision RecSource.
Proof. solve_decision. Defined.
#[global] Instance Season_eq_dec : EqDecision Season.
Proof. solve_decision. Defined.

(** ** sortByRecency *)

(** [x ? new Date(x).getTime() : 0] *)
Definition time_or_zero (c : option Date) : num :=
  match c with
  | Some d => getTime d
  | None => Fin 0
  end.

Definition byRecency (a b : AnalysisResult.t) : num :=
  let dateA := time_or_zero (AnalysisResult.created_at a) in
  let dateB := time_or_zero (AnalysisResult.created_at b) in
  num_sub dateB dateA.

Definition sortByRecency (results : list AnalysisResult.t) : list AnalysisResult.t :=
  sort byRecency results.

(** The same function over a store of arrays: the spread allocates a copy
    and [sort] rearranges that copy in place. *)
Section Store.
Context {A : Type}.

Definition spread (h : gmap nat (list A)) (a : nat) : nat * gmap nat (list A) :=
  let copy := fresh (dom h) in
  (copy, <[copy := default [] (h !! a)]> h).

Definition sort_in_place (cmp : A -> A -> num) (h : gmap nat (list A)) (a : nat)
  : gmap nat (list A) :=
  alter (sort cmp) a h.

End Store.

Definition sortByRecency_store (h : gmap nat (list AnalysisResult.t)) (results : nat)
  : nat * gmap nat (list AnalysisResult.t) :=
  let '(copy, h1) := spread h results in
  (copy, sort_in_place byRecency h1 copy).

(** The timestamp the specification gives a record: the epoch when
    [created_at] is missing or does not denote an instant. *)
Definition timestamp (r : AnalysisResult.t) : Z :=
  match AnalysisResult.created_at r with
  | Some (ValidDate ms) => ms
  | _ => 0
  end.

Definition parseable (r : AnalysisResult.t) : bool :=
  match AnalysisResult.created_at r with
  | Some InvalidDate => false
  | _ => true
  end.

Definition messageTimestamp (m : ChatMessage.t) : Z :=
  match ChatMessage.created_at m with
  | Some (ValidDate ms) => ms
  | _ => 0
  end.

Definition messageParseable (m : ChatMessage.t) : bool :=
  match ChatMessage.created_at m with
  | Some InvalidDate => false
  | _ => true
  end.

(** ** The host: what the embedding takes from the JavaScript runtime *)

Class Host := {
  StringToNumber : string -> num;
  NumberToString : num -> string;
  toFixedDigits : num -> nat -> string;
  toDateString : Z -> string;
  clock : nat -> Z
}.

Section Engine.
Context {host : Host}.

Fixpoint ToString (v : value) : string :=
  match v with
  | VUndef => "undefined"
  | VNull => "null"
  | VBool true => "true"
  | VBool false => "false"
  | VNum n => NumberToString n
  | VStr s => s
  | VArr l =>
      String.concat ","
        (List.map (fun e => match e with
                            | VUndef | VNull => ""
                            | _ => ToString e
                            end) l)
  | VObj _ => "[object Object]"
  end.

(** [arr.join(sep)] on an array of values. *)
Definition join (sep : string) (l : list value) : string :=
  String.concat sep
    (List.map (fun e => match e with
                        | VUndef | VNull => ""
                        | _ => ToString e
                        end) l).

Definition ToNumber (v : value) : num :=
  match v with
  | VUndef => NaN
  | VNull => Fin 0
  | VBool true => Fin 1
  | VBool false => Fin 0
  | VNum n => n
  | VStr s => StringToNumber s
  | VArr _ | VObj _ => StringToNumber (ToString v)
  end.

Definition is_string_prim (v : value) : bool :=
  match v with
  | VStr _ | VArr _ | VObj _ => true
  | _ => false
  end.

(** The binary operators. In every comparison of the module one operand is a
    Number, so the comparison is numeric. Sums, products and quotients are
    rounded. [js_sub] is the difference before rounding: a comparator is read
    through the sign of its result alone, which rounding keeps, and where the
    value of a difference is used it is rounded with [fl]. *)
Definition js_add (a b : value) : value :=
  if is_string_prim a || is_string_prim b
  then VStr (ToString a +:+ ToString b)
  else VNum (fl (num_add (ToNumber a) (ToNumber b))).
Definition js_sub (a b : value) : num := num_sub (ToNumber a) (ToNumber b).
Definition js_mul (a b : value) : num := fl (num_mul (ToNumber a) (ToNumber b)).
Definition js_div (a b : value) : num := fl (num_div (ToNumber a) (ToNumber b)).
Definition js_gt (a : value) (b : num) : bool := num_gtb (ToNumber a) b.
Definition js_lt (a : value) (b : num) : bool := num_ltb (ToNumber a) b.
Definition Math_abs (a : value) : num := num_abs (ToNumber a).

(** [v.toFixed(d)]: only Numbers have the method. *)
Definition toFixed (v : value) (d : nat) : outcome string :=
  match v with
  | VNum n => Returned (toFixedDigits n d)
  | _ => TypeError
  end.

(** ** Computations that read the clock and may raise

    The state is the number of clock readings made so far. *)
Definition M (A : Type) : Type := nat -> outcome (A * nat).

Definition ret {A} (a : A) : M A := fun n => Returned (a, n).

Definition bind {A B} (m : M A) (f : A -> M B) : M B :=
  fun n => match m n with
           | Returned (a, n') => f a n'
           | TypeError => TypeError
           end.

Definition lift {A} (o : outcome A) : M A :=
  fun n => match o with
           | Returned a => Returned (a, n)
           | TypeError => TypeError
           end.

(** [new Date()] and [Date.now()] *)
Definition newDate : M Date := fun n => Returned (ValidDate (clock n), S n).
Definition Date_now : M value := fun n => Returned (VNum (num_of_Z (clock n)), S n).

Notation "'let*' x ':=' m 'in' k" := (bind m (fun x => k))
  (at level 10, x name, m at level 100, k at level 200, only parsing).

(** [l.forEach(result => { ... recommendations.push(...) ... })]: the items
    pushed by the callback, in order. *)
Fixpoint forEach {A} (f : A -> M (list RecommendationItem.t)) (l : list A)
  : M (list RecommendationItem.t) :=
  match l with
  | [] => ret []
  | x :: l' => let* a := f x in let* b := forEach f l' in ret (a ++ b)
  end.

Definition mkItem (id : string) (type : RecType) (title description : string)
    (confidence : num) (data : value) (source : RecSource) (createdAt : Date)
  : RecommendationItem.t :=
  RecommendationItem.Build_t id type title description confidence data source createdAt.

Definition percent1 (x : num) : string := toFixedDigits (fl (num_mul x (Fin 100))) 1.

(** ** extractBusinessRecommendations *)

Definition recentBusinessResults (results : list AnalysisResult.t) : list AnalysisResult.t :=
  let businessResults :=
    sortByRecency
      (List.filter (fun r => String.eqb (AnalysisResult.type r) "business_feasibility") results) in
  take 3 businessResults.

(* Check profitability indicators *)
Definition checkProfitability (result : AnalysisResult.t) : M (list RecommendationItem.t) :=
  let data := AnalysisResult.data result in
  let* profitMargin := lift (get data "profitMargin") in
  if ToBoolean profitMargin && js_gt profitMargin (Fin 0.25) then
    let* businessName := lift (get data "businessName") in
    let* roi := lift (get data "roi") in
    let* now := newDate in
    ret [mkItem ("biz-profit-" +:+ AnalysisResult.id result) business
           "Profitable Business Model"
           ("Your " +:+ ToString businessName +:+ " shows a strong profit margin of "
              +:+ percent1 (ToNumber profitMargin)
              +:+ "%. Consider scaling operations while maintaining current cost structure.")
           (Fin 0.8)
           (VObj [("profitMargin", profitMargin); ("roi", roi); ("businessName", businessName)])
           analysis now]
  else ret [].

(* Check ROI indicators *)
Definition checkROI (result : AnalysisResult.t) : M (list RecommendationItem.t) :=
  let data := AnalysisResult.data result in
  let* roi := lift (get data "roi") in
  if ToBoolean roi && js_gt roi (Fin 0.15) then
    let* businessName := lift (get data "businessName") in
    let* paybackPeriod := lift (get data "paybackPeriod") in
    let* now := newDate in
    ret [mkItem ("biz-roi-" +:+ AnalysisResult.id result) business
           "Strong Return on Investment"
           ("Your investment in " +:+ ToString businessName +:+ " shows a "
              +:+ percent1 (ToNumber roi)
              +:+ "% ROI. Consider additional investment in similar ventures.")
           (Fin 0.75)
           (VObj [("roi", roi); ("paybackPeriod", paybackPeriod)])
           analysis now]
  else ret [].

(** [(a, b) => b.amount - a.amount] and its siblings *)
Definition byFieldDesc (field : string) (a b : value) : outcome num :=
  obind (get b field) (fun fb =>
  obind (get a field) (fun fa => Returned (js_sub fb fa))).

(** [costs.reduce((sum, cost) => sum + cost.amount, 0)] *)
Definition sumAmounts (costs : list value) : outcome value :=
  ofoldM (fun sum cost => obind (get cost "amount") (fun a => Returned (js_add sum a)))
         (VNum (Fin 0)) costs.

(* Check cost structure *)
Definition checkCostStructure (result : AnalysisResult.t) : M (list RecommendationItem.t) :=
  let data := AnalysisResult.data result in
  let* operationalCosts := lift (get data "operationalCosts") in
  if ToBoolean operationalCosts && isArray operationalCosts then
    let* sortedCosts := lift (sortM (byFieldDesc "amount") (array_elems operationalCosts)) in
    match sortedCosts with
    | [] => ret []
    | highestCost :: _ =>
        let* amount := lift (get highestCost "amount") in
        let* total := lift (sumAmounts sortedCosts) in
        let costPercentage := js_div amount total in
        if num_gtb costPercentage (double 0.3) then
          let* name := lift (get highestCost "name") in
          let* now := newDate in
          ret [mkItem ("biz-cost-" +:+ AnalysisResult.id result) resource
                 "Cost Reduction Opportunity"
                 (ToString name +:+ " represents " +:+ percent1 costPercentage
                    +:+ "% of your operational costs. Reducing this could significantly improve profitability.")
                 (Fin 0.7)
                 (VObj [("costName", name); ("costAmount", amount);
                        ("percentage", VNum costPercentage)])
                 analysis now]
        else ret []
    end
  else ret [].

(* Check break-even metrics *)
Definition checkBreakEven (result : AnalysisResult.t) : M (list RecommendationItem.t) :=
  let data := AnalysisResult.data result in
  let* breakEvenUnits := lift (get data "breakEvenUnits") in
  let* monthlySalesVolume := lift (get data "monthlySalesVolume") in
  if ToBoolean breakEvenUnits && ToBoolean monthlySalesVolume then
    let breakEvenRatio := js_div breakEvenUnits monthlySalesVolume in
    if num_ltb breakEvenRatio (Fin 0.5) then
      let* now := newDate in
      ret [mkItem ("biz-breakeven-" +:+ AnalysisResult.id result) business
             "Favorable Break-Even Point"
             ("You reach break-even at just " +:+ percent1 breakEvenRatio
                +:+ "% of your monthly sales volume. This gives you a safety margin in market fluctuations.")
             (Fin 0.85)
             (VObj [("breakEvenUnits", breakEvenUnits);
                    ("monthlySalesVolume", monthlySalesVolume);
                    ("ratio", VNum breakEvenRatio)])
             analysis now]
    else ret []
  else ret [].

Definition businessInsights (result : AnalysisResult.t) : M (list RecommendationItem.t) :=
  let* a := checkProfitability result in
  let* b := checkROI result in
  let* c := checkCostStructure result in
  let* d := checkBreakEven result in
  ret (a ++ b ++ c ++ d).

Definition extractBusinessRecommendations (results : list AnalysisResult.t)
  : M (list RecommendationItem.t) :=
  forEach businessInsights (recentBusinessResults results).

(** ** extractForecastRecommendations *)

Definition recentForecasts (results : list AnalysisResult.t) : list AnalysisResult.t :=
  let forecastResults :=
    sortByRecency
      (List.filter (fun r => String.eqb (AnalysisResult.type r) "demand_forecast") results) in
  take 3 forecastResults.

(** [(lastForecast - firstForecast) / firstForecast] *)
Definition growthRateOf (firstForecast lastForecast : value) : num :=
  fl (num_div (fl (js_sub lastForecast firstForecast)) (ToNumber firstForecast)).

(* Check for growth trend *)
Definition checkGrowthTrend (result : AnalysisResult.t) : M (list RecommendationItem.t) :=
  let data := AnalysisResult.data result in
  let* forecasted := lift (get data "forecasted") in
  if ToBoolean forecasted && isArray forecasted
     && (1 <? length (array_elems forecasted))%nat then
    let* firstForecast := lift (get (List.hd VUndef (array_elems forecasted)) "forecast") in
    let* lastForecast := lift (get (List.last (array_elems forecasted) VUndef) "forecast") in
    let growthRate := growthRateOf firstForecast lastForecast in
    if num_gtb growthRate (double 0.1) then
      let* productName := lift (get data "productName") in
      let* now := newDate in
      ret [mkItem ("forecast-growth-" +:+ AnalysisResult.id result) market
             "Growing Demand Trend"
             ("Demand for " +:+ ToString productName +:+ " is projected to grow by "
                +:+ percent1 growthRate
                +:+ "% over the forecast period. Consider increasing production capacity.")
             (Fin 0.75)
             (VObj [("productName", productName); ("growthRate", VNum growthRate);
                    ("firstForecast", firstForecast); ("lastForecast", lastForecast)])
             analysis now]
    else if num_ltb growthRate (double (-0.1)) then
      let* productName := lift (get data "productName") in
      let* now := newDate in
      ret [mkItem ("forecast-decline-" +:+ AnalysisResult.id result) market
             "Declining Demand Alert"
             ("Demand for " +:+ ToString productName +:+ " is projected to decline by "
                +:+ percent1 (num_abs growthRate)
                +:+ "% over the forecast period. Consider diversifying your product mix.")
             (Fin 0.75)
             (VObj [("productName", productName); ("declineRate", VNum (num_abs growthRate));
                    ("firstForecast", firstForecast); ("lastForecast", lastForecast)])
             analysis now]
    else ret []
  else ret [].

(** [values.reduce((sum, val) => sum + val, 0)] *)
Definition sumValues (values : list value) : value :=
  fold_left js_add values (VNum (Fin 0)).

(* Check for seasonality *)
Definition checkSeasonality (result : AnalysisResult.t) : M (list RecommendationItem.t) :=
  let data := AnalysisResult.data result in
  let* chart := lift (get data "chart") in
  if ToBoolean chart then
    let* historical := lift (get chart "historical") in
    if ToBoolean historical && isArray historical then
      let* values := lift (omapM (fun h => get h "value") (array_elems historical)) in
      let avg := js_div (sumValues values) (VNum (num_of_nat (length values))) in
      let peaks :=
        length (List.filter (fun v => js_gt v (fl (num_mul avg (double 1.2)))) values) in
      if (2 <=? peaks)%nat then
        let* productName := lift (get data "productName") in
        let* now := newDate in
        ret [mkItem ("forecast-seasonal-" +:+ AnalysisResult.id result) market
               "Seasonal Demand Pattern"
               (ToString productName +:+ " shows seasonal demand patterns with "
                  +:+ NumberToString (num_of_nat peaks)
                  +:+ " peak periods. Plan inventory and production to align with these patterns.")
               (Fin 0.7)
               (VObj [("productName", productName); ("peakPeriods", VNum (num_of_nat peaks));
                      ("averageDemand", VNum avg)])
               pattern now]
      else ret []
    else ret []
  else ret [].

(* Check forecast accuracy *)
Definition checkForecastAccuracy (result : AnalysisResult.t) : M (list RecommendationItem.t) :=
  let data := AnalysisResult.data result in
  let* accuracy := lift (get data "accuracy") in
  if ToBoolean accuracy then
    let* mape := lift (get accuracy "mape") in
    if ToBoolean mape && js_lt mape (Fin 10) then
      let* productName := lift (get data "productName") in
      let* shown := lift (toFixed mape 1) in
      let* now := newDate in
      ret [mkItem ("forecast-accuracy-" +:+ AnalysisResult.id result) business
             "High Forecast Reliability"
             ("Your " +:+ ToString productName +:+ " forecast has a high accuracy (MAPE: "
                +:+ shown +:+ "%). Use this forecast with confidence for planning.")
             (Fin 0.8)
             (VObj [("productName", productName); ("mape", mape)])
             analysis now]
    else if ToBoolean mape && js_gt mape (Fin 20) then
      let* productName := lift (get data "productName") in
      let* shown := lift (toFixed mape 1) in
      let* now := newDate in
      ret [mkItem ("forecast-inaccuracy-" +:+ AnalysisResult.id result) business
             "Forecast Uncertainty Alert"
             ("Your " +:+ ToString productName +:+ " forecast has a higher error rate (MAPE: "
                +:+ shown
                +:+ "%). Consider using more historical data or adjusting your forecast method.")
             (Fin 0.7)
             (VObj [("productName", productName); ("mape", mape)])
             analysis now]
    else ret []
  else ret [].

Definition forecastInsights (result : AnalysisResult.t) : M (list RecommendationItem.t) :=
  let* a := checkGrowthTrend result in
  let* b := checkSeasonality result in
  let* c := checkForecastAccuracy result in
  ret (a ++ b ++ c).

Definition extractForecastRecommendations (results : list AnalysisResult.t)
  : M (list RecommendationItem.t) :=
  forEach forecastInsights (recentForecasts results).

(** ** extractOptimizationRecommendations *)

Definition recentOptimizations (results : list AnalysisResult.t) : list AnalysisResult.t :=
  let optimizationResults :=
    sortByRecency
      (List.filter (fun r => String.eqb (AnalysisResult.type r) "optimization") results) in
  take 3 optimizationResults.

(* Specific recommendations for resource allocation *)
Definition checkVariables (result : AnalysisResult.t) : M (list RecommendationItem.t) :=
  let data := AnalysisResult.data result in
  let* variables := lift (get data "variables") in
  if ToBoolean variables && isArray variables then
    let* positive := lift (ofilterM (fun v => obind (get v "value") (fun x => Returned (js_gt x (Fin 0))))
                               (array_elems variables)) in
    let* sorted := lift (sortM (byFieldDesc "value") positive) in
    let significantVariables := take 3 sorted in
    if (0 <? length significantVariables)%nat then
      let* shown := lift (omapM (fun v =>
                 obind (get v "name") (fun name =>
                 obind (get v "value") (fun x =>
                 obind (toFixed x 2) (fun digits =>
                 Returned (ToString name +:+ ": " +:+ digits)))))
               significantVariables) in
      let varList := String.concat ", " shown in
      let* name := lift (get data "name") in
      let* now := newDate in
      ret [mkItem ("opt-resources-" +:+ AnalysisResult.id result) resource
             "Key Resource Allocation"
             ("Focus on these resources for optimal results: " +:+ varList)
             (Fin 0.8)
             (VObj [("optimizationName", name); ("topResources", VArr significantVariables)])
             analysis now]
    else ret []
  else ret [].

(* Check binding constraints *)
Definition checkConstraints (result : AnalysisResult.t) : M (list RecommendationItem.t) :=
  let data := AnalysisResult.data result in
  let* constraints := lift (get data "constraints") in
  if ToBoolean constraints && isArray constraints then
    let* binding := lift (ofilterM (fun c => obind (get c "slack") (fun slack =>
                       Returned (strict_eq_zero slack || num_ltb (Math_abs slack) (Fin 0.001))))
                     (array_elems constraints)) in
    let* bindingConstraints := lift (omapM (fun c => get c "name") binding) in
    if (0 <? length bindingConstraints)%nat then
      let* name := lift (get data "name") in
      let* now := newDate in
      ret [mkItem ("opt-constraints-" +:+ AnalysisResult.id result) business
             "Resource Bottlenecks Identified"
             ("These factors are limiting your optimization: " +:+ join ", " bindingConstraints
                +:+ ". Consider increasing these resources.")
             (Fin 0.85)
             (VObj [("optimizationName", name); ("bindingConstraints", VArr bindingConstraints)])
             analysis now]
    else ret []
  else ret [].

(* Check solution feasibility *)
Definition optimizationInsights (result : AnalysisResult.t) : M (list RecommendationItem.t) :=
  let data := AnalysisResult.data result in
  let* feasible := lift (get data "feasible") in
  if strict_eq_bool feasible true then
    let* name := lift (get data "name") in
    let* objectiveValue := lift (get data "objectiveValue") in
    let* outcomeText :=
      (if ToBoolean objectiveValue
       then let* digits := lift (toFixed objectiveValue 2) in
            ret ("an objective value of " +:+ digits)
       else ret "optimized resource allocation") in
    let* now := newDate in
    let a := [mkItem ("opt-feasible-" +:+ AnalysisResult.id result) resource
                "Optimal Resource Allocation"
                ("Your " +:+ ToString name +:+ " optimization model has a feasible solution with "
                   +:+ outcomeText +:+ ".")
                (Fin 0.9)
                (VObj [("optimizationName", name); ("objectiveValue", objectiveValue)])
                analysis now] in
    let* b := checkVariables result in
    let* c := checkConstraints result in
    ret (a ++ b ++ c)
  else if strict_eq_bool feasible false then
    let* name := lift (get data "name") in
    let* now := newDate in
    ret [mkItem ("opt-infeasible-" +:+ AnalysisResult.id result) business
           "Resource Constraints Too Tight"
           ("Your " +:+ ToString name
              +:+ " optimization model doesn't have a feasible solution. Consider relaxing some constraints or adding more resources.")
           (Fin 0.9)
           (VObj [("optimizationName", name)])
           analysis now]
  else ret [].

Definition extractOptimizationRecommendations (results : list AnalysisResult.t)
  : M (list RecommendationItem.t) :=
  forEach optimizationInsights (recentOptimizations results).

(** ** String methods used on chat text *)

Definition lowerChar (c : ascii) : ascii :=
  let n := nat_of_ascii c in
  if ((65 <=? n) && (n <=? 90))%nat then ascii_of_nat (n + 32) else c.

Definition upperChar (c : ascii) : ascii :=
  let n := nat_of_ascii c in
  if ((97 <=? n) && (n <=? 122))%nat then ascii_of_nat (n - 32) else c.

Fixpoint toLowerCase (s : string) : string :=
  match s with
  | EmptyString => EmptyString
  | String c r => String (lowerChar c) (toLowerCase r)
  end.

Fixpoint includes (s sub : string) : bool :=
  String.prefix sub s ||
  match s with
  | EmptyString => false
  | String _ r => includes r sub
  end.

Definition isTerminator (c : ascii) : bool :=
  Ascii.eqb c "." || Ascii.eqb c "!" || Ascii.eqb c "?".

(** [s.split(/[.!?]+/)]; [afterSep] tells that the previous character closed
    a piece. *)
Fixpoint splitFrom (s : string) (afterSep : bool) : list string :=
  match s with
  | EmptyString => [""]
  | String c r =>
      if isTerminator c then
        if afterSep then splitFrom r true else "" :: splitFrom r true
      else
        match splitFrom r false with
        | p :: ps => String c p :: ps
        | [] => [String c ""]
        end
  end.

Definition splitSentences (s : string) : list string := splitFrom s false.

Definition isSpace (c : ascii) : bool :=
  let n := nat_of_ascii c in
  ((9 <=? n) && (n <=? 13) || (n =? 32))%nat.

Fixpoint trimStart (s : string) : string :=
  match s with
  | EmptyString => EmptyString
  | String c r => if isSpace c then trimStart r else s
  end.

Fixpoint trimEnd (s : string) : string :=
  match s with
  | EmptyString => EmptyString
  | String c r =>
      match trimEnd r with
      | EmptyString => if isSpace c then EmptyString else String c EmptyString
      | r' => String c r'
      end
  end.

Definition trim (s : string) : string := trimEnd (trimStart s).

(** [s.charAt(0).toUpperCase() + s.slice(1)] *)
Definition capitalize (s : string) : string :=
  match s with
  | EmptyString => EmptyString
  | String c r => String (upperChar c) r
  end.

(** ** extractChatInsights *)

Definition keywordMap : list (string * string) :=
  [("increase", "growth"); ("expand", "growth"); ("grow", "growth");
   ("profit", "profit"); ("revenue", "profit");
   ("cost", "cost"); ("expense", "cost"); ("save", "cost");
   ("risk", "risk");
   ("market", "market"); ("demand", "market"); ("customer", "market");
   ("season", "seasonal"); ("weather", "seasonal"); ("climate", "seasonal");
   ("resource", "resource"); ("water", "resource"); ("soil", "resource");
   ("fertilizer", "resource"); ("pest", "resource"); ("equipment", "resource")].

(** The [categories] object: its keys in insertion order, each with the
    array of sentences pushed so far. *)
Definition emptyCategories : list (string * list string) :=
  [("growth", []); ("profit", []); ("cost", []); ("risk", []);
   ("market", []); ("seasonal", []); ("resource", [])].

(** [categories[category].push(sentence)] for a key of the object. *)
Definition pushSentence (category sentence : string) (categories : list (string * list string))
  : list (string * list string) :=
  List.map (fun kv => if String.eqb (fst kv) category
                      then (fst kv, snd kv ++ [sentence]) else kv) categories.

Definition byMessageRecency (a b : ChatMessage.t) : num :=
  let dateA := time_or_zero (ChatMessage.created_at a) in
  let dateB := time_or_zero (ChatMessage.created_at b) in
  num_sub dateB dateA.

Definition recentMessages (messages : list ChatMessage.t) : list ChatMessage.t :=
  let sortedMessages :=
    sort byMessageRecency
      (List.filter (fun m => String.eqb (ChatMessage.role m) "assistant") messages) in
  take 10 sortedMessages.

Definition scanKeyword (message : ChatMessage.t) (categories : list (string * list string))
    (entry : string * string) : list (string * list string) :=
  let '(keyword, category) := entry in
  let content := toLowerCase (ChatMessage.content message) in
  if includes content keyword then
    let sentences := splitSentences (ChatMessage.content message) in
    let relevantSentences := List.filter (fun s => includes (toLowerCase s) keyword) sentences in
    match relevantSentences with
    | first :: _ => pushSentence category (trim first) categories
    | [] => categories
    end
  else categories.

Definition scanMessage (categories : list (string * list string)) (message : ChatMessage.t)
  : list (string * list string) :=
  fold_left (scanKeyword message) keywordMap categories.

Definition collectCategories (messages : list ChatMessage.t) : list (string * list string) :=
  fold_left scanMessage (recentMessages messages) emptyCategories.

Definition categoryType (category : string) : RecType :=
  if String.eqb category "growth" || String.eqb category "profit" then business
  else if String.eqb category "market" || String.eqb category "seasonal" then market
  else if String.eqb category "resource" || String.eqb category "cost" then resource
  else business.

Definition categoryTitles : list (string * string) :=
  [("growth", "Growth Opportunity"); ("profit", "Profit Enhancement");
   ("cost", "Cost Saving Opportunity"); ("risk", "Risk Management");
   ("market", "Market Intelligence"); ("seasonal", "Seasonal Planning");
   ("resource", "Resource Optimization")].

Fixpoint lookupTitle (category : string) (table : list (string * string)) : option string :=
  match table with
  | [] => None
  | (k, t) :: table' => if String.eqb category k then Some t else lookupTitle category table'
  end.

(** [title || 'AI Insight'] *)
Definition titleOrDefault (title : option string) : string :=
  match title with
  | Some t => if String.eqb t "" then "AI Insight" else t
  | None => "AI Insight"
  end.

Definition categoryInsight (entry : string * list string) : M (list RecommendationItem.t) :=
  let '(category, sentences) := entry in
  match sentences with
  | topSentence :: _ =>
      let type := categoryType category in
      let title := lookupTitle category categoryTitles in
      let* stamp := Date_now in
      let* now := newDate in
      ret [mkItem ("chat-" +:+ category +:+ "-" +:+ ToString stamp) type
             (titleOrDefault title)
             topSentence
             (Fin 0.6)
             (VObj [("category", VStr category);
                    ("relatedSentences", VArr (List.map VStr sentences))])
             chat now]
  | [] => ret []
  end.

Definition extractChatInsights (messages : list ChatMessage.t) : M (list RecommendationItem.t) :=
  forEach categoryInsight (collectCategories messages).

(** ** addSeasonalRecommendations *)

Definition seasonName (s : Season) : string :=
  match s with
  | spring => "spring"
  | summer => "summer"
  | fall => "fall"
  | winter => "winter"
  end.

Definition seasonalCrops (s : Season) : list string :=
  match s with
  | spring => ["Corn"; "Soybeans"; "Rice"; "Cotton"; "Vegetables"]
  | summer => ["Sunflower"; "Sorghum"; "Millet"; "Vegetables"; "Fruits"]
  | fall => ["Winter Wheat"; "Barley"; "Rapeseed"; "Root vegetables"]
  | winter => ["Planning"; "Equipment maintenance"; "Soil preparation"]
  end.

Definition seasonalActivities (s : Season) : list string :=
  match s with
  | spring => ["Planting"; "Soil preparation"; "Fertilizing"; "Pest management planning"]
  | summer => ["Irrigation management"; "Pest control"; "Crop monitoring"; "Early harvest planning"]
  | fall => ["Harvesting"; "Storage preparation"; "Market research"; "Winter crop planting"]
  | winter => ["Equipment maintenance"; "Financial planning"; "Education"; "Crop planning"]
  end.

Definition addSeasonalRecommendations (currentSeason : option Season)
  : M (list RecommendationItem.t) :=
  match currentSeason with
  | None => ret []
  | Some season =>
      let name := seasonName season in
      let* stamp1 := Date_now in
      let* now1 := newDate in
      let cropItem :=
        mkItem ("seasonal-crop-" +:+ ToString stamp1) crop
          (capitalize name +:+ " Crop Recommendations")
          ("Consider focusing on these crops this " +:+ name +:+ ": "
             +:+ String.concat ", " (seasonalCrops season) +:+ ".")
          (Fin 0.7)
          (VObj [("season", VStr name);
                 ("recommendedCrops", VArr (List.map VStr (seasonalCrops season)))])
          seasonal now1 in
      let* stamp2 := Date_now in
      let* now2 := newDate in
      let activityItem :=
        mkItem ("seasonal-activity-" +:+ ToString stamp2) business
          (capitalize name +:+ " Activity Focus")
          ("Key activities for this " +:+ name +:+ ": "
             +:+ String.concat ", " (seasonalActivities season) +:+ ".")
          (Fin 0.7)
          (VObj [("season", VStr name);
                 ("recommendedActivities", VArr (List.map VStr (seasonalActivities season)))])
          seasonal now2 in
      ret [cropItem; activityItem]
  end.

(** ** generateRecommendations *)

Definition Date_toDateString (d : Date) : string :=
  match d with
  | ValidDate ms => toDateString ms
  | InvalidDate => "Invalid Date"
  end.

Definition byCreation (a b : RecommendationItem.t) : num :=
  let dateA := getTime (RecommendationItem.createdAt a) in
  let dateB := getTime (RecommendationItem.createdAt b) in
  num_sub dateB dateA.

Definition byConfidenceWithinDay (a b : RecommendationItem.t) : num :=
  let dateA := Date_toDateString (RecommendationItem.createdAt a) in
  let dateB := Date_toDateString (RecommendationItem.createdAt b) in
  if String.eqb dateA dateB
  then num_sub (RecommendationItem.confidence b) (RecommendationItem.confidence a)
  else Fin 0.

Definition countOfType (t : string) (results : list AnalysisResult.t) : nat :=
  length (List.filter (fun r => String.eqb (AnalysisResult.type r) t) results).

Definition titleSentence (rec : option RecommendationItem.t) : string :=
  match rec with
  | Some r => RecommendationItem.title r +:+ ". "
  | None => ""
  end.

Definition findType (t : RecType) (recs : list RecommendationItem.t)
  : option RecommendationItem.t :=
  List.find (fun r => bool_decide (RecommendationItem.type r = t)) recs.

Definition fallbackSummary : string :=
  "Insufficient data for personalized recommendations. Continue using Arina to analyze your agricultural business for tailored insights.".

Definition buildSummary (input : RecommendationInput)
    (finalRecommendations : list RecommendationItem.t) : string :=
  let topRecs := take 5 finalRecommendations in
  if (0 <? length topRecs)%nat then
    let businessRec := findType business topRecs in
    let marketRec := findType market topRecs in
    let resourceRec := findType resource topRecs in
    let cropRec := findType crop topRecs in
    let nBusiness := countOfType "business_feasibility" (analysisResults input) in
    let nForecast := countOfType "demand_forecast" (analysisResults input) in
    let nOptimization := countOfType "optimization" (analysisResults input) in
    let opening :=
      if (0 <? nBusiness)%nat || (0 <? nForecast)%nat || (0 <? nOptimization)%nat then
        "Based on your "
          +:+ (if (0 <? nBusiness)%nat then "business feasibility analysis, " else "")
          +:+ (if (0 <? nForecast)%nat then "demand forecasting, " else "")
          +:+ (if (0 <? nOptimization)%nat then "optimization analysis, " else "")
          +:+ "we recommend: "
      else "Based on your historical data, we recommend: " in
    opening
      +:+ titleSentence businessRec +:+ titleSentence marketRec
      +:+ titleSentence resourceRec +:+ titleSentence cropRec
      +:+ match currentSeason input with
          | Some season =>
              "Consider adjusting your strategy for the " +:+ seasonName season +:+ " season."
          | None => ""
          end
  else fallbackSummary.

Definition generateRecommendations (input : RecommendationInput) : M RecommendationSet.t :=
  let sortedResults := take 10 (sortByRecency (analysisResults input)) in
  let* businessRecs := extractBusinessRecommendations sortedResults in
  let* forecastRecs := extractForecastRecommendations sortedResults in
  let* optimizationRecs := extractOptimizationRecommendations sortedResults in
  let* chatRecs := extractChatInsights (chatHistory input) in
  let* seasonalRecs := addSeasonalRecommendations (currentSeason input) in
  let allRecommendations :=
    businessRecs ++ forecastRecs ++ optimizationRecs ++ chatRecs ++ seasonalRecs in
  let allRecommendations := sort byCreation allRecommendations in
  let allRecommendations := sort byConfidenceWithinDay allRecommendations in
  let finalRecommendations := take 10 allRecommendations in
  let summary := buildSummary input finalRecommendations in
  let* stamp := Date_now in
  let* now := newDate in
  ret (RecommendationSet.Build_t ("rec-set-" +:+ ToString stamp) (userId input)
         finalRecommendations summary now).

End Engine.

(** ** A host for running the definitions on concrete inputs

    Integers print in decimal and other rationals as a fraction; [toFixed]
    rounds half up; a day is 86400000 ms of UTC; the clock advances by one
    millisecond per reading. *)

Definition digitChar (d : Z) : ascii := ascii_of_nat (48 + Z.to_nat d).

Fixpoint digitsOf (fuel : nat) (z : Z) (acc : string) : string :=
  match fuel with
  | O => acc
  | S fuel' =>
      let acc' := String (digitChar (z mod 10)) acc in
      if (z / 10 =? 0)%Z then acc' else digitsOf fuel' (z / 10) acc'
  end.

Definition showNat (z : Z) : string := digitsOf (S (Z.to_nat (Z.log2 z))) z "".
Definition showZ (z : Z) : string :=
  if (z <? 0)%Z then "-" +:+ showNat (- z) else showNat z.

Fixpoint padLeft (width : nat) (s : string) : string :=
  if (String.length s <? width)%nat
  then match width with
       | O => s
       | S w => "0" +:+ padLeft w s
       end
  else s.

Definition showFixed (q : Q) (d : nat) : string :=
  let scale := 10 ^ Z.of_nat d in
  let n := (2 * Z.abs (Qnum q) * scale + Z.pos (Qden q)) / (2 * Z.pos (Qden q)) in
  let body := showNat (n / scale) +:+
              (if (0 <? d)%nat then "." +:+ padLeft d (showNat (n mod scale)) else "") in
  if (Qnum q <? 0)%Z && negb (n =? 0)%Z then "-" +:+ body else body.

Definition sampleHost : Host := {|
  StringToNumber := fun _ => NaN;
  NumberToString := fun n =>
    match n with
    | Fin q => let r := Qred q in
               if (Z.pos (Qden r) =? 1)%Z then showZ (Qnum r)
               else showZ (Qnum r) +:+ "/" +:+ showZ (Z.pos (Qden r))
    | PInf => "Infinity"
    | NInf => "-Infinity"
    | NaN => "NaN"
    end;
  toFixedDigits := fun n d =>
    match n with
    | Fin q => showFixed q d
    | PInf => "Infinity"
    | NInf => "-Infinity"
    | NaN => "NaN"
    end;
  toDateString := fun ms => "day " +:+ showZ (ms / 86400000);
  clock := fun n => 1700000000000 + Z.of_nat n
|}.

(** ** Vocabulary of the statements *)

(** The fields of an item that a rule fixes. *)
Definition itemIs (item : RecommendationItem.t) (id : string) (type : RecType)
    (title : string) (confidence : num) (source : RecSource) : Prop :=
  RecommendationItem.id item = id /\
  RecommendationItem.type item = type /\
  RecommendationItem.title item = title /\
  RecommendationItem.confidence item = confidence /\
  RecommendationItem.source item = source.

Definition titled (title : string) (item : RecommendationItem.t) : bool :=
  String.eqb (RecommendationItem.title item) title.


(** A rule as its item shows it: id prefix, type, title, confidence, source. *)
Record rule := Rule {
  rulePrefix : string;
  ruleType : RecType;
  ruleTitle : string;
  ruleConfidence : num;
  ruleSource : RecSource
}.

(** The rules of each extractor, in the order its callback tries them. *)
Definition businessRules : list rule :=
  [Rule "biz-profit-" business "Profitable Business Model" (Fin 0.8) analysis;
   Rule "biz-roi-" business "Strong Return on Investment" (Fin 0.75) analysis;
   Rule "biz-cost-" resource "Cost Reduction Opportunity" (Fin 0.7) analysis;
   Rule "biz-breakeven-" business "Favorable Break-Even Point" (Fin 0.85) analysis].

Definition forecastRules : list rule :=
  [Rule "forecast-growth-" market "Growing Demand Trend" (Fin 0.75) analysis;
   Rule "forecast-decline-" market "Declining Demand Alert" (Fin 0.75) analysis;
   Rule "forecast-seasonal-" market "Seasonal Demand Pattern" (Fin 0.7) pattern;
   Rule "forecast-accuracy-" business "High Forecast Reliability" (Fin 0.8) analysis;
   Rule "forecast-inaccuracy-" business "Forecast Uncertainty Alert" (Fin 0.7) analysis].

Definition optimizationRules : list rule :=
  [Rule "opt-feasible-" resource "Optimal Resource Allocation" (Fin 0.9) analysis;
   Rule "opt-resources-" resource "Key Resource Allocation" (Fin 0.8) analysis;
   Rule "opt-constraints-" business "Resource Bottlenecks Identified" (Fin 0.85) analysis;
   Rule "opt-infeasible-" business "Resource Constraints Too Tight" (Fin 0.9) analysis].

Definition chatRules : list rule :=
  [Rule "chat-growth-" business "Growth Opportunity" (Fin 0.6) chat;
   Rule "chat-profit-" business "Profit Enhancement" (Fin 0.6) chat;
   Rule "chat-cost-" resource "Cost Saving Opportunity" (Fin 0.6) chat;
   Rule "chat-risk-" business "Risk Management" (Fin 0.6) chat;
   Rule "chat-market-" market "Market Intelligence" (Fin 0.6) chat;
   Rule "chat-seasonal-" market "Seasonal Planning" (Fin 0.6) chat;
   Rule "chat-resource-" resource "Resource Optimization" (Fin 0.6) chat].

Definition seasonalRules (name : string) : list rule :=
  [Rule "seasonal-crop-" crop (capitalize name +:+ " Crop Recommendations") (Fin 0.7) seasonal;
   Rule "seasonal-activity-" business (capitalize name +:+ " Activity Focus") (Fin 0.7) seasonal].

Definition fires (r : rule) (owner : string) (item : RecommendationItem.t) : Prop :=
  itemIs item (rulePrefix r +:+ owner) (ruleType r) (ruleTitle r)
    (ruleConfidence r) (ruleSource r).

(** [items] were pushed by some of [rules], each at most once and in their
    order, on behalf of [owner] (the id suffix). *)
Definition pushedBy (rules : list rule) (owner : string)
    (items : list RecommendationItem.t) : Prop :=
  exists fired, fired `sublist_of` rules /\ Forall2 (fun r item => fires r owner item) fired items.

(** No element of [rest] is more recent than an element of [scanned]. *)
Definition noLessRecent {A} (stamp : A -> Z) (scanned rest : list A) : Prop :=
  Forall (fun r => Forall (fun s => (stamp r <= stamp s)%Z) scanned) rest.

(** [scanned] holds most recent elements of [all], the most recent first:
    what [all] holds besides is no more recent than any of them. *)
Definition mostRecentOf {A} (stamp : A -> Z) (all scanned : list A) : Prop :=
  StronglySorted (fun a b => (stamp b <= stamp a)%Z) scanned /\
  exists rest, scanned ++ rest ≡ₚ all /\ noLessRecent stamp scanned rest.

(** [scanned] holds the [k] most recent elements of [all] (all of them when
    there are fewer), the most recent first. *)
Definition mostRecent {A} (stamp : A -> Z) (k : nat) (all scanned : list A) : Prop :=
  length scanned = Nat.min k (length all) /\ mostRecentOf stamp all scanned.


Definition fromAssistant (m : ChatMessage.t) : bool :=
  String.eqb (ChatMessage.role m) "assistant".

(** The seven chat categories, in the order of the [categories] object. *)
Definition categoryNames : list string :=
  ["growth"; "profit"; "cost"; "risk"; "market"; "seasonal"; "resource"].

(** The sentence a keyword records from a message: the first sentence of the
    message that contains the keyword, trimmed. *)
Definition keywordHit (message : ChatMessage.t) (keyword : string) : option string :=
  if includes (toLowerCase (ChatMessage.content message)) keyword then
    match List.filter (fun s => includes (toLowerCase s) keyword)
                      (splitSentences (ChatMessage.content message)) with
    | first :: _ => Some (trim first)
    | [] => None
    end
  else None.

(** The specification's view of the scan: the recorded sentences with their
    categories, message by message and keyword by keyword. *)
Definition recordedSentences (messages : list ChatMessage.t) : list (string * string) :=
  flat_map (fun message =>
    flat_map (fun entry : string * string =>
                match keywordHit message (fst entry) with
                | Some sentence => [(snd entry, sentence)]
                | None => []
                end) keywordMap) messages.

(** The sentences recorded into one category, first recorded first. *)
Definition recordedIn (category : string) (events : list (string * string)) : list string :=
  List.map snd (List.filter (fun e => String.eqb category (fst e)) events).

(** The type the specification gives a category. *)
Definition typeAsSpecified (c : string) (type : RecType) : Prop :=
  (c = "growth" \/ c = "profit" \/ c = "risk" -> type = business) /\
  (c = "market" \/ c = "seasonal" -> type = market) /\
  (c = "resource" \/ c = "cost" -> type = resource).

Definition insightOf (c : string) (sentences : list string)
    (item : RecommendationItem.t) : Prop :=
  exists first rest,
    sentences = first :: rest /\
    RecommendationItem.description item = first /\
    lookupTitle c categoryTitles = Some (RecommendationItem.title item) /\
    RecommendationItem.confidence item = Fin 0.6 /\
    RecommendationItem.source item = chat /\
    typeAsSpecified c (RecommendationItem.type item) /\
    get (RecommendationItem.data item) "category" = Returned (VStr c).

(** Two prefixes that differ at a position both have: no two strings that
    start with them are equal. *)
Fixpoint diverge (p q : string) : bool :=
  match p, q with
  | String a p', String b q' => negb (Ascii.eqb a b) || diverge p' q'
  | _, _ => false
  end.

Definition wellSeparated (prefixes : list string) : bool :=
  forallb (fun p => forallb (fun q => String.eqb p q || diverge p q) prefixes) prefixes.

Definition allRules : list rule :=
  businessRules ++ forecastRules ++ optimizationRules ++ chatRules ++ seasonalRules "".

(** The ids of [items] are the keys, a prefix and an owner each, joined. *)
Definition keyed (keys : list (string * string)) (items : list RecommendationItem.t) : Prop :=
  Forall2 (fun k item => RecommendationItem.id item = fst k +:+ snd k) keys items.

(** Every prefix of [prefixes] paired with every owner, owner by owner. *)
Definition ownedKeys (prefixes owners : list string) : list (string * string) :=
  owners ≫= (fun o => (fun p => (p, o)) <$> prefixes).

(** As [pushedBy], with an owner of its own for each item. *)
Definition firedAny (rules : list rule) (items : list RecommendationItem.t) : Prop :=
  exists fired, fired `sublist_of` rules /\
    Forall2 (fun r item => exists owner, fires r owner item) fired items.

(** Shapes of payloads under which no rule raises. *)
Definition nullish (v : value) : bool :=
  match v with
  | VUndef | VNull => true
  | _ => false
  end.

(** [v.k], reading [undefined] where the access would raise. *)
Definition field (v : value) (k : string) : value :=
  match get v k with
  | Returned x => x
  | TypeError => VUndef
  end.





(** ** Sample inputs *)

Definition analysisOf (id type : string) (data : value) (created_at : option Date)
  : AnalysisResult.t :=
  AnalysisResult.Build_t id "user-1" type data created_at None.

Definition datedResults : list AnalysisResult.t :=
  [analysisOf "a1" "optimization" (VObj []) (Some (ValidDate 5));
   analysisOf "a2" "optimization" (VObj []) None;
   analysisOf "a3" "demand_forecast" (VObj []) (Some (ValidDate 9))].

Definition invalidDateResults : list AnalysisResult.t :=
  [analysisOf "b1" "optimization" (VObj []) (Some InvalidDate);
   analysisOf "b2" "optimization" (VObj []) (Some (ValidDate 5))].


Definition infeasibleResult : AnalysisResult.t :=
  analysisOf "o1" "optimization"
    (VObj [("feasible", VBool false); ("name", VStr "Crop mix")]) (Some (ValidDate 5)).


Definition point (forecast : Q) : value := VObj [("forecast", VNum (Fin forecast))].

Definition forecastResult (first last mape : Q) : AnalysisResult.t :=
  analysisOf "f1" "demand_forecast"
    (VObj [("productName", VStr "Rice");
           ("forecasted", VArr [point first; point 110; point last]);
           ("accuracy", VObj [("mape", VNum (Fin mape))])])
    (Some (ValidDate 7)).


Definition breakEvenResult (units volume : Q) : AnalysisResult.t :=
  analysisOf "b1" "business_feasibility"
    (VObj [("businessName", VStr "FarmCo");
           ("breakEvenUnits", VNum (Fin units));
           ("monthlySalesVolume", VNum (Fin volume))])
    (Some (ValidDate 8)).



Definition richBusiness (id : string) (ms : Z) : AnalysisResult.t :=
  analysisOf id "business_feasibility"
    (VObj [("businessName", VStr "FarmCo");
           ("profitMargin", VNum (Fin 0.3));
           ("roi", VNum (Fin 0.2));
           ("operationalCosts",
            VArr [VObj [("name", VStr "rent"); ("amount", VNum (Fin 10))];
                  VObj [("name", VStr "labor"); ("amount", VNum (Fin 30))]]);
           ("breakEvenUnits", VNum (Fin 10));
           ("monthlySalesVolume", VNum (Fin 100))])
    (Some (ValidDate ms)).

Definition busyInput : RecommendationInput :=
  Build_RecommendationInput "user-1"
    [richBusiness "b1" 1; richBusiness "b2" 2; richBusiness "b3" 3; richBusiness "b4" 4;
     forecastResult 100 130 5; infeasibleResult]
    [ChatMessage.Build_t "m1" "c1" "assistant"
       "You should expand your farm. Water is scarce! Risk is low." (Some (ValidDate 3));
     ChatMessage.Build_t "m2" "c1" "user" "Is the market growing?" (Some (ValidDate 4))]
    (Some winter).

(** Two items that differ at most in what was read from the clock. *)
Definition sameAdvice (a b : RecommendationItem.t) : Prop :=
  RecommendationItem.type a = RecommendationItem.type b /\
  RecommendationItem.title a = RecommendationItem.title b /\
  RecommendationItem.description a = RecommendationItem.description b /\
  RecommendationItem.confidence a = RecommendationItem.confidence b /\
  RecommendationItem.data a = RecommendationItem.data b /\
  RecommendationItem.source a = RecommendationItem.source b.

Definition winterOnly (userId : string) : RecommendationInput :=
  Build_RecommendationInput userId [] [] (Some winter).

(** The row of the rule tables an item comes from. *)
Definition fromRuleTable (season : option Season) (item : RecommendationItem.t) : Prop :=
  exists r owner,
    (r ∈ businessRules ++ forecastRules ++ optimizationRules ++ chatRules \/
     exists s, season = Some s /\ r ∈ seasonalRules (seasonName s)) /\
    fires r owner item.

Definition tiedResults : list AnalysisResult.t :=
  [analysisOf "t1" "optimization" (VObj []) (Some (ValidDate 5));
   analysisOf "t2" "demand_forecast" (VObj []) (Some (ValidDate 9));
   analysisOf "t3" "optimization" (VObj []) (Some (ValidDate 5));
   analysisOf "t4" "business_feasibility" (VObj []) None;
   analysisOf "t5" "optimization" (VObj []) (Some (ValidDate 5))].

(** The analysis types an extractor reads. *)
Definition scannedType (t : string) : bool :=
  String.eqb t "business_feasibility" || String.eqb t "demand_forecast"
    || String.eqb t "optimization".

(** [s] ends with [suffix]. *)
Definition endsWith (s suffix : string) : Prop := exists start, s = start +:+ suffix.

Definition seasonSentence (season : Season) : string :=
  "Consider adjusting your strategy for the " +:+ seasonName season +:+ " season.".

Definition quietInput : RecommendationInput :=
  {| userId := "u1";
     analysisResults := [analysisOf "a1" "soil_report" (VObj []) (Some (ValidDate 5))];
     chatHistory := [ChatMessage.Build_t "m1" "c1" "user" "How do I grow profit?" None];
     currentSeason := None |}.

(** The analyses a run hands to a rule callback: for each of the three
    types, the first three of the type among the first ten of the input in
    recency order (the most recent ones when no date is invalid). *)
Definition scannedBy (input : RecommendationInput) (r : AnalysisResult.t) : Prop :=
  let sortedResults := take 10 (sortByRecency (analysisResults input)) in
  r ∈ recentBusinessResults sortedResults \/
  r ∈ recentForecasts sortedResults \/
  r ∈ recentOptimizations sortedResults.

Definition nullPayloadInput : RecommendationInput :=
  {| userId := "u1";
     analysisResults :=
       [richBusiness "b1" 1; analysisOf "o9" "optimization" VNull (Some (ValidDate 2))];
     chatHistory := [];
     currentSeason := Some winter |}.

Fixpoint allChars (p : ascii -> bool) (s : string) : bool :=
  match s with
  | EmptyString => true
  | String c r => p c && allChars p r
  end.

Definition notTerminator (c : ascii) : bool := negb (isTerminator c).
Definition notSpace (c : ascii) : bool := negb (isSpace c).

(** A non-empty word without sentence terminators or white space. *)
Definition plainWord (w : string) : bool :=
  negb (String.eqb w "") && allChars notTerminator w && allChars notSpace w.

(** [message.content.toLowerCase().includes(keyword)] *)
Definition mentions (message : ChatMessage.t) (keyword : string) : bool :=
  includes (toLowerCase (ChatMessage.content message)) keyword.

(** The text holds ASCII characters only; on such text the case folding,
    the white space and the characters of the embedding are those of
    JavaScript. *)
Definition asciiText (s : string) : bool :=
  allChars (fun c => (nat_of_ascii c <? 128)%nat) s.

(** The messages of the assistant carry a valid date, or none, and ASCII
    text. *)
Definition plainChat (messages : list ChatMessage.t) : Prop :=
  Forall (fun m => messageParseable m = true /\ asciiText (ChatMessage.content m) = true)
         (List.filter fromAssistant messages).

(** The category an item carries in its data. *)
Definition ofCategory (category : string) (item : RecommendationItem.t) : Prop :=
  get (RecommendationItem.data item) "category" = Returned (VStr category).

(** The item was created at a clock reading made from reading number [n]
    on and before reading number [n']. *)
Definition stampedWithin {host : Host} (n n' : nat) (item : RecommendationItem.t) : Prop :=
  exists j, (n <= j < n')%nat /\ RecommendationItem.createdAt item = ValidDate (clock j).

(** What a computation pushes was created at readings it made itself. *)
Definition stamps {host : Host} (m : M (list RecommendationItem.t)) : Prop :=
  forall n items n',
    m n = Returned (items, n') -> (n <= n')%nat /\ Forall (stampedWithin n n') items.

(** The confidence levels of the rule tables. *)
Definition confidenceLevels : list num :=
  [Fin 0.6; Fin 0.7; Fin 0.75; Fin 0.8; Fin 0.85; Fin 0.9].

(** A confidence in hundredths. *)
Definition hundredths (c : num) : Z :=
  match c with
  | Fin q => (100 * Qnum q) / Z.pos (Qden q)
  | _ => 0
  end.

Definition createdMs (item : RecommendationItem.t) : Z :=
  match RecommendationItem.createdAt item with
  | ValidDate ms => ms
  | InvalidDate => 0
  end.









Definition feasibleResult (objectiveValue : value) : AnalysisResult.t :=
  analysisOf "o5" "optimization"
    (VObj [("feasible", VBool true); ("name", VStr "Crop mix");
           ("objectiveValue", objectiveValue)])
    (Some (ValidDate 5)).

(** * Properties *)

(** The keyword table is only unfolded where a proof asks for it. *)
Opaque keywordMap.


(** ** Numbers *)

Lemma Qltb_spec (a b : Q) : Qltb a b = true <-> (a < b)%Q.
Proof.
  unfold Qltb. rewrite negb_true_iff. split.
  - intros H. apply Qnot_le_lt. intros Hle. apply Qle_bool_iff in Hle. congruence.
  - intros H. destruct (Qle_bool b a) eqn:E; [|reflexivity].
    apply Qle_bool_iff in E. exfalso. exact (Qlt_not_le _ _ H E).
Qed.

Lemma goes_after_sub_Z (x y : Z) :
  goes_after (num_sub (num_of_Z y) (num_of_Z x)) = (x <? y)%Z.
Proof.
  unfold goes_after, num_sub, num_of_Z. simpl.
  destruct (x <? y)%Z eqn:E.
  - apply Qltb_spec. apply Z.ltb_lt in E.
    unfold Qlt, Qplus, Qopp, inject_Z. simpl. lia.
  - apply not_true_is_false. intros H. apply Qltb_spec in H.
    apply Z.ltb_ge in E. unfold Qlt, Qplus, Qopp, inject_Z in H. simpl in H. lia.
Qed.





(** ** The sort *)

Section SortFacts.
Context {A : Type} (cmp : A -> A -> num).

Lemma insert_sorted_perm (x : A) (l : list A) : insert_sorted cmp x l ≡ₚ x :: l.
Proof.
  induction l as [|y l IH]; simpl; [reflexivity|].
  destruct (goes_after (cmp x y)); [|reflexivity].
  rewrite IH. apply Permutation_swap.
Qed.

Lemma sort_perm (l : list A) : sort cmp l ≡ₚ l.
Proof.
  induction l as [|x l IH]; simpl; [reflexivity|].
  rewrite insert_sorted_perm. by rewrite IH.
Qed.

Lemma sort_length (l : list A) : length (sort cmp l) = length l.
Proof. apply Permutation_length, sort_perm. Qed.

Lemma sort_elem_of (x : A) (l : list A) : x ∈ sort cmp l <-> x ∈ l.
Proof. by rewrite sort_perm. Qed.

(** When the comparator is the descending order of an integer key on the
    elements at hand, the result is ordered by that key. *)
Context (key : A -> Z) (P : A -> Prop).
Hypothesis cmp_key : forall x y, P x -> P y -> goes_after (cmp x y) = (key x <? key y)%Z.

Lemma insert_sorted_desc (x : A) (l : list A) :
  P x -> Forall P l ->
  StronglySorted (fun a b => (key b <= key a)%Z) l ->
  StronglySorted (fun a b => (key b <= key a)%Z) (insert_sorted cmp x l).
Proof.
  intros Hx HP Hs. induction Hs as [|y l Hs IH Hy]; simpl.
  - repeat constructor.
  - inversion HP as [|? ? Py HP']; subst.
    rewrite cmp_key by assumption.
    destruct (key x <? key y)%Z eqn:E.
    + apply Z.ltb_lt in E. constructor; [by apply IH|].
      rewrite insert_sorted_perm. constructor; [lia | exact Hy].
    + apply Z.ltb_ge in E. constructor; [by constructor|].
      constructor; [exact E|].
      eapply Forall_impl; [exact Hy|]. simpl. intros; lia.
Qed.

Lemma sort_desc (l : list A) :
  Forall P l -> StronglySorted (fun a b => (key b <= key a)%Z) (sort cmp l).
Proof.
  induction 1 as [|x l Hx HP IH]; simpl; [constructor|].
  apply insert_sorted_desc; [exact Hx | | exact IH].
  rewrite Forall_forall in *. intros y Hy. apply HP. by apply sort_elem_of.
Qed.

End SortFacts.

(** ** sortByRecency *)

Lemma byRecency_timestamp (x y : AnalysisResult.t) :
  parseable x = true -> parseable y = true ->
  goes_after (byRecency x y) = (timestamp x <? timestamp y)%Z.
Proof.
  unfold parseable, byRecency, timestamp, time_or_zero.
  destruct (AnalysisResult.created_at x) as [[mx|]|],
           (AnalysisResult.created_at y) as [[my|]|];
    intros; try discriminate; simpl getTime;
    first [apply goes_after_sub_Z | apply (goes_after_sub_Z 0) | apply (goes_after_sub_Z _ 0)].
Qed.

(** ** The most recent elements *)

Lemma StronglySorted_sublist_of {A} (R : A -> A -> Prop) (l1 l2 : list A) :
  l1 `sublist_of` l2 -> StronglySorted R l2 -> StronglySorted R l1.
Proof.
  induction 1 as [|x l1 l2 Hsub IH|x l1 l2 Hsub IH]; intros Hs.
  - constructor.
  - apply StronglySorted_inv in Hs as [Hs Hall]. constructor; [by apply IH|].
    rewrite Forall_forall in *. intros y Hy. apply Hall. by eapply elem_of_sublist.
  - apply StronglySorted_inv in Hs as [Hs _]. by apply IH.
Qed.

Lemma StronglySorted_across {A} (R : A -> A -> Prop) (l1 l2 : list A) (a b : A) :
  StronglySorted R (l1 ++ l2) -> a ∈ l1 -> b ∈ l2 -> R a b.
Proof.
  induction l1 as [|x l1 IH]; intros Hs Ha Hb; [by apply elem_of_nil in Ha|].
  cbn [app] in Hs. apply StronglySorted_inv in Hs as [Hs Hx].
  apply elem_of_cons in Ha as [->|Ha]; [|by apply IH].
  rewrite Forall_forall in Hx. apply Hx. rewrite elem_of_app. by right.
Qed.


Section MostRecentFacts.
Context {A : Type} (cmp : A -> A -> num) (key : A -> Z) (P : A -> Prop).
Hypothesis cmp_key : forall x y, P x -> P y -> goes_after (cmp x y) = (key x <? key y)%Z.

(** Sorting by a comparator that orders by descending key and keeping the
    first [k] elements keeps the [k] elements of largest key. *)
Lemma take_sort_mostRecent (k : nat) (l : list A) :
  Forall P l -> mostRecent key k l (take k (sort cmp l)).
Proof using cmp_key.
  intros HP.
  pose proof (sort_desc cmp key P cmp_key l HP) as Hsorted.
  split; [by rewrite length_take, sort_length|]. split.
  - eapply StronglySorted_sublist_of; [apply sublist_take | exact Hsorted].
  - exists (drop k (sort cmp l)). split; [by rewrite take_drop, (sort_perm cmp)|].
    apply Forall_forall. intros r Hr. apply Forall_forall. intros s0 Hs.
    apply (StronglySorted_across (fun a b => (key b <= key a)%Z)
             (take k (sort cmp l)) (drop k (sort cmp l)) s0 r); [|exact Hs | exact Hr].
    by rewrite take_drop.
Qed.

End MostRecentFacts.

Lemma byMessageRecency_timestamp (x y : ChatMessage.t) :
  messageParseable x = true -> messageParseable y = true ->
  goes_after (byMessageRecency x y) = (messageTimestamp x <? messageTimestamp y)%Z.
Proof.
  unfold messageParseable, byMessageRecency, messageTimestamp, time_or_zero.
  destruct (ChatMessage.created_at x) as [[mx|]|],
           (ChatMessage.created_at y) as [[my|]|];
    intros; try discriminate; simpl getTime;
    first [apply goes_after_sub_Z | apply (goes_after_sub_Z 0) | apply (goes_after_sub_Z _ 0)].
Qed.


(** The messages the chat extractor scans. *)
Lemma recentMessages_mostRecent (messages : list ChatMessage.t) :
  Forall (fun m => messageParseable m = true) (List.filter fromAssistant messages) ->
  mostRecent messageTimestamp 10 (List.filter fromAssistant messages) (recentMessages messages).
Proof.
  intros HP. unfold recentMessages.
  apply (take_sort_mostRecent byMessageRecency messageTimestamp
           (fun m => messageParseable m = true)).
  - intros x y. apply byMessageRecency_timestamp.
  - exact HP.
Qed.



Lemma sortByRecency_store_eq (h : gmap nat (list AnalysisResult.t)) (results : nat)
    (l : list AnalysisResult.t) :
  h !! results = Some l ->
  sortByRecency_store h results =
    (fresh (dom h), <[fresh (dom h) := sortByRecency l]> h).
Proof.
  intros Hl. unfold sortByRecency_store, spread, sort_in_place. rewrite Hl. simpl.
  f_equal. apply map_eq. intros i.
  destruct (decide (i = fresh (dom h))) as [->|Hne].
  - by rewrite lookup_alter_eq, !lookup_insert_eq.
  - by rewrite lookup_alter_ne, !lookup_insert_ne.
Qed.

Lemma StronglySorted_suffix {A} (R : A -> A -> Prop) (l1 l2 : list A) :
  StronglySorted R (l1 ++ l2) -> StronglySorted R l2.
Proof.
  induction l1 as [|x l1 IH]; simpl; [done|].
  intros H. apply StronglySorted_inv in H as [H _]. by apply IH.
Qed.

(** C1 (as amended). Run on the array stored at [results], the recency sorter
    returns a freshly allocated array: the input array and every other array of
    the store are left as they were, the new array holds [sortByRecency] of the
    input, which has the length of the input and is a permutation of it; and
    when no record carries an invalid date it is ordered by non-increasing
    timestamp, a missing timestamp counting as the epoch, so that only records
    dated at or before the epoch come after a record without timestamp. *)
Theorem sortByRecency_copy_perm_sorted
    (h : gmap nat (list AnalysisResult.t)) (results : nat) (l : list AnalysisResult.t) :
  h !! results = Some l ->
  let out := (sortByRecency_store h results).1 in
  let h' := (sortByRecency_store h results).2 in
  out <> results /\
  h' !! results = Some l /\
  (forall a, a <> out -> h' !! a = h !! a) /\
  h' !! out = Some (sortByRecency l) /\
  length (sortByRecency l) = length l /\
  sortByRecency l ≡ₚ l /\
  (Forall (fun r => parseable r = true) l ->
   StronglySorted (fun a b => (timestamp b <= timestamp a)%Z) (sortByRecency l) /\
   forall before r after,
     sortByRecency l = before ++ r :: after ->
     AnalysisResult.created_at r = None ->
     Forall (fun r' => (timestamp r' <= 0)%Z) after).
Proof.
  intros Hl. rewrite (sortByRecency_store_eq h results l Hl). simpl.
  assert (Hfresh : fresh (dom h) <> results).
  { intros E. apply (is_fresh (dom h)). rewrite E. apply elem_of_dom. eauto. }
  split; [exact Hfresh|].
  split; [by rewrite lookup_insert_ne|].
  split; [intros a Ha; by rewrite lookup_insert_ne|].
  split; [by rewrite lookup_insert_eq|].
  split; [apply sort_length|].
  split; [apply sort_perm|].
  intros HP.
  assert (Hsorted : StronglySorted (fun a b => (timestamp b <= timestamp a)%Z)
                      (sortByRecency l)).
  { unfold sortByRecency.
    apply (sort_desc byRecency timestamp (fun r => parseable r = true)); [|exact HP].
    intros x y. apply byRecency_timestamp. }
  split; [exact Hsorted|].
  intros before r after Hsplit Hnone.
  rewrite Hsplit in Hsorted. apply StronglySorted_suffix in Hsorted.
  apply StronglySorted_inv in Hsorted as [_ Hall].
  unfold timestamp at 2 in Hall. by rewrite Hnone in Hall.
Qed.

Lemma sortByRecency_copy_perm_sorted_witness :
  sortByRecency datedResults ≡ₚ datedResults /\
  StronglySorted (fun a b => (timestamp b <= timestamp a)%Z) (sortByRecency datedResults).
Proof.
  destruct (sortByRecency_copy_perm_sorted {[ 7%nat := datedResults ]} 7 datedResults)
    as (_ & _ & _ & _ & _ & Hperm & Hsorted).
  - apply lookup_singleton_eq.
  - split; [exact Hperm|]. apply Hsorted.
    repeat constructor.
Defined.

(** C1 as stated fails: a record whose [created_at] is an invalid date makes
    the comparator return NaN, which leaves it in place, so the output is not
    ordered by the timestamp that counts such a record at the epoch. *)
Lemma sortByRecency_invalid_date_unsorted :
  ~ StronglySorted (fun a b => (timestamp b <= timestamp a)%Z)
      (sortByRecency invalidDateResults).
Proof.
  intros H. inversion H as [|? ? _ Hall]; subst.
  inversion Hall as [|? ? Hle _]; subst.
  vm_compute in Hle. by apply Hle.
Qed.

(** The arithmetic stays folded while the rules are run symbolically. *)
Arguments num_ltb : simpl never.
Arguments num_gtb : simpl never.
Arguments num_geb : simpl never.
Arguments num_add : simpl never.
Arguments num_sub : simpl never.
Arguments num_mul : simpl never.
Arguments num_div : simpl never.
Arguments num_abs : simpl never.
Arguments growthRateOf : simpl never.
Arguments js_add : simpl never.
Arguments js_sub : simpl never.
Arguments js_div : simpl never.
Arguments js_gt : simpl never.
Arguments js_lt : simpl never.
Arguments percent1 : simpl never.
Arguments ToString : simpl never.
Arguments ToNumber : simpl never.
Arguments String.append : simpl never.

(** ** Loops *)

Section LoopFacts.
Context {A : Type} (f : A -> M (list RecommendationItem.t)).

(** What a completed [forEach] pushed is the concatenation of what the
    callback pushed on each element, in order. *)
Lemma forEach_inv (l : list A) (n n' : nat) (items : list RecommendationItem.t) :
  forEach f l n = Returned (items, n') ->
  exists chunks,
    items = concat chunks /\
    Forall2 (fun x chunk => exists k k', f x k = Returned (chunk, k')) l chunks.
Proof.
  revert n items. induction l as [|x l IH]; intros n items H.
  - inversion H; subst. exists []. split; [reflexivity | constructor].
  - simpl in H. unfold bind in H.
    destruct (f x n) as [[a k]|] eqn:Ea; [|discriminate].
    destruct (forEach f l k) as [[b k2]|] eqn:Eb; [|discriminate].
    inversion H; subst.
    destruct (IH _ _ Eb) as (chunks & -> & Hall).
    exists (a :: chunks). split; [reflexivity|].
    constructor; [eauto | exact Hall].
Qed.


End LoopFacts.

Lemma take_sort_prefix {A} (cmp : A -> A -> num) (k : nat) (l : list A) :
  (length (take k (sort cmp l)) <= k)%nat /\ take k (sort cmp l) `prefix_of` sort cmp l.
Proof. split; [rewrite length_take; lia | apply prefix_take]. Qed.

(** ** The optimization rules *)

Ltac run_check :=
  unfold bind, lift, ret, newDate, Date_now; simpl.

Section OptimizationFacts.
Context {host : Host}.




End OptimizationFacts.



(** ** What each check can push *)

Ltac invert_run H :=
  unfold bind, lift, ret, newDate, Date_now in H;
  repeat match type of H with
         | context [match get ?v ?k with _ => _ end] =>
             destruct (get v k) eqn:?; simpl in H; try discriminate H
         | context [if ?b then _ else _] =>
             destruct b eqn:?; simpl in H; try discriminate H
         | context [match ?x with _ => _ end] =>
             destruct x eqn:?; simpl in H; try discriminate H
         end;
  try (inversion H; subst; clear H).

Lemma pushedBy_nil (rules : list rule) (owner : string) : pushedBy rules owner [].
Proof. exists []. split; [apply sublist_nil_l | constructor]. Qed.

Lemma pushedBy_at (i : nat) (r : rule) (rules : list rule) (owner : string)
    (item : RecommendationItem.t) :
  rules !! i = Some r -> fires r owner item -> pushedBy rules owner [item].
Proof.
  intros Hin Hf. exists [r]. split.
  - apply singleton_sublist_l. by eapply list_elem_of_lookup_2.
  - constructor; [exact Hf | constructor].
Qed.

Lemma pushedBy_app (rules1 rules2 : list rule) (owner : string)
    (a b : list RecommendationItem.t) :
  pushedBy rules1 owner a -> pushedBy rules2 owner b ->
  pushedBy (rules1 ++ rules2) owner (a ++ b).
Proof.
  intros (f1 & Hs1 & H1) (f2 & Hs2 & H2). exists (f1 ++ f2). split.
  - by apply sublist_app.
  - by apply Forall2_app.
Qed.

Ltac solve_pushed :=
  first [ apply pushedBy_nil
        | eapply (pushedBy_at 0); [reflexivity | by repeat split]
        | eapply (pushedBy_at 1); [reflexivity | by repeat split] ].

Section Shapes.
Context {host : Host}.

Lemma checkProfitability_pushed result n items n' :
  checkProfitability result n = Returned (items, n') ->
  pushedBy (take 1 businessRules) (AnalysisResult.id result) items.
Proof. intros H. unfold checkProfitability in H. invert_run H; solve_pushed. Qed.

Lemma checkROI_pushed result n items n' :
  checkROI result n = Returned (items, n') ->
  pushedBy (take 1 (drop 1 businessRules)) (AnalysisResult.id result) items.
Proof. intros H. unfold checkROI in H. invert_run H; solve_pushed. Qed.

Lemma checkCostStructure_pushed result n items n' :
  checkCostStructure result n = Returned (items, n') ->
  pushedBy (take 1 (drop 2 businessRules)) (AnalysisResult.id result) items.
Proof. intros H. unfold checkCostStructure in H. invert_run H; solve_pushed. Qed.

Lemma checkBreakEven_pushed result n items n' :
  checkBreakEven result n = Returned (items, n') ->
  pushedBy (drop 3 businessRules) (AnalysisResult.id result) items.
Proof. intros H. unfold checkBreakEven in H. invert_run H; solve_pushed. Qed.

Lemma businessInsights_inv result n items n' :
  businessInsights result n = Returned (items, n') ->
  exists a b c d k1 k2 k3,
    checkProfitability result n = Returned (a, k1) /\
    checkROI result k1 = Returned (b, k2) /\
    checkCostStructure result k2 = Returned (c, k3) /\
    checkBreakEven result k3 = Returned (d, n') /\
    items = a ++ b ++ c ++ d.
Proof.
  unfold businessInsights, bind, ret. intros H.
  destruct (checkProfitability result n) as [[a k1]|] eqn:Ea; [|discriminate].
  destruct (checkROI result k1) as [[b k2]|] eqn:Eb; [|discriminate].
  destruct (checkCostStructure result k2) as [[c k3]|] eqn:Ec; [|discriminate].
  destruct (checkBreakEven result k3) as [[d k4]|] eqn:Ed; [|discriminate].
  inversion H; subst. by exists a, b, c, d, k1, k2, k3.
Qed.

Lemma businessInsights_pushed result n items n' :
  businessInsights result n = Returned (items, n') ->
  pushedBy businessRules (AnalysisResult.id result) items.
Proof.
  intros H. apply businessInsights_inv in H as (a & b & c & d & k1 & k2 & k3 & Ha & Hb & Hc & Hd & ->).
  apply checkProfitability_pushed in Ha. apply checkROI_pushed in Hb.
  apply checkCostStructure_pushed in Hc. apply checkBreakEven_pushed in Hd.
  exact (pushedBy_app _ _ _ _ _ Ha (pushedBy_app _ _ _ _ _ Hb (pushedBy_app _ _ _ _ _ Hc Hd))).
Qed.

Lemma checkGrowthTrend_pushed result n items n' :
  checkGrowthTrend result n = Returned (items, n') ->
  pushedBy (take 2 forecastRules) (AnalysisResult.id result) items.
Proof. intros H. unfold checkGrowthTrend in H. invert_run H; solve_pushed. Qed.

Lemma checkSeasonality_pushed result n items n' :
  checkSeasonality result n = Returned (items, n') ->
  pushedBy (take 1 (drop 2 forecastRules)) (AnalysisResult.id result) items.
Proof. intros H. unfold checkSeasonality in H. invert_run H; solve_pushed. Qed.

Lemma checkForecastAccuracy_pushed result n items n' :
  checkForecastAccuracy result n = Returned (items, n') ->
  pushedBy (drop 3 forecastRules) (AnalysisResult.id result) items.
Proof. intros H. unfold checkForecastAccuracy in H. invert_run H; solve_pushed. Qed.

Lemma forecastInsights_inv result n items n' :
  forecastInsights result n = Returned (items, n') ->
  exists a b c k1 k2,
    checkGrowthTrend result n = Returned (a, k1) /\
    checkSeasonality result k1 = Returned (b, k2) /\
    checkForecastAccuracy result k2 = Returned (c, n') /\
    items = a ++ b ++ c.
Proof.
  unfold forecastInsights, bind, ret. intros H.
  destruct (checkGrowthTrend result n) as [[a k1]|] eqn:Ea; [|discriminate].
  destruct (checkSeasonality result k1) as [[b k2]|] eqn:Eb; [|discriminate].
  destruct (checkForecastAccuracy result k2) as [[c k3]|] eqn:Ec; [|discriminate].
  inversion H; subst. by exists a, b, c, k1, k2.
Qed.

Lemma forecastInsights_pushed result n items n' :
  forecastInsights result n = Returned (items, n') ->
  pushedBy forecastRules (AnalysisResult.id result) items.
Proof.
  intros H. apply forecastInsights_inv in H as (a & b & c & k1 & k2 & Ha & Hb & Hc & ->).
  apply checkGrowthTrend_pushed in Ha. apply checkSeasonality_pushed in Hb.
  apply checkForecastAccuracy_pushed in Hc.
  exact (pushedBy_app _ _ _ _ _ Ha (pushedBy_app _ _ _ _ _ Hb Hc)).
Qed.

Lemma checkVariables_pushed result n items n' :
  checkVariables result n = Returned (items, n') ->
  pushedBy (take 1 (drop 1 optimizationRules)) (AnalysisResult.id result) items.
Proof. intros H. unfold checkVariables in H. invert_run H; solve_pushed. Qed.

Lemma checkConstraints_pushed result n items n' :
  checkConstraints result n = Returned (items, n') ->
  pushedBy (take 1 (drop 2 optimizationRules)) (AnalysisResult.id result) items.
Proof. intros H. unfold checkConstraints in H. invert_run H; solve_pushed. Qed.

Lemma optimizationInsights_pushed result n items n' :
  optimizationInsights result n = Returned (items, n') ->
  pushedBy optimizationRules (AnalysisResult.id result) items.
Proof.
  intros H. unfold optimizationInsights in H.
  unfold bind at 1 in H. unfold lift in H.
  destruct (get (AnalysisResult.data result) "feasible") as [feasible|]; [|discriminate].
  destruct (strict_eq_bool feasible true).
  - unfold bind, lift, ret, newDate in H.
    destruct (get (AnalysisResult.data result) "name") as [name|]; [|discriminate].
    destruct (get (AnalysisResult.data result) "objectiveValue") as [objective|]; [|discriminate].
    destruct (ToBoolean objective);
      [destruct (toFixed objective 2); [|discriminate]|];
      (destruct (checkVariables result (S n)) as [[b k1]|] eqn:Eb; [|discriminate];
       destruct (checkConstraints result k1) as [[c k2]|] eqn:Ec; [|discriminate];
       inversion H; subst;
       apply checkVariables_pushed in Eb; apply checkConstraints_pushed in Ec;
       apply (pushedBy_app (take 1 optimizationRules) (drop 1 optimizationRules) _ [_] (b ++ c));
       [ solve_pushed
       | apply (pushedBy_app (take 1 (drop 1 optimizationRules)) (drop 2 optimizationRules));
         [ exact Eb
         | rewrite <- (app_nil_r c);
           apply (pushedBy_app (take 1 (drop 2 optimizationRules)) (drop 3 optimizationRules));
           [exact Ec | apply pushedBy_nil] ] ]).
  - destruct (strict_eq_bool feasible false).
    + invert_run H. apply (pushedBy_app (take 3 optimizationRules) (drop 3 optimizationRules) _ []);
        [apply pushedBy_nil | solve_pushed].
    + inversion H; subst. apply pushedBy_nil.
Qed.

End Shapes.




(** ** Growth, break-even and accuracy rules *)

Lemma pushedBy_no_title (rules : list rule) (owner title : string)
    (items : list RecommendationItem.t) :
  pushedBy rules owner items ->
  forallb (fun r => negb (String.eqb (ruleTitle r) title)) rules = true ->
  List.filter (titled title) items = [].
Proof.
  intros (fired & Hsub & Hall) Hno.
  assert (Hfired : Forall (fun r => String.eqb (ruleTitle r) title = false) fired).
  { apply Forall_forall. intros r Hr.
    assert (Hin : r ∈ rules) by (eapply elem_of_sublist; eauto).
    rewrite forallb_forall in Hno. apply list_elem_of_In in Hin.
    specialize (Hno r Hin). by apply negb_true_iff in Hno. }
  clear Hsub Hno. induction Hall as [|r item fired items Hf _ IH]; [reflexivity|].
  inversion Hfired as [|? ? Hr Hrest]; subst. simpl.
  destruct Hf as (_ & _ & Ht & _). unfold titled at 1. rewrite Ht, Hr. by apply IH.
Qed.

Section ForecastFacts.
Context {host : Host}.




End ForecastFacts.



Section ThresholdFacts.
Context {host : Host}.

Lemma checkBreakEven_fires (result : AnalysisResult.t) (units volume : value) (n : nat) :
  get (AnalysisResult.data result) "breakEvenUnits" = Returned units ->
  get (AnalysisResult.data result) "monthlySalesVolume" = Returned volume ->
  ToBoolean units = true -> ToBoolean volume = true ->
  num_ltb (js_div units volume) (Fin 0.5) = true ->
  exists item,
    checkBreakEven result n = Returned ([item], S n) /\
    fires (Rule "biz-breakeven-" business "Favorable Break-Even Point" (Fin 0.85) analysis)
      (AnalysisResult.id result) item.
Proof.
  intros Hu Hv Tu Tv Hr. unfold checkBreakEven. run_check.
  rewrite Hu, Hv. simpl. rewrite Tu, Tv. simpl. rewrite Hr.
  eexists. split; [reflexivity | by repeat split].
Qed.

(** C5 (as amended). When [breakEvenUnits] and [monthlySalesVolume] are both
    truthy (for Numbers: neither zero nor NaN) and their ratio is below 0.5, the
    break-even check pushes exactly one "Favorable Break-Even Point" item with
    confidence 0.85 and type business, and it is the only item of that title
    among those a completed callback pushed for the analysis. *)
Theorem breakEven_rule (result : AnalysisResult.t) (units volume : value) :
  get (AnalysisResult.data result) "breakEvenUnits" = Returned units ->
  get (AnalysisResult.data result) "monthlySalesVolume" = Returned volume ->
  ToBoolean units = true -> ToBoolean volume = true ->
  num_ltb (js_div units volume) (Fin 0.5) = true ->
  (forall n, exists item,
     checkBreakEven result n = Returned ([item], S n) /\
     itemIs item ("biz-breakeven-" +:+ AnalysisResult.id result) business
       "Favorable Break-Even Point" (Fin 0.85) analysis) /\
  (forall n items n',
     businessInsights result n = Returned (items, n') ->
     exists item,
       List.filter (titled "Favorable Break-Even Point") items = [item] /\
       itemIs item ("biz-breakeven-" +:+ AnalysisResult.id result) business
         "Favorable Break-Even Point" (Fin 0.85) analysis).
Proof.
  intros Hu Hv Tu Tv Hr. split.
  - intros n. exact (checkBreakEven_fires result units volume n Hu Hv Tu Tv Hr).
  - intros n items n' H.
    apply businessInsights_inv in H
      as (a & b & c & d & k1 & k2 & k3 & Ha & Hb & Hc & Hd & ->).
    destruct (checkBreakEven_fires result units volume k3 Hu Hv Tu Tv Hr)
      as (item & Hrun & Hitem).
    rewrite Hrun in Hd. inversion Hd; subst.
    exists item. split; [|exact Hitem].
    rewrite !List.filter_app.
    rewrite (pushedBy_no_title _ _ _ _ (checkProfitability_pushed _ _ _ _ Ha)) by reflexivity.
    rewrite (pushedBy_no_title _ _ _ _ (checkROI_pushed _ _ _ _ Hb)) by reflexivity.
    rewrite (pushedBy_no_title _ _ _ _ (checkCostStructure_pushed _ _ _ _ Hc)) by reflexivity.
    simpl. unfold titled. destruct Hitem as (_ & _ & -> & _). reflexivity.
Qed.

End ThresholdFacts.

Lemma breakEven_rule_witness :
  exists item,
    @checkBreakEven sampleHost (breakEvenResult 10 100) 0%nat = Returned ([item], 1%nat) /\
    itemIs item "biz-breakeven-b1" business "Favorable Break-Even Point" (Fin 0.85) analysis.
Proof.
  destruct (@breakEven_rule sampleHost (breakEvenResult 10 100)
              (VNum (Fin 10)) (VNum (Fin 100))) as [Hcheck _]; try reflexivity.
  exact (Hcheck 0%nat).
Defined.

(** C5 as stated fails: with [breakEvenUnits = 0] and [monthlySalesVolume = 100]
    both fields are present and the ratio 0 is below 0.5, yet the guard
    [data.breakEvenUnits && data.monthlySalesVolume] is false and nothing is
    pushed. *)
Lemma breakEven_zero_units_skipped :
  ~ (forall (host : Host) (result : AnalysisResult.t) (units volume : value) (n : nat),
       get (AnalysisResult.data result) "breakEvenUnits" = Returned units ->
       units <> VUndef ->
       get (AnalysisResult.data result) "monthlySalesVolume" = Returned volume ->
       volume <> VUndef ->
       num_ltb (js_div units volume) (Fin 0.5) = true ->
       exists items n' item,
         businessInsights result n = Returned (items, n') /\
         item ∈ items /\
         RecommendationItem.title item = "Favorable Break-Even Point").
Proof.
  intros H.
  destruct (H sampleHost (breakEvenResult 0 100) (VNum (Fin 0)) (VNum (Fin 100)) 0%nat)
    as (items & n' & item & Hrun & Hin & _); try done.
  vm_compute in Hrun. inversion Hrun; subst. by apply elem_of_nil in Hin.
Qed.

Section AccuracyFacts.
Context {host : Host}.



End AccuracyFacts.



(** ** The chat extractor *)

Lemma pushSentence_buckets (names : list string) (B : string -> list string)
    (category sentence : string) :
  pushSentence category sentence (List.map (fun c => (c, B c)) names) =
  List.map (fun c => (c, B c ++ recordedIn c [(category, sentence)])) names.
Proof.
  unfold pushSentence. rewrite List.map_map. apply List.map_ext. intros c.
  unfold recordedIn. simpl. destruct (String.eqb c category); simpl; [reflexivity|].
  by rewrite app_nil_r.
Qed.

Lemma recordedIn_app (c : string) (e1 e2 : list (string * string)) :
  recordedIn c (e1 ++ e2) = recordedIn c e1 ++ recordedIn c e2.
Proof. unfold recordedIn. by rewrite List.filter_app, List.map_app. Qed.

Lemma scanKeyword_hit (message : ChatMessage.t) (categories : list (string * list string))
    (keyword category : string) :
  scanKeyword message categories (keyword, category) =
  match keywordHit message keyword with
  | Some sentence => pushSentence category sentence categories
  | None => categories
  end.
Proof.
  unfold scanKeyword, keywordHit.
  destruct (includes (toLowerCase (ChatMessage.content message)) keyword); [|reflexivity].
  by destruct (List.filter _ _).
Qed.

Lemma scanKeywords_buckets (message : ChatMessage.t) (names : list string)
    (entries : list (string * string)) (B : string -> list string) :
  fold_left (scanKeyword message) entries (List.map (fun c => (c, B c)) names) =
  List.map (fun c => (c, B c ++ recordedIn c
     (flat_map (fun entry : string * string =>
                  match keywordHit message (fst entry) with
                  | Some sentence => [(snd entry, sentence)]
                  | None => []
                  end) entries))) names.
Proof.
  revert B. induction entries as [|[keyword category] entries IH]; intros B.
  - simpl. apply List.map_ext. intros c. by rewrite app_nil_r.
  - cbn [fold_left flat_map fst snd]. rewrite scanKeyword_hit.
    destruct (keywordHit message keyword) as [sentence|].
    + rewrite pushSentence_buckets, IH. apply List.map_ext. intros c.
      by rewrite <- app_assoc, <- recordedIn_app.
    + apply IH.
Qed.

Lemma fold_left_step {A B} (f : A -> B -> A) (x : B) (l : list B) (a : A) :
  fold_left f (x :: l) a = fold_left f l (f a x).
Proof. reflexivity. Qed.

Lemma scanMessage_buckets (message : ChatMessage.t) (names : list string)
    (B : string -> list string) :
  scanMessage (List.map (fun c => (c, B c)) names) message =
  List.map (fun c => (c, B c ++ recordedIn c (recordedSentences [message]))) names.
Proof.
  unfold scanMessage. rewrite scanKeywords_buckets.
  apply List.map_ext. intros c. unfold recordedSentences.
  cbn [flat_map]. by rewrite app_nil_r.
Qed.

Lemma recordedSentences_cons (message : ChatMessage.t) (messages : list ChatMessage.t) :
  recordedSentences (message :: messages) =
  recordedSentences [message] ++ recordedSentences messages.
Proof. unfold recordedSentences. cbn [flat_map]. by rewrite app_nil_r. Qed.

Lemma scanMessages_buckets (messages : list ChatMessage.t) (names : list string)
    (B : string -> list string) :
  fold_left scanMessage messages (List.map (fun c => (c, B c)) names) =
  List.map (fun c => (c, B c ++ recordedIn c (recordedSentences messages))) names.
Proof.
  revert B. induction messages as [|m messages IH]; intros B.
  - cbn [fold_left]. apply List.map_ext. intros c.
    change (recordedSentences []) with (@nil (string * string)).
    change (recordedIn c []) with (@nil string). by rewrite app_nil_r.
  - rewrite fold_left_step, scanMessage_buckets, IH.
    apply List.map_ext. intros c.
    by rewrite (recordedSentences_cons m messages), <- app_assoc, <- recordedIn_app.
Qed.

(** The buckets the code fills are the recorded sentences of each category. *)
Lemma collectCategories_recorded (messages : list ChatMessage.t) :
  collectCategories messages =
  List.map (fun c => (c, recordedIn c (recordedSentences (recentMessages messages))))
           categoryNames.
Proof.
  unfold collectCategories.
  replace emptyCategories with (List.map (fun c => (c, @nil string)) categoryNames)
    by reflexivity.
  rewrite scanMessages_buckets. reflexivity.
Qed.

Section ChatFacts.
Context {host : Host}.

Lemma categoryInsight_spec (c : string) (sentences : list string) (n : nat) :
  c ∈ categoryNames ->
  match sentences with
  | [] => categoryInsight (c, sentences) n = Returned ([], n)
  | _ :: _ => exists item,
      categoryInsight (c, sentences) n = Returned ([item], S (S n)) /\
      insightOf c sentences item
  end.
Proof.
  intros Hc. destruct sentences as [|first rest]; [reflexivity|].
  eexists. split; [reflexivity|].
  exists first, rest. split; [reflexivity|]. split; [reflexivity|].
  unfold categoryNames in Hc.
  repeat (apply elem_of_cons in Hc as [->|Hc]);
    [ .. | by apply elem_of_nil in Hc ];
    (split; [reflexivity|]; split; [reflexivity|]; split; [reflexivity|];
     split; [|reflexivity];
     repeat split; intros H; repeat destruct H as [H|H]; first [reflexivity | discriminate H]).
Qed.

Lemma forEach_categoryInsight (names : list string) (B : string -> list string) (n : nat) :
  Forall (fun c => c ∈ categoryNames) names ->
  exists items n',
    forEach categoryInsight (List.map (fun c => (c, B c)) names) n = Returned (items, n') /\
    Forall2 (fun c item => insightOf c (B c) item)
            (filter (fun c => B c <> []) names) items.
Proof.
  intros Hnames. revert n. induction Hnames as [|c names Hc _ IH]; intros n.
  - exists [], n. split; [reflexivity | constructor].
  - cbn [List.map forEach]. unfold bind.
    pose proof (categoryInsight_spec c (B c) n Hc) as Hone.
    rewrite filter_cons.
    destruct (B c) as [|first rest] eqn:EB.
    + rewrite Hone. destruct (IH n) as (items & n' & -> & Hall).
      exists items, n'. split; [reflexivity|].
      rewrite decide_False by (intros H; by apply H). exact Hall.
    + destruct Hone as (item & -> & Hitem).
      destruct (IH (S (S n))) as (items & n' & -> & Hall).
      exists (item :: items), n'. split; [reflexivity|].
      rewrite decide_True by done. constructor; [|exact Hall].
      by rewrite EB.
Qed.

(** C7. On every chat history the chat extractor completes with at most
    seven items, at most one per category and in the order of the categories:
    there is an item for a category exactly when a sentence was recorded into
    it; its description is the first sentence recorded into that category over
    the scanned messages, its title is the category's entry of the title table,
    its confidence 0.60, its source chat, and its type business for growth,
    profit and risk, market for market and seasonal, resource for resource and
    cost. *)
Theorem chat_insights_per_category (messages : list ChatMessage.t) (n : nat) :
  let bucket c := recordedIn c (recordedSentences (recentMessages messages)) in
  exists items n' cats,
    extractChatInsights messages n = Returned (items, n') /\
    (length items <= 7)%nat /\
    cats `sublist_of` categoryNames /\ NoDup cats /\
    (forall c, c ∈ cats <-> c ∈ categoryNames /\ bucket c <> []) /\
    Forall2 (fun c item => insightOf c (bucket c) item) cats items.
Proof.
  intros bucket. unfold extractChatInsights. rewrite collectCategories_recorded.
  destruct (forEach_categoryInsight categoryNames bucket n) as (items & n' & Hrun & Hall).
  { apply Forall_forall. auto. }
  exists items, n', (filter (fun c => bucket c <> []) categoryNames).
  split; [exact Hrun|].
  assert (Hsub : filter (fun c => bucket c <> []) categoryNames `sublist_of` categoryNames)
    by apply sublist_filter.
  split; [|split; [exact Hsub | split; [|split; [|exact Hall]]]].
  - rewrite <- (Forall2_length _ _ _ Hall).
    apply sublist_length in Hsub. exact Hsub.
  - eapply sublist_NoDup; [|exact Hsub].
    apply (bool_decide_unpack (NoDup categoryNames)). vm_compute. reflexivity.
  - intros c. rewrite list_elem_of_filter. tauto.
Qed.

End ChatFacts.

(** ** Item ids *)

Lemma diverge_apart (p q s t : string) : diverge p q = true -> p +:+ s <> q +:+ t.
Proof.
  revert q. induction p as [|a p IH]; intros [|b q]; simpl; try discriminate.
  intros H E. injection E as Eab Erest.
  apply orb_true_iff in H as [H|H].
  - subst. by rewrite Ascii.eqb_refl in H.
  - exact (IH q H Erest).
Qed.

Lemma append_inv_head (p s t : string) : p +:+ s = p +:+ t -> s = t.
Proof. induction p as [|a p IH]; simpl; [done|]. intros E. injection E. exact IH. Qed.

Lemma separated_inj (prefixes : list string) (p q s t : string) :
  wellSeparated prefixes = true -> p ∈ prefixes -> q ∈ prefixes ->
  p +:+ s = q +:+ t -> p = q /\ s = t.
Proof.
  unfold wellSeparated. rewrite forallb_forall. intros Hsep Hp Hq E.
  apply list_elem_of_In in Hp, Hq.
  specialize (Hsep p Hp). rewrite forallb_forall in Hsep. specialize (Hsep q Hq).
  apply orb_true_iff in Hsep as [Heq|Hdiv].
  - apply String.eqb_eq in Heq. subst q. split; [reflexivity|]. by apply append_inv_head in E.
  - by apply diverge_apart with (s := s) (t := t) in Hdiv.
Qed.

Lemma allRules_separated : wellSeparated (List.map rulePrefix allRules) = true.
Proof. vm_compute. reflexivity. Qed.

Lemma keyed_ids keys items :
  keyed keys items ->
  List.map RecommendationItem.id items = List.map (fun k => fst k +:+ snd k) keys.
Proof. induction 1 as [|k item keys items Hk _ IH]; simpl; [done|]. by rewrite Hk, IH. Qed.

Lemma keyed_app k1 k2 a b : keyed k1 a -> keyed k2 b -> keyed (k1 ++ k2) (a ++ b).
Proof. apply Forall2_app. Qed.

Lemma pushedBy_keyed rules owner items :
  pushedBy rules owner items ->
  exists fired, fired `sublist_of` rules /\
    keyed ((fun r => (rulePrefix r, owner)) <$> fired) items.
Proof.
  intros (fired & Hsub & Hall). exists fired. split; [exact Hsub|].
  unfold keyed. apply Forall2_fmap_l. eapply Forall2_impl; [exact Hall|].
  by intros r item (Hid & _).
Qed.

Lemma firedAny_keyed rules items :
  firedAny rules items ->
  exists keys, keys.*1 `sublist_of` rulePrefix <$> rules /\ keyed keys items.
Proof.
  intros (fired & Hsub & Hall).
  assert (exists keys, keys.*1 = rulePrefix <$> fired /\ keyed keys items) as (keys & E & Hk).
  { clear Hsub. induction Hall as [|r item fired items (o & Hid & _) _ (keys & E & Hk)].
    - exists []. split; [reflexivity | constructor].
    - exists ((rulePrefix r, o) :: keys). split; [by rewrite !fmap_cons, E|].
      constructor; [exact Hid | exact Hk]. }
  exists keys. split; [|exact Hk]. rewrite E. by apply fmap_sublist.
Qed.

Lemma ownedKeys_NoDup prefixes owners :
  NoDup prefixes -> NoDup owners -> NoDup (ownedKeys prefixes owners).
Proof.
  intros HP HO. unfold ownedKeys. apply NoDup_bind; [| |exact HO].
  - intros o1 o2 k _ _ H1 H2.
    apply list_elem_of_fmap in H1 as (p1 & -> & _).
    apply list_elem_of_fmap in H2 as (p2 & E & _). by injection E.
  - intros o _. apply NoDup_fmap_2; [|exact HP]. by intros p q E; injection E.
Qed.

Lemma ownedKeys_fst prefixes owners k :
  k ∈ ownedKeys prefixes owners -> fst k ∈ prefixes.
Proof.
  unfold ownedKeys. rewrite list_elem_of_bind. intros (o & Hk & _).
  by apply list_elem_of_fmap in Hk as (p & -> & Hp).
Qed.

(** The ids pushed over a list of analyses by callbacks that obey [rules]. *)
Lemma chunks_keyed (rules : list rule) (scanned : list AnalysisResult.t)
    (chunks : list (list RecommendationItem.t)) :
  Forall2 (fun r chunk => pushedBy rules (AnalysisResult.id r) chunk) scanned chunks ->
  exists keys,
    keys `sublist_of` ownedKeys (rulePrefix <$> rules) (AnalysisResult.id <$> scanned) /\
    keyed keys (concat chunks).
Proof.
  induction 1 as [|r chunk scanned chunks Hr _ (keys & Hsub & Hk)].
  - exists []. split; [apply sublist_nil_l | constructor].
  - apply pushedBy_keyed in Hr as (fired & Hf & Hkr).
    exists (((fun ru => (rulePrefix ru, AnalysisResult.id r)) <$> fired) ++ keys).
    split; [|by apply keyed_app].
    unfold ownedKeys. rewrite fmap_cons, bind_cons. apply sublist_app; [|exact Hsub].
    rewrite <- list_fmap_compose. by apply fmap_sublist.
Qed.

(** Keys over disjoint prefix classes can be put side by side. *)
Lemma keys_NoDup_app (P1 P2 : list string) (k1 k2 : list (string * string)) :
  NoDup (P1 ++ P2) ->
  Forall (fun k => fst k ∈ P1) k1 -> Forall (fun k => fst k ∈ P2) k2 ->
  NoDup k1 -> NoDup k2 ->
  NoDup (k1 ++ k2) /\ Forall (fun k => fst k ∈ P1 ++ P2) (k1 ++ k2).
Proof.
  intros HP H1 H2 N1 N2. apply NoDup_app in HP as (_ & Hdisj & _). split.
  - apply NoDup_app. split; [exact N1|]. split; [|exact N2].
    intros k Hk1 Hk2. rewrite Forall_forall in H1, H2.
    exact (Hdisj _ (H1 _ Hk1) (H2 _ Hk2)).
  - apply Forall_app. split; (eapply Forall_impl; [eassumption|]);
      intros k Hk; apply elem_of_app; auto.
Qed.

Lemma keys_by_prefix_NoDup (P : list string) (keys : list (string * string)) :
  NoDup P -> keys.*1 `sublist_of` P ->
  NoDup keys /\ Forall (fun k => fst k ∈ P) keys.
Proof.
  intros HP Hsub. split.
  - apply (NoDup_fmap_1 fst). by eapply sublist_NoDup.
  - apply Forall_forall. intros k Hk.
    eapply elem_of_sublist; [|exact Hsub]. apply list_elem_of_fmap. eauto.
Qed.

Lemma keyed_NoDup_ids (keys : list (string * string)) (items : list RecommendationItem.t) :
  keyed keys items -> NoDup keys ->
  Forall (fun k => fst k ∈ rulePrefix <$> allRules) keys ->
  NoDup (RecommendationItem.id <$> items).
Proof.
  intros Hk Hnd Hin.
  change (RecommendationItem.id <$> items) with (List.map RecommendationItem.id items).
  rewrite (keyed_ids _ _ Hk).
  apply NoDup_fmap_2_strong; [|exact Hnd].
  intros [p s] [q t] Hx Hy E. rewrite Forall_forall in Hin. simpl in E.
  destruct (separated_inj _ p q s t allRules_separated (Hin _ Hx) (Hin _ Hy) E). by subst.
Qed.

Lemma List_filter_sublist {A} (f : A -> bool) (l : list A) : List.filter f l `sublist_of` l.
Proof.
  induction l as [|x l IH]; simpl; [constructor|].
  destruct (f x); by constructor.
Qed.

Lemma recent_ids_NoDup {A} (key : A -> string) (cmp : A -> A -> num) (f : A -> bool)
    (k : nat) (l : list A) :
  NoDup (key <$> l) -> NoDup (key <$> take k (sort cmp (List.filter f l))).
Proof.
  intros H. eapply sublist_NoDup; [|apply fmap_sublist, sublist_take].
  rewrite (sort_perm cmp). eapply sublist_NoDup; [exact H|].
  apply fmap_sublist, List_filter_sublist.
Qed.

Lemma top_ids_NoDup {A} (key : A -> string) (cmp : A -> A -> num) (k : nat) (l : list A) :
  NoDup (key <$> l) -> NoDup (key <$> take k (sort cmp l)).
Proof.
  intros H. eapply sublist_NoDup; [|apply fmap_sublist, sublist_take].
  by rewrite (sort_perm cmp).
Qed.

Lemma sublist_prefix_class (P : list string) (owners : list string)
    (keys : list (string * string)) :
  NoDup P -> NoDup owners -> keys `sublist_of` ownedKeys P owners ->
  NoDup keys /\ Forall (fun k => fst k ∈ P) keys.
Proof.
  intros HP HO Hsub. split.
  - eapply sublist_NoDup; [|exact Hsub]. by apply ownedKeys_NoDup.
  - apply Forall_forall. intros k Hk. eapply ownedKeys_fst, elem_of_sublist; eauto.
Qed.

Section IdFacts.
Context {host : Host}.

Lemma extractor_keyed (rules : list rule)
    (insights : AnalysisResult.t -> M (list RecommendationItem.t))
    (scanned : list AnalysisResult.t) (n n' : nat) (items : list RecommendationItem.t) :
  (forall r k chunk k', insights r k = Returned (chunk, k') ->
                        pushedBy rules (AnalysisResult.id r) chunk) ->
  NoDup (rulePrefix <$> rules) ->
  NoDup (AnalysisResult.id <$> scanned) ->
  forEach insights scanned n = Returned (items, n') ->
  exists keys, keyed keys items /\ NoDup keys /\
               Forall (fun k => fst k ∈ rulePrefix <$> rules) keys.
Proof.
  intros Hpush HP HO Hrun.
  apply forEach_inv in Hrun as (chunks & -> & Hall).
  destruct (chunks_keyed rules scanned chunks) as (keys & Hsub & Hk).
  { eapply Forall2_impl; [exact Hall|]. intros r chunk (k & k' & Hr). eauto. }
  exists keys. split; [exact Hk|]. by apply (sublist_prefix_class _ (AnalysisResult.id <$> scanned)).
Qed.

Lemma forEach_fired {A} (f : A -> M (list RecommendationItem.t)) (xs : list A)
    (rules : list rule) (n : nat) :
  Forall2 (fun x r => forall k,
             f x k = Returned ([], k) \/
             exists item k', f x k = Returned ([item], k') /\ exists o, fires r o item)
          xs rules ->
  exists items n', forEach f xs n = Returned (items, n') /\ firedAny rules items.
Proof.
  intros H. revert n. induction H as [|x r xs rules Hx _ IH]; intros n.
  - exists [], n. split; [reflexivity|]. exists []. split; constructor.
  - cbn [forEach]. unfold bind.
    destruct (Hx n) as [->|(item & k' & -> & Hfire)].
    + destruct (IH n) as (items & n' & -> & fired & Hsub & Hall).
      exists items, n'. split; [reflexivity|]. exists fired. split; [by constructor | exact Hall].
    + destruct (IH k') as (items & n' & -> & fired & Hsub & Hall).
      exists (item :: items), n'. split; [reflexivity|].
      exists (r :: fired). split; [by constructor | by constructor].
Qed.

Lemma extractChatInsights_fired (messages : list ChatMessage.t) (n : nat) :
  exists items n',
    extractChatInsights messages n = Returned (items, n') /\ firedAny chatRules items.
Proof.
  unfold extractChatInsights. rewrite collectCategories_recorded.
  apply forEach_fired. unfold categoryNames, chatRules. cbn [List.map].
  repeat (constructor;
    [ intros k; destruct (recordedIn _ _);
      [ left; reflexivity
      | right; eexists _, _; split;
        [ reflexivity
        | exists (ToString (VNum (num_of_Z (clock k)))); by repeat split ] ]
    | ]).
  constructor.
Qed.

Lemma addSeasonalRecommendations_fired (currentSeason : option Season) (n : nat) :
  exists items n',
    addSeasonalRecommendations currentSeason n = Returned (items, n') /\
    firedAny (seasonalRules (match currentSeason with
                             | Some season => seasonName season
                             | None => ""
                             end)) items.
Proof.
  destruct currentSeason as [season|].
  - unfold addSeasonalRecommendations. run_check.
    eexists _, _. split; [reflexivity|].
    exists (seasonalRules (seasonName season)). split; [reflexivity|].
    repeat constructor; eexists; by repeat split.
  - exists [], n. split; [reflexivity|]. exists []. split; [apply sublist_nil_l | constructor].
Qed.

Lemma generateRecommendations_inv (input : RecommendationInput) (n n' : nat)
    (set : RecommendationSet.t) :
  generateRecommendations input n = Returned (set, n') ->
  exists businessRecs forecastRecs optimizationRecs chatRecs seasonalRecs k1 k2 k3 k4 k5,
    let sortedResults := take 10 (sortByRecency (analysisResults input)) in
    extractBusinessRecommendations sortedResults n = Returned (businessRecs, k1) /\
    extractForecastRecommendations sortedResults k1 = Returned (forecastRecs, k2) /\
    extractOptimizationRecommendations sortedResults k2 = Returned (optimizationRecs, k3) /\
    extractChatInsights (chatHistory input) k3 = Returned (chatRecs, k4) /\
    addSeasonalRecommendations (currentSeason input) k4 = Returned (seasonalRecs, k5) /\
    RecommendationSet.recommendations set =
      take 10 (sort byConfidenceWithinDay (sort byCreation
        (businessRecs ++ forecastRecs ++ optimizationRecs ++ chatRecs ++ seasonalRecs))) /\
    RecommendationSet.summary set = buildSummary input (RecommendationSet.recommendations set) /\
    RecommendationSet.userId set = userId input.
Proof.
  unfold generateRecommendations, bind. intros H.
  destruct (extractBusinessRecommendations _ n) as [[b k1]|] eqn:Eb; [|discriminate].
  destruct (extractForecastRecommendations _ k1) as [[f k2]|] eqn:Ef; [|discriminate].
  destruct (extractOptimizationRecommendations _ k2) as [[o k3]|] eqn:Eo; [|discriminate].
  destruct (extractChatInsights _ k3) as [[c k4]|] eqn:Ec; [|discriminate].
  destruct (addSeasonalRecommendations _ k4) as [[s k5]|] eqn:Es; [|discriminate].
  unfold Date_now, newDate, ret in H. inversion H; subst. simpl.
  exists b, f, o, c, s, k1, k2, k3, k4, k5. done.
Qed.


Ltac nodup_compute :=
  match goal with
  | |- NoDup ?l => apply (bool_decide_unpack (NoDup l)); vm_compute; reflexivity
  end.

(** C10. When the analysis results of the input have pairwise distinct ids,
    the ids of the items of the returned set are pairwise distinct. *)
Theorem recommendation_ids_distinct (input : RecommendationInput) (n n' : nat)
    (set : RecommendationSet.t) :
  NoDup (AnalysisResult.id <$> analysisResults input) ->
  generateRecommendations input n = Returned (set, n') ->
  NoDup (RecommendationItem.id <$> RecommendationSet.recommendations set).
Proof.
  intros Hids Hrun.
  apply generateRecommendations_inv in Hrun
    as (b & f & o & c & s & k1 & k2 & k3 & k4 & k5 & Hb & Hf & Ho & Hc & Hs & -> & _).
  apply top_ids_NoDup. rewrite (sort_perm byCreation).
  assert (Hsorted : NoDup (AnalysisResult.id <$>
                             take 10 (sortByRecency (analysisResults input))))
    by (by apply top_ids_NoDup).
  assert (DB : NoDup (rulePrefix <$> businessRules)) by nodup_compute.
  assert (DF : NoDup (rulePrefix <$> forecastRules)) by nodup_compute.
  assert (DO : NoDup (rulePrefix <$> optimizationRules)) by nodup_compute.
  assert (DC : NoDup (rulePrefix <$> chatRules)) by nodup_compute.
  assert (DS : NoDup (rulePrefix <$> seasonalRules "")) by nodup_compute.
  assert (D1 : NoDup ((rulePrefix <$> chatRules) ++ (rulePrefix <$> seasonalRules "")))
    by nodup_compute.
  assert (D2 : NoDup ((rulePrefix <$> optimizationRules) ++
                      (rulePrefix <$> chatRules) ++ (rulePrefix <$> seasonalRules "")))
    by nodup_compute.
  assert (D3 : NoDup ((rulePrefix <$> forecastRules) ++ (rulePrefix <$> optimizationRules) ++
                      (rulePrefix <$> chatRules) ++ (rulePrefix <$> seasonalRules "")))
    by nodup_compute.
  assert (D4 : NoDup ((rulePrefix <$> businessRules) ++
                      (rulePrefix <$> forecastRules) ++ (rulePrefix <$> optimizationRules) ++
                      (rulePrefix <$> chatRules) ++ (rulePrefix <$> seasonalRules "")))
    by nodup_compute.
  destruct (extractor_keyed businessRules businessInsights _ _ _ _
              businessInsights_pushed DB (recent_ids_NoDup _ _ _ 3 _ Hsorted) Hb)
    as (kb & Kb & Nb & Pb).
  destruct (extractor_keyed forecastRules forecastInsights _ _ _ _
              forecastInsights_pushed DF (recent_ids_NoDup _ _ _ 3 _ Hsorted) Hf)
    as (kf & Kf & Nf & Pf).
  destruct (extractor_keyed optimizationRules optimizationInsights _ _ _ _
              optimizationInsights_pushed DO (recent_ids_NoDup _ _ _ 3 _ Hsorted) Ho)
    as (ko & Ko & No & Po).
  destruct (extractChatInsights_fired (chatHistory input) k3) as (c' & k4' & Hc' & Fc).
  rewrite Hc in Hc'. inversion Hc'; subst c' k4'. clear Hc'.
  destruct (addSeasonalRecommendations_fired (currentSeason input) k4)
    as (s' & k5' & Hs' & Fs).
  rewrite Hs in Hs'. inversion Hs'; subst s' k5'. clear Hs'.
  apply firedAny_keyed in Fc as (kc & Sc & Kc).
  apply firedAny_keyed in Fs as (ks & Ss & Ks).
  destruct (keys_by_prefix_NoDup _ kc DC Sc) as (Nc & Pc).
  change (rulePrefix <$> seasonalRules _) with (rulePrefix <$> seasonalRules "") in Ss.
  destruct (keys_by_prefix_NoDup _ ks DS Ss) as (Ns & Ps).
  destruct (keys_NoDup_app _ _ kc ks D1 Pc Ps Nc Ns) as (N1 & P1).
  destruct (keys_NoDup_app _ _ ko _ D2 Po P1 No N1) as (N2 & P2).
  destruct (keys_NoDup_app _ _ kf _ D3 Pf P2 Nf N2) as (N3 & P3).
  destruct (keys_NoDup_app _ _ kb _ D4 Pb P3 Nb N3) as (N4 & P4).
  apply (keyed_NoDup_ids (kb ++ kf ++ ko ++ kc ++ ks)); [|exact N4|exact P4].
  repeat apply keyed_app; assumption.
Qed.

End IdFacts.

(** ** Completion on well-shaped payloads *)


Lemma get_field (v : value) (k : string) : nullish v = false -> get v k = Returned (field v k).
Proof. unfold field. by destruct v. Qed.







Section TotalFacts.
Context {host : Host}.


















End TotalFacts.

(** ** Completion of the whole run *)


Section RunFacts.
Context {host : Host}.




End RunFacts.



(** ** The caps *)

Section CapFacts.
Context {host : Host}.


End CapFacts.



Lemma recommendation_ids_distinct_witness :
  match @generateRecommendations sampleHost busyInput 0%nat with
  | Returned (set, _) =>
      NoDup (RecommendationItem.id <$> RecommendationSet.recommendations set)
  | TypeError => False
  end.
Proof.
  destruct (@generateRecommendations sampleHost busyInput 0%nat) as [[set k]|] eqn:E.
  - apply (@recommendation_ids_distinct sampleHost busyInput 0%nat k set); [|exact E].
    apply (bool_decide_unpack (NoDup (AnalysisResult.id <$> analysisResults busyInput))).
    vm_compute. reflexivity.
  - vm_compute in E. discriminate E.
Defined.

(** ** The seasonal recommender *)

Lemma equal_confidence_keeps_order {host : Host} (a b : RecommendationItem.t) (q : Q) :
  RecommendationItem.confidence a = Fin q ->
  RecommendationItem.confidence b = Fin q ->
  goes_after (byConfidenceWithinDay a b) = false.
Proof.
  intros Ha Hb. unfold byConfidenceWithinDay. rewrite Ha, Hb.
  destruct (String.eqb _ _); [|reflexivity].
  unfold goes_after, num_sub, num_add, num_neg, num_ltb.
  apply not_true_is_false. intros H. apply Qltb_spec in H.
  rewrite Qplus_opp_r in H. exact (Qlt_irrefl _ H).
Qed.

(** C8 (as amended). Apart from the id and the creation date of its items,
    which are read from the clock, the seasonal recommender depends on the
    season tag alone: without a tag it emits nothing; with one of the four
    seasons it emits exactly two items, the first of type crop and the second of
    type business, both with confidence 0.70 and source seasonal, titled with
    the capitalized season name. For the input with season winter and no
    analyses or chat, the returned set holds exactly those two items and its
    summary ends with "strategy for the winter season.". *)
Theorem seasonal_recommender (host1 host2 : Host) :
  (forall n, @addSeasonalRecommendations host1 None n = Returned ([], n)) /\
  (forall season n1 n2,
     exists crop1 activity1 crop2 activity2,
       @addSeasonalRecommendations host1 (Some season) n1
         = Returned ([crop1; activity1], (4 + n1)%nat) /\
       @addSeasonalRecommendations host2 (Some season) n2
         = Returned ([crop2; activity2], (4 + n2)%nat) /\
       sameAdvice crop1 crop2 /\ sameAdvice activity1 activity2 /\
       RecommendationItem.type crop1 = crop /\
       RecommendationItem.type activity1 = business /\
       RecommendationItem.confidence crop1 = Fin 0.7 /\
       RecommendationItem.confidence activity1 = Fin 0.7 /\
       RecommendationItem.source crop1 = seasonal /\
       RecommendationItem.source activity1 = seasonal /\
       RecommendationItem.title crop1
         = capitalize (seasonName season) +:+ " Crop Recommendations" /\
       RecommendationItem.title activity1
         = capitalize (seasonName season) +:+ " Activity Focus") /\
  (forall userId n,
     exists set n' cropItem activityItem,
       @generateRecommendations host1 (winterOnly userId) n = Returned (set, n') /\
       @addSeasonalRecommendations host1 (Some winter) n
         = Returned ([cropItem; activityItem], (4 + n)%nat) /\
       RecommendationSet.recommendations set ≡ₚ [cropItem; activityItem] /\
       RecommendationSet.summary set =
         "Based on your historical data, we recommend: Winter Activity Focus. Winter Crop Recommendations. Consider adjusting your strategy for the winter season." /\
       exists start, RecommendationSet.summary set
                       = start +:+ "strategy for the winter season.").
Proof.
  split; [reflexivity|]. split.
  - intros season n1 n2. unfold addSeasonalRecommendations. run_check. do 4 eexists.
    split; [reflexivity|]. split; [reflexivity|]. by repeat split.
  - intros userId n.
    set (cropItem := mkItem
      ("seasonal-crop-" +:+ @ToString host1 (VNum (num_of_Z (@clock host1 n)))) crop
      "Winter Crop Recommendations"
      "Consider focusing on these crops this winter: Planning, Equipment maintenance, Soil preparation."
      (Fin 0.7)
      (VObj [("season", VStr "winter");
             ("recommendedCrops",
              VArr [VStr "Planning"; VStr "Equipment maintenance"; VStr "Soil preparation"])])
      seasonal (ValidDate (@clock host1 (S n)))).
    set (activityItem := mkItem
      ("seasonal-activity-" +:+ @ToString host1 (VNum (num_of_Z (@clock host1 (S (S n)))))) business
      "Winter Activity Focus"
      "Key activities for this winter: Equipment maintenance, Financial planning, Education, Crop planning."
      (Fin 0.7)
      (VObj [("season", VStr "winter");
             ("recommendedActivities",
              VArr [VStr "Equipment maintenance"; VStr "Financial planning";
                    VStr "Education"; VStr "Crop planning"])])
      seasonal (ValidDate (@clock host1 (S (S (S n)))))).
    assert (Hseason : @addSeasonalRecommendations host1 (Some winter) n
                      = Returned ([cropItem; activityItem], (4 + n)%nat)) by reflexivity.
    assert (Hkeep : forall x y, x ∈ [cropItem; activityItem] -> y ∈ [cropItem; activityItem] ->
                      goes_after (@byConfidenceWithinDay host1 x y) = false).
    { intros x y Hx Hy. apply (equal_confidence_keeps_order x y 0.7).
      - apply elem_of_cons in Hx as [->|Hx]; [reflexivity|].
        apply elem_of_cons in Hx as [->|Hx]; [reflexivity | by apply elem_of_nil in Hx].
      - apply elem_of_cons in Hy as [->|Hy]; [reflexivity|].
        apply elem_of_cons in Hy as [->|Hy]; [reflexivity | by apply elem_of_nil in Hy]. }
    assert (Hfinal :
      (@generateRecommendations host1 (winterOnly userId) n =
         Returned (RecommendationSet.Build_t
                     ("rec-set-" +:+ @ToString host1 (VNum (num_of_Z (@clock host1 (4 + n)%nat))))
                     userId [cropItem; activityItem]
                     (buildSummary (winterOnly userId) [cropItem; activityItem])
                     (ValidDate (@clock host1 (5 + n)%nat)), (6 + n)%nat)) \/
      (@generateRecommendations host1 (winterOnly userId) n =
         Returned (RecommendationSet.Build_t
                     ("rec-set-" +:+ @ToString host1 (VNum (num_of_Z (@clock host1 (4 + n)%nat))))
                     userId [activityItem; cropItem]
                     (buildSummary (winterOnly userId) [activityItem; cropItem])
                     (ValidDate (@clock host1 (5 + n)%nat)), (6 + n)%nat))).
    { unfold generateRecommendations, bind. 
      change (analysisResults (winterOnly userId)) with (@nil AnalysisResult.t).
      change (take 10 (sortByRecency [])) with (@nil AnalysisResult.t).
      change (extractBusinessRecommendations [] n)
        with (@Returned (list RecommendationItem.t * nat) ([], n)).
      cbv beta iota.
      change (extractForecastRecommendations [] n)
        with (@Returned (list RecommendationItem.t * nat) ([], n)).
      cbv beta iota.
      change (extractOptimizationRecommendations [] n)
        with (@Returned (list RecommendationItem.t * nat) ([], n)).
      cbv beta iota.
      change (extractChatInsights (chatHistory (winterOnly userId)) n)
        with (@Returned (list RecommendationItem.t * nat) ([], n)).
      cbv beta iota.
      change (currentSeason (winterOnly userId)) with (Some winter). rewrite Hseason.
      cbv beta iota. cbn [app sort insert_sorted].
      destruct (goes_after (byCreation cropItem activityItem)).
      - right. cbn [sort insert_sorted].
        rewrite (Hkeep activityItem cropItem) by (repeat constructor).
        reflexivity.
      - left. cbn [sort insert_sorted].
        rewrite (Hkeep cropItem activityItem) by (repeat constructor).
        reflexivity. }
    destruct Hfinal as [Hfinal|Hfinal]; rewrite Hfinal;
      eexists _, _, cropItem, activityItem;
      (split; [reflexivity|]); (split; [exact Hseason|]);
      (split; [first [reflexivity | apply Permutation_swap]|]);
      (split; [reflexivity|]);
      exists "Based on your historical data, we recommend: Winter Activity Focus. Winter Crop Recommendations. Consider adjusting your "; reflexivity.
Qed.

(** C8 as stated fails: the items carry ids and creation dates read from the
    clock, so two calls with the same tag return different items. *)
Lemma seasonal_items_depend_on_clock :
  ~ (forall (host : Host) (season : option Season) (n1 n2 : nat) items1 k1 items2 k2,
       addSeasonalRecommendations season n1 = Returned (items1, k1) ->
       addSeasonalRecommendations season n2 = Returned (items2, k2) ->
       items1 = items2).
Proof.
  intros H.
  specialize (H sampleHost (Some winter) 0%nat 1%nat _ _ _ _ eq_refl eq_refl).
  apply (f_equal (List.map RecommendationItem.createdAt)) in H.
  vm_compute in H. discriminate H.
Qed.

(** * Further properties of the engine *)

(** ** Items and the rule tables *)

Lemma pushedBy_Forall (rules : list rule) (owner : string)
    (items : list RecommendationItem.t) :
  pushedBy rules owner items ->
  Forall (fun item => exists r, r ∈ rules /\ fires r owner item) items.
Proof.
  intros (fired & Hsub & Hall).
  induction Hall as [|r item fired items Hf _ IH] in Hsub |- *; [constructor|].
  constructor.
  - exists r. split; [|exact Hf]. eapply elem_of_sublist; [|exact Hsub]. by left.
  - apply IH. etrans; [|exact Hsub]. by constructor; reflexivity.
Qed.

Lemma firedAny_Forall (rules : list rule) (items : list RecommendationItem.t) :
  firedAny rules items ->
  Forall (fun item => exists r owner, r ∈ rules /\ fires r owner item) items.
Proof.
  intros (fired & Hsub & Hall).
  induction Hall as [|r item fired items (o & Hf) _ IH] in Hsub |- *; [constructor|].
  constructor.
  - exists r, o. split; [|exact Hf]. eapply elem_of_sublist; [|exact Hsub]. by left.
  - apply IH. etrans; [|exact Hsub]. by constructor; reflexivity.
Qed.

Lemma pushedBy_length (rules : list rule) (owner : string)
    (items : list RecommendationItem.t) :
  pushedBy rules owner items -> (length items <= length rules)%nat.
Proof.
  intros (fired & Hsub & Hall). rewrite <- (Forall2_length _ _ _ Hall).
  by apply sublist_length.
Qed.

Section TableFacts.
Context {host : Host}.

Lemma extractor_Forall (rules : list rule)
    (insights : AnalysisResult.t -> M (list RecommendationItem.t))
    (scanned : list AnalysisResult.t) (n n' : nat) (items : list RecommendationItem.t) :
  (forall r k chunk k', insights r k = Returned (chunk, k') ->
                        pushedBy rules (AnalysisResult.id r) chunk) ->
  forEach insights scanned n = Returned (items, n') ->
  Forall (fun item => exists r owner, r ∈ rules /\ fires r owner item) items.
Proof.
  intros Hpush Hrun. apply forEach_inv in Hrun as (chunks & -> & Hall).
  induction Hall as [|x chunk scanned chunks (k & k' & Hx) _ IH]; [constructor|].
  simpl. apply Forall_app. split; [|exact IH].
  apply Hpush, pushedBy_Forall in Hx.
  eapply Forall_impl; [exact Hx|]. intros item (r & Hr & Hf). eauto.
Qed.

(** X1. Every item of a returned set is an instance of one row of the rule
    tables: its type, title, confidence and source are those of the row and its
    id starts with the prefix of the row. In particular its confidence is a
    rational between 0.6 and 0.9. *)
Theorem items_follow_rule_table (input : RecommendationInput) (n n' : nat)
    (set : RecommendationSet.t) :
  generateRecommendations input n = Returned (set, n') ->
  Forall (fun item =>
            fromRuleTable (currentSeason input) item /\
            exists q, RecommendationItem.confidence item = Fin q /\
                      (0.6 <= q)%Q /\ (q <= 0.9)%Q)
         (RecommendationSet.recommendations set).
Proof.
  intros Hrun.
  apply generateRecommendations_inv in Hrun
    as (b & f & o & c & s & k1 & k2 & k3 & k4 & k5 & Hb & Hf & Ho & Hc & Hs & -> & _).
  apply Forall_take. rewrite (sort_perm byConfidenceWithinDay), (sort_perm byCreation).
  pose proof (extractor_Forall _ _ _ _ _ _ businessInsights_pushed Hb) as Fb.
  pose proof (extractor_Forall _ _ _ _ _ _ forecastInsights_pushed Hf) as Ff.
  pose proof (extractor_Forall _ _ _ _ _ _ optimizationInsights_pushed Ho) as Fo.
  destruct (extractChatInsights_fired (chatHistory input) k3) as (c' & k4' & Hc' & Fc).
  rewrite Hc in Hc'. inversion Hc'; subst c' k4'. clear Hc'.
  destruct (addSeasonalRecommendations_fired (currentSeason input) k4)
    as (s' & k5' & Hs' & Fs).
  rewrite Hs in Hs'. inversion Hs'; subst s' k5'. clear Hs'.
  apply firedAny_Forall in Fc, Fs.
  assert (Hconf : forall r owner item,
            r ∈ businessRules ++ forecastRules ++ optimizationRules ++ chatRules ++
                seasonalRules "" ->
            fires r owner item ->
            exists q, RecommendationItem.confidence item = Fin q /\
                      (0.6 <= q)%Q /\ (q <= 0.9)%Q).
  { intros r owner item Hr (_ & _ & _ & Hq & _). rewrite Hq.
    repeat (apply elem_of_cons in Hr as [->|Hr]);
      [ .. | by apply elem_of_nil in Hr ];
      (eexists; split; [reflexivity|]; split; by compute). }
  rewrite !Forall_app. repeat split.
  - eapply Forall_impl; [exact Fb|]. intros item (r & owner & Hr & Hfire). split.
    + exists r, owner. split; [left; rewrite !elem_of_app; tauto | exact Hfire].
    + apply (Hconf r owner); [rewrite !elem_of_app; tauto | exact Hfire].
  - eapply Forall_impl; [exact Ff|]. intros item (r & owner & Hr & Hfire). split.
    + exists r, owner. split; [left; rewrite !elem_of_app; tauto | exact Hfire].
    + apply (Hconf r owner); [rewrite !elem_of_app; tauto | exact Hfire].
  - eapply Forall_impl; [exact Fo|]. intros item (r & owner & Hr & Hfire). split.
    + exists r, owner. split; [left; rewrite !elem_of_app; tauto | exact Hfire].
    + apply (Hconf r owner); [rewrite !elem_of_app; tauto | exact Hfire].
  - eapply Forall_impl; [exact Fc|]. intros item (r & owner & Hr & Hfire). split.
    + exists r, owner. split; [left; rewrite !elem_of_app; tauto | exact Hfire].
    + apply (Hconf r owner); [rewrite !elem_of_app; tauto | exact Hfire].
  - destruct (currentSeason input) as [season|] eqn:Es.
    + eapply Forall_impl; [exact Fs|]. intros item (r & owner & Hr & Hfire). split.
      * exists r, owner. split; [right; eauto | exact Hfire].
      * destruct Hfire as (_ & _ & _ & Hq & _). rewrite Hq.
        repeat (apply elem_of_cons in Hr as [->|Hr]);
          [ .. | by apply elem_of_nil in Hr ];
          (eexists; split; [reflexivity|]; split; by compute).
    + simpl in Hs. unfold ret in Hs. inversion Hs; subst. constructor.
Qed.

End TableFacts.

Lemma items_follow_rule_table_witness :
  match @generateRecommendations sampleHost busyInput 0%nat with
  | Returned (set, _) =>
      Forall (fun item =>
                fromRuleTable (currentSeason busyInput) item /\
                exists q, RecommendationItem.confidence item = Fin q /\
                          (0.6 <= q)%Q /\ (q <= 0.9)%Q)
             (RecommendationSet.recommendations set)
  | TypeError => False
  end.
Proof.
  destruct (@generateRecommendations sampleHost busyInput 0%nat) as [[set k]|] eqn:E.
  - exact (@items_follow_rule_table sampleHost busyInput 0%nat k set E).
  - vm_compute in E. discriminate E.
Defined.

(** ** How many items a callback pushes *)

Section CountFacts.
Context {host : Host}.

Lemma checkGrowthTrend_at_most_one result n items n' :
  checkGrowthTrend result n = Returned (items, n') -> (length items <= 1)%nat.
Proof. intros H. unfold checkGrowthTrend in H. invert_run H; simpl; lia. Qed.

Lemma checkForecastAccuracy_at_most_one result n items n' :
  checkForecastAccuracy result n = Returned (items, n') -> (length items <= 1)%nat.
Proof. intros H. unfold checkForecastAccuracy in H. invert_run H; simpl; lia. Qed.

Lemma forecastInsights_at_most_three result n items n' :
  forecastInsights result n = Returned (items, n') -> (length items <= 3)%nat.
Proof.
  intros H. apply forecastInsights_inv in H as (a & b & c & k1 & k2 & Ha & Hb & Hc & ->).
  apply checkGrowthTrend_at_most_one in Ha.
  apply checkSeasonality_pushed, pushedBy_length in Hb.
  apply checkForecastAccuracy_at_most_one in Hc.
  rewrite !length_app. simpl in Hb. lia.
Qed.

Lemma optimizationInsights_at_most_three result n items n' :
  optimizationInsights result n = Returned (items, n') -> (length items <= 3)%nat.
Proof.
  intros H. unfold optimizationInsights in H.
  unfold bind at 1 in H. unfold lift in H.
  destruct (get (AnalysisResult.data result) "feasible") as [feasible|]; [|discriminate].
  destruct (strict_eq_bool feasible true).
  - unfold bind, lift, ret, newDate in H.
    destruct (get (AnalysisResult.data result) "name") as [name|]; [|discriminate].
    destruct (get (AnalysisResult.data result) "objectiveValue") as [objective|]; [|discriminate].
    destruct (ToBoolean objective);
      [destruct (toFixed objective 2); [|discriminate]|];
      (destruct (checkVariables result (S n)) as [[b k1]|] eqn:Eb; [|discriminate];
       destruct (checkConstraints result k1) as [[c k2]|] eqn:Ec; [|discriminate];
       inversion H; subst;
       apply checkVariables_pushed, pushedBy_length in Eb;
       apply checkConstraints_pushed, pushedBy_length in Ec;
       simpl in *; rewrite length_app; lia).
  - destruct (strict_eq_bool feasible false).
    + invert_run H. simpl. lia.
    + inversion H; subst. simpl. lia.
Qed.

Lemma concat_length_bound {A B} (R : A -> list B -> Prop) (k : nat)
    (xs : list A) (chunks : list (list B)) :
  Forall2 R xs chunks ->
  (forall x chunk, R x chunk -> (length chunk <= k)%nat) ->
  (length (concat chunks) <= k * length xs)%nat.
Proof.
  intros Hall Hk. induction Hall as [|x chunk xs chunks Hx _ IH]; simpl; [lia|].
  rewrite length_app. specialize (Hk x chunk Hx). lia.
Qed.

(** X2. A completed callback pushes at most 4 items for a business
    analysis, at most 3 for a forecast and at most 3 for an optimization run, so
    the three extractors return at most 12, 9 and 9 items. *)
Theorem extractor_item_counts :
  (forall result n items n',
     businessInsights result n = Returned (items, n') -> (length items <= 4)%nat) /\
  (forall result n items n',
     forecastInsights result n = Returned (items, n') -> (length items <= 3)%nat) /\
  (forall result n items n',
     optimizationInsights result n = Returned (items, n') -> (length items <= 3)%nat) /\
  (forall results n items n',
     extractBusinessRecommendations results n = Returned (items, n') ->
     (length items <= 12)%nat) /\
  (forall results n items n',
     extractForecastRecommendations results n = Returned (items, n') ->
     (length items <= 9)%nat) /\
  (forall results n items n',
     extractOptimizationRecommendations results n = Returned (items, n') ->
     (length items <= 9)%nat).
Proof.
  assert (Hb : forall result n items n',
            businessInsights result n = Returned (items, n') -> (length items <= 4)%nat).
  { intros result n items n' H. by apply businessInsights_pushed, pushedBy_length in H. }
  split; [exact Hb|]. split; [exact forecastInsights_at_most_three|].
  split; [exact optimizationInsights_at_most_three|].
  split; [|split]; intros results n items n' H;
    apply forEach_inv in H as (chunks & -> & Hall).
  - assert (Hlen : (length (recentBusinessResults results) <= 3)%nat)
      by (unfold recentBusinessResults; rewrite length_take; lia).
    pose proof (concat_length_bound _ 4 _ _ Hall) as Hc.
    cut (length (concat chunks) <= 4 * length (recentBusinessResults results))%nat; [lia|].
    apply Hc. intros x chunk (k & k' & Hx). by eapply Hb.
  - assert (Hlen : (length (recentForecasts results) <= 3)%nat)
      by (unfold recentForecasts; rewrite length_take; lia).
    pose proof (concat_length_bound _ 3 _ _ Hall) as Hc.
    cut (length (concat chunks) <= 3 * length (recentForecasts results))%nat; [lia|].
    apply Hc. intros x chunk (k & k' & Hx). by eapply forecastInsights_at_most_three.
  - assert (Hlen : (length (recentOptimizations results) <= 3)%nat)
      by (unfold recentOptimizations; rewrite length_take; lia).
    pose proof (concat_length_bound _ 3 _ _ Hall) as Hc.
    cut (length (concat chunks) <= 3 * length (recentOptimizations results))%nat; [lia|].
    apply Hc. intros x chunk (k & k' & Hx). by eapply optimizationInsights_at_most_three.
Qed.

End CountFacts.

Lemma extractor_item_counts_witness :
  match @extractBusinessRecommendations sampleHost (analysisResults busyInput) 0%nat with
  | Returned (items, _) => (length items <= 12)%nat
  | TypeError => False
  end.
Proof.
  destruct (@extractBusinessRecommendations sampleHost (analysisResults busyInput) 0%nat)
    as [[items k]|] eqn:E.
  - destruct (@extractor_item_counts sampleHost) as (_ & _ & _ & Hb & _).
    exact (Hb _ _ _ _ E).
  - vm_compute in E. discriminate E.
Defined.

(** ** More on the sort *)

Section SortOrderFacts.
Context {A : Type} (cmp : A -> A -> num) (key : A -> Z) (P : A -> Prop).
Hypothesis cmp_key : forall x y, P x -> P y -> goes_after (cmp x y) = (key x <? key y)%Z.

Lemma insert_sorted_same_key (t : Z) (x : A) (l : list A) :
  P x -> Forall P l ->
  List.filter (fun y => (key y =? t)%Z) (insert_sorted cmp x l) =
  List.filter (fun y => (key y =? t)%Z) (x :: l).
Proof.
  intros Hx Hl. induction Hl as [|y l Hy _ IH]; [reflexivity|].
  cbn [insert_sorted]. rewrite cmp_key by assumption.
  destruct (key x <? key y)%Z eqn:E; [|reflexivity].
  apply Z.ltb_lt in E. cbn [List.filter] in *. rewrite IH.
  destruct (key y =? t)%Z eqn:Ey, (key x =? t)%Z eqn:Ex; try reflexivity.
  apply Z.eqb_eq in Ey, Ex. lia.
Qed.

Lemma sort_same_key (t : Z) (l : list A) :
  Forall P l ->
  List.filter (fun y => (key y =? t)%Z) (sort cmp l) =
  List.filter (fun y => (key y =? t)%Z) l.
Proof.
  induction 1 as [|x l Hx Hl IH]; [reflexivity|].
  cbn [sort]. rewrite insert_sorted_same_key; [|exact Hx|].
  - cbn [List.filter]. by rewrite IH.
  - rewrite Forall_forall in *. intros y Hy. apply Hl. by apply sort_elem_of in Hy.
Qed.

Lemma sort_sorted_id (l : list A) :
  Forall P l -> StronglySorted (fun a b => (key b <= key a)%Z) l -> sort cmp l = l.
Proof.
  intros HP Hs. induction Hs as [|x l Hs IH Hx]; [reflexivity|].
  inversion HP as [|? ? Px HP']; subst.
  cbn [sort]. rewrite (IH HP'). destruct l as [|y l]; [reflexivity|].
  cbn [insert_sorted]. inversion HP' as [|? ? Py _]; subst.
  rewrite cmp_key by assumption. inversion Hx as [|? ? Hyx _]; subst.
  by rewrite (proj2 (Z.ltb_ge _ _) Hyx).
Qed.

End SortOrderFacts.

(** X3. Among records without an invalid date the recency sort is stable:
    the records that share a timestamp come out in the order they came in. *)
Theorem sortByRecency_stable (l : list AnalysisResult.t) (t : Z) :
  Forall (fun r => parseable r = true) l ->
  List.filter (fun r => (timestamp r =? t)%Z) (sortByRecency l) =
  List.filter (fun r => (timestamp r =? t)%Z) l.
Proof.
  intros HP. unfold sortByRecency.
  apply (sort_same_key byRecency timestamp (fun r => parseable r = true)); [|exact HP].
  intros x y. apply byRecency_timestamp.
Qed.

Lemma sortByRecency_stable_witness :
  List.filter (fun r => (timestamp r =? 5)%Z) (sortByRecency tiedResults) =
  List.filter (fun r => (timestamp r =? 5)%Z) tiedResults.
Proof. apply sortByRecency_stable. repeat constructor. Defined.

(** X4. Sorting by recency twice is sorting once (no record with an invalid
    date). So inside generateRecommendations, where each per-type extractor
    sorts its share of the already sorted ten most recent results again, that
    second sort changes nothing: the analyses scanned are the first three of
    the wanted type among the ten most recent. *)
Theorem sortByRecency_idempotent (l : list AnalysisResult.t) :
  Forall (fun r => parseable r = true) l ->
  sortByRecency (sortByRecency l) = sortByRecency l /\
  forall type,
    take 3 (sortByRecency
              (List.filter (fun r => String.eqb (AnalysisResult.type r) type)
                           (take 10 (sortByRecency l)))) =
    take 3 (List.filter (fun r => String.eqb (AnalysisResult.type r) type)
                        (take 10 (sortByRecency l))).
Proof.
  intros HP.
  assert (Hcmp : forall x y : AnalysisResult.t, parseable x = true -> parseable y = true ->
                   goes_after (byRecency x y) = (timestamp x <? timestamp y)%Z)
    by (intros x y; apply byRecency_timestamp).
  assert (Hsorted : StronglySorted (fun a b => (timestamp b <= timestamp a)%Z)
                      (sortByRecency l))
    by (apply (sort_desc byRecency timestamp (fun r => parseable r = true)); assumption).
  assert (HP' : Forall (fun r => parseable r = true) (sortByRecency l))
    by (unfold sortByRecency; by rewrite (sort_perm byRecency)).
  split.
  - unfold sortByRecency at 1.
    by apply (sort_sorted_id byRecency timestamp (fun r => parseable r = true)).
  - intros type. f_equal. unfold sortByRecency at 1.
    assert (Hsub : List.filter (fun r => String.eqb (AnalysisResult.type r) type)
                     (take 10 (sortByRecency l)) `sublist_of` sortByRecency l).
    { etrans; [apply List_filter_sublist | apply sublist_take]. }
    apply (sort_sorted_id byRecency timestamp (fun r => parseable r = true)).
    + exact Hcmp.
    + rewrite Forall_forall in *. intros x Hx. apply HP'. by eapply elem_of_sublist.
    + by eapply StronglySorted_sublist_of.
Qed.

Lemma sortByRecency_idempotent_witness :
  sortByRecency (sortByRecency datedResults) = sortByRecency datedResults.
Proof. apply (sortByRecency_idempotent datedResults). repeat constructor. Defined.

(** ** Inputs with nothing to report, and the summary *)

Lemma filter_none {A} (f : A -> bool) (l : list A) :
  Forall (fun x => f x = false) l -> List.filter f l = [].
Proof.
  induction 1 as [|x l Hx _ IH]; simpl; [reflexivity|]. by rewrite Hx.
Qed.

Lemma string_app_assoc (a b c : string) : (a +:+ b) +:+ c = a +:+ (b +:+ c).
Proof.
  induction a as [|ch a IH]; [reflexivity|].
  change (String ch ((a +:+ b) +:+ c) = String ch (a +:+ (b +:+ c))). by rewrite IH.
Qed.

Lemma buildSummary_nil (input : RecommendationInput) :
  buildSummary input [] = fallbackSummary.
Proof. reflexivity. Qed.

Lemma buildSummary_cons (input : RecommendationInput) (r : RecommendationItem.t)
    (recs : list RecommendationItem.t) :
  exists rest, buildSummary input (r :: recs) = "Based on your " +:+ rest.
Proof.
  unfold buildSummary.
  replace (0 <? length (take 5 (r :: recs)))%nat with true by reflexivity.
  cbv zeta. set (titles := titleSentence _ +:+ _).
  destruct (_ || _).
  - eexists. reflexivity.
  - by exists ("historical data, we recommend: " +:+ titles).
Qed.

Section QuietFacts.
Context `{Host}.

(** X5. An input whose analysis records are all of other types than the
    three the extractors read, whose chat has no assistant message and which
    names no season gives an empty recommendation list and the fallback
    summary, whatever the payloads and the chat texts are. *)
Theorem nothing_to_report (input : RecommendationInput) (n : nat) :
  Forall (fun r => scannedType (AnalysisResult.type r) = false) (analysisResults input) ->
  Forall (fun m => ChatMessage.role m <> "assistant") (chatHistory input) ->
  currentSeason input = None ->
  exists set n',
    generateRecommendations input n = Returned (set, n') /\
    RecommendationSet.recommendations set = [] /\
    RecommendationSet.summary set = fallbackSummary /\
    RecommendationSet.userId set = userId input.
Proof.
  intros Htypes Hroles Hseason.
  assert (Hscan : Forall (fun r => scannedType (AnalysisResult.type r) = false)
                    (take 10 (sortByRecency (analysisResults input)))).
  { apply Forall_take. unfold sortByRecency. by rewrite (sort_perm byRecency). }
  assert (Hb : recentBusinessResults (take 10 (sortByRecency (analysisResults input))) = []).
  { unfold recentBusinessResults. rewrite filter_none; [reflexivity|].
    eapply Forall_impl; [exact Hscan|]. intros r Hr. unfold scannedType in Hr.
    by destruct (String.eqb _ "business_feasibility"). }
  assert (Hf : recentForecasts (take 10 (sortByRecency (analysisResults input))) = []).
  { unfold recentForecasts. rewrite filter_none; [reflexivity|].
    eapply Forall_impl; [exact Hscan|]. intros r Hr. unfold scannedType in Hr.
    destruct (String.eqb _ "demand_forecast"); [|reflexivity].
    by destruct (String.eqb _ "business_feasibility"). }
  assert (Ho : recentOptimizations (take 10 (sortByRecency (analysisResults input))) = []).
  { unfold recentOptimizations. rewrite filter_none; [reflexivity|].
    eapply Forall_impl; [exact Hscan|]. intros r Hr. unfold scannedType in Hr.
    destruct (String.eqb _ "optimization"); [|reflexivity].
    by destruct (String.eqb _ "business_feasibility"), (String.eqb _ "demand_forecast"). }
  assert (Hc : recentMessages (chatHistory input) = []).
  { unfold recentMessages. rewrite filter_none; [reflexivity|].
    eapply Forall_impl; [exact Hroles|]. intros m Hm.
    by apply String.eqb_neq. }
  unfold generateRecommendations, extractBusinessRecommendations,
    extractForecastRecommendations, extractOptimizationRecommendations,
    extractChatInsights, collectCategories.
  rewrite Hb, Hf, Ho, Hc, Hseason.
  eexists _, _. split; [reflexivity|]. by repeat split.
Qed.

(** X6. The summary is the fallback text exactly when no recommendation is
    returned; otherwise it opens with "Based on your ". *)
Theorem summary_fallback_iff_empty (input : RecommendationInput) (n n' : nat)
    (set : RecommendationSet.t) :
  generateRecommendations input n = Returned (set, n') ->
  (RecommendationSet.recommendations set = [] <->
   RecommendationSet.summary set = fallbackSummary) /\
  (RecommendationSet.recommendations set <> [] ->
   exists rest, RecommendationSet.summary set = "Based on your " +:+ rest).
Proof.
  intros Hrun.
  destruct (generateRecommendations_inv _ _ _ _ Hrun)
    as (b & f & o & c & s & k1 & k2 & k3 & k4 & k5 & _ & _ & _ & _ & _ & _ & Hsum & _).
  rewrite Hsum. destruct (RecommendationSet.recommendations set) as [|r recs].
  - split; [by split | by intros []].
  - destruct (buildSummary_cons input r recs) as (rest & ->).
    split; [|by exists rest]. split; [discriminate|].
    unfold fallbackSummary. discriminate.
Qed.

(** X7. When the input names a season, at least one recommendation is
    returned, the summary is not the fallback and it ends with the sentence
    about that season. *)
Theorem season_closes_summary (input : RecommendationInput) (season : Season) (n n' : nat)
    (set : RecommendationSet.t) :
  currentSeason input = Some season ->
  generateRecommendations input n = Returned (set, n') ->
  RecommendationSet.recommendations set <> [] /\
  endsWith (RecommendationSet.summary set) (seasonSentence season).
Proof.
  intros Hseason Hrun.
  destruct (generateRecommendations_inv _ _ _ _ Hrun)
    as (b & f & o & c & s & k1 & k2 & k3 & k4 & k5 & _ & _ & _ & _ & Hs & Hrecs & Hsum & _).
  assert (Hne : RecommendationSet.recommendations set <> []).
  { rewrite Hrecs. intros Hnil. apply (f_equal length) in Hnil.
    rewrite length_take, !sort_length, !length_app in Hnil.
    rewrite Hseason in Hs. unfold addSeasonalRecommendations in Hs.
    unfold bind, ret, newDate, Date_now in Hs. inversion Hs; subst.
    cbn [length] in Hnil. lia. }
  split; [exact Hne|].
  rewrite Hsum. destruct (RecommendationSet.recommendations set) as [|r recs]; [done|].
  unfold buildSummary.
  replace (0 <? length (take 5 (r :: recs)))%nat with true by reflexivity.
  cbv zeta. rewrite Hseason. fold (seasonSentence season).
  eexists. rewrite <- !string_app_assoc. reflexivity.
Qed.

End QuietFacts.

Lemma nothing_to_report_witness :
  exists set n',
    @generateRecommendations sampleHost quietInput 0%nat = Returned (set, n') /\
    RecommendationSet.recommendations set = [] /\
    RecommendationSet.summary set = fallbackSummary /\
    RecommendationSet.userId set = "u1".
Proof.
  apply (@nothing_to_report sampleHost quietInput 0%nat).
  - repeat constructor.
  - repeat constructor; discriminate.
  - reflexivity.
Defined.

Lemma summary_fallback_iff_empty_witness :
  match @generateRecommendations sampleHost busyInput 0%nat with
  | Returned (set, _) =>
      (RecommendationSet.recommendations set = [] <->
       RecommendationSet.summary set = fallbackSummary) /\
      (RecommendationSet.recommendations set <> [] ->
       exists rest, RecommendationSet.summary set = "Based on your " +:+ rest)
  | TypeError => False
  end.
Proof.
  destruct (@generateRecommendations sampleHost busyInput 0%nat) as [[set k]|] eqn:E.
  - exact (@summary_fallback_iff_empty sampleHost busyInput 0%nat k set E).
  - vm_compute in E. discriminate.
Defined.

Lemma season_closes_summary_witness :
  match @generateRecommendations sampleHost (winterOnly "u1") 0%nat with
  | Returned (set, _) =>
      RecommendationSet.recommendations set <> [] /\
      endsWith (RecommendationSet.summary set) (seasonSentence winter)
  | TypeError => False
  end.
Proof.
  destruct (@generateRecommendations sampleHost (winterOnly "u1") 0%nat) as [[set k]|] eqn:E.
  - exact (@season_closes_summary sampleHost (winterOnly "u1") winter 0%nat k set eq_refl E).
  - vm_compute in E. discriminate.
Defined.

(** ** A payload that is null *)

Section AbortFacts.
Context `{Host}.

Lemma forEach_raises {A} (f : A -> M (list RecommendationItem.t)) (x : A) (l : list A) :
  (forall k, f x k = TypeError) -> x ∈ l -> forall n, forEach f l n = TypeError.
Proof.
  intros Hx Hin. induction l as [|y l IH]; intros n; [by apply elem_of_nil in Hin|].
  cbn [forEach]. unfold bind.
  apply elem_of_cons in Hin as [->|Hin]; [by rewrite Hx|].
  destruct (f y n) as [[a k]|]; [|reflexivity]. by rewrite (IH Hin k).
Qed.

Lemma get_nullish (v : value) (k : string) : nullish v = true -> get v k = TypeError.
Proof. by destruct v. Qed.

(** X8. When no analysis of the input carries an invalid date, so that the
    recency order is determined, a null or undefined payload on any analysis
    that reaches a rule callback (one of the three most recent of its type
    among the ten most recent) makes the whole run raise: no set is returned,
    not even the chat and seasonal items that do not depend on that analysis. *)
Theorem null_payload_aborts (input : RecommendationInput) (r : AnalysisResult.t) (n : nat) :
  Forall (fun x => parseable x = true) (analysisResults input) ->
  scannedBy input r ->
  nullish (AnalysisResult.data r) = true ->
  generateRecommendations input n = TypeError.
Proof.
  intros _ Hscan Hnull.
  assert (Hb : forall k, businessInsights r k = TypeError).
  { intros k. unfold businessInsights, checkProfitability, bind, lift.
    by rewrite (get_nullish _ _ Hnull). }
  assert (Hf : forall k, forecastInsights r k = TypeError).
  { intros k. unfold forecastInsights, checkGrowthTrend, bind, lift.
    by rewrite (get_nullish _ _ Hnull). }
  assert (Ho : forall k, optimizationInsights r k = TypeError).
  { intros k. unfold optimizationInsights, bind, lift.
    by rewrite (get_nullish _ _ Hnull). }
  unfold generateRecommendations, bind.
  destruct Hscan as [Hin|[Hin|Hin]].
  - unfold extractBusinessRecommendations at 1.
    by rewrite (forEach_raises _ _ _ Hb Hin).
  - destruct (extractBusinessRecommendations _ n) as [[b k1]|]; [|reflexivity].
    unfold extractForecastRecommendations at 1.
    by rewrite (forEach_raises _ _ _ Hf Hin).
  - destruct (extractBusinessRecommendations _ n) as [[b k1]|]; [|reflexivity].
    destruct (extractForecastRecommendations _ k1) as [[f k2]|]; [|reflexivity].
    unfold extractOptimizationRecommendations at 1.
    by rewrite (forEach_raises _ _ _ Ho Hin).
Qed.

End AbortFacts.

Lemma null_payload_aborts_witness :
  @generateRecommendations sampleHost nullPayloadInput 0%nat = TypeError.
Proof.
  apply (@null_payload_aborts sampleHost nullPayloadInput
           (analysisOf "o9" "optimization" VNull (Some (ValidDate 2))) 0%nat).
  - repeat constructor.
  - right. right. vm_compute. constructor.
  - reflexivity.
Defined.

(** ** Sentences and keywords of the chat scan *)

Lemma prefix_cons (a b : ascii) (w s : string) :
  String.prefix (String a w) (String b s) = Ascii.eqb a b && String.prefix w s.
Proof.
  cbn [String.prefix]. destruct (ascii_dec a b) as [->|Hne].
  - by rewrite Ascii.eqb_refl.
  - apply Ascii.eqb_neq in Hne. by rewrite Hne.
Qed.

Lemma prefix_empty (s : string) : String.prefix "" s = true.
Proof. by destruct s. Qed.

Lemma includes_cons (c : ascii) (s w : string) :
  includes (String c s) w = String.prefix w (String c s) || includes s w.
Proof. reflexivity. Qed.

Lemma includes_empty (w : string) : w <> "" -> includes "" w = false.
Proof. by destruct w. Qed.

Lemma prefix_includes (w s : string) : String.prefix w s = true -> includes s w = true.
Proof. intros H. destruct s; cbn [includes]; by rewrite H. Qed.

Lemma lowerChar_terminator (c : ascii) : isTerminator (lowerChar c) = isTerminator c.
Proof. destruct c as [[] [] [] [] [] [] [] []]; reflexivity. Qed.

Lemma lowerChar_space (c : ascii) : isSpace (lowerChar c) = isSpace c.
Proof. destruct c as [[] [] [] [] [] [] [] []]; reflexivity. Qed.

Lemma splitFrom_nonempty (s : string) (b : bool) : splitFrom s b <> [].
Proof.
  revert b. induction s as [|c r IH]; intros b; cbn [splitFrom]; [done|].
  destruct (isTerminator c).
  - destruct b; [apply IH | done].
  - by destruct (splitFrom r false).
Qed.

Lemma splitFrom_lower (s : string) (b : bool) :
  splitFrom (toLowerCase s) b = List.map toLowerCase (splitFrom s b).
Proof.
  revert b. induction s as [|c r IH]; intros b; cbn [toLowerCase splitFrom]; [reflexivity|].
  rewrite lowerChar_terminator. destruct (isTerminator c).
  - destruct b; by rewrite IH.
  - rewrite IH. by destruct (splitFrom r false).
Qed.

Lemma splitFrom_pieces (s : string) (b : bool) :
  Forall (fun p => allChars notTerminator p = true) (splitFrom s b).
Proof.
  revert b. induction s as [|c r IH]; intros b; cbn [splitFrom].
  - by repeat constructor.
  - destruct (isTerminator c) eqn:E.
    + destruct b; [apply IH | constructor; [reflexivity | apply IH]].
    + specialize (IH false). destruct (splitFrom r false) as [|p ps].
      * repeat constructor. cbn [allChars]. unfold notTerminator. by rewrite E.
      * inversion IH; subst. constructor; [|done].
        cbn [allChars]. unfold notTerminator at 1. by rewrite E.
Qed.

Section Words.
Context (w : string) (Hne : w <> "").

Lemma prefix_piece (s : string) (b : bool) :
  allChars notTerminator w = true ->
  String.prefix w s = true ->
  exists p ps, splitFrom s b = p :: ps /\ String.prefix w p = true.
Proof using Type.
  clear Hne. revert s b. induction w as [|k w' IH]; intros s b Hw Hp.
  - destruct (splitFrom s b) as [|p ps] eqn:E; [by apply splitFrom_nonempty in E|].
    exists p, ps. split; [reflexivity | apply prefix_empty].
  - destruct s as [|c r]; [discriminate Hp|].
    rewrite prefix_cons in Hp. apply andb_prop in Hp as [Hk Hp].
    apply Ascii.eqb_eq in Hk. subst c.
    cbn [allChars] in Hw. apply andb_prop in Hw as [Hk Hw].
    unfold notTerminator in Hk. apply negb_true_iff in Hk.
    cbn [splitFrom]. rewrite Hk.
    destruct (IH r false Hw Hp) as (p & ps & -> & Hp').
    exists (String k p), ps. split; [reflexivity|].
    by rewrite prefix_cons, Ascii.eqb_refl.
Qed.

(** A word without terminators that occurs in a text occurs in one of its
    sentences. *)
Lemma includes_piece (s : string) (b : bool) :
  allChars notTerminator w = true ->
  includes s w = true ->
  exists p, p ∈ splitFrom s b /\ includes p w = true.
Proof using Hne.
  intros Hw. revert b. induction s as [|c r IH]; intros b H.
  - by rewrite includes_empty in H.
  - rewrite includes_cons in H. apply orb_prop in H as [Hp|Hi].
    + destruct (prefix_piece (String c r) b Hw Hp) as (p & ps & E & Hp').
      exists p. split; [rewrite E; apply elem_of_cons; by left | by apply prefix_includes].
    + cbn [splitFrom]. destruct (isTerminator c).
      * destruct (IH true Hi) as (p & Hin & Hp). exists p. split; [|exact Hp].
        destruct b; [exact Hin | apply elem_of_cons; by right].
      * destruct (IH false Hi) as (p & Hin & Hp).
        destruct (splitFrom r false) as [|p0 ps]; [by apply elem_of_nil in Hin|].
        apply elem_of_cons in Hin as [->|Hin].
        -- exists (String c p0). split; [apply elem_of_cons; by left|].
           rewrite includes_cons, Hp. apply orb_true_r.
        -- exists p. split; [apply elem_of_cons; by right | exact Hp].
Qed.

Lemma includes_trimStart (s : string) :
  allChars notSpace w = true -> includes s w = true -> includes (trimStart s) w = true.
Proof using Hne.
  intros Hw. induction s as [|c r IH]; intros H; [exact H|].
  cbn [trimStart]. destruct (isSpace c) eqn:E; [|exact H].
  apply IH. rewrite includes_cons in H. apply orb_prop in H as [Hp|Hi]; [|exact Hi].
  destruct w as [|k w']; [done|].
  rewrite prefix_cons in Hp. apply andb_prop in Hp as [Hk _].
  apply Ascii.eqb_eq in Hk. subst k.
  cbn [allChars] in Hw. apply andb_prop in Hw as [Hk _].
  unfold notSpace in Hk. by rewrite E in Hk.
Qed.

Lemma trimEnd_cons (c : ascii) (r : string) :
  trimEnd r <> "" -> trimEnd (String c r) = String c (trimEnd r).
Proof. intros H. cbn [trimEnd]. by destruct (trimEnd r). Qed.

Lemma trimEnd_keeps (c : ascii) (r : string) :
  isSpace c = false -> exists r', trimEnd (String c r) = String c r'.
Proof. intros H. cbn [trimEnd]. rewrite H. destruct (trimEnd r); eauto. Qed.

Lemma prefix_trimEnd (s : string) :
  allChars notSpace w = true -> String.prefix w s = true ->
  String.prefix w (trimEnd s) = true.
Proof using Hne.
  revert s. induction w as [|k w' IH]; [done|]. intros s Hw Hp.
  destruct s as [|c r]; [discriminate Hp|].
  rewrite prefix_cons in Hp. apply andb_prop in Hp as [Hk Hp].
  apply Ascii.eqb_eq in Hk. subst c.
  cbn [allChars] in Hw. apply andb_prop in Hw as [Hk Hw].
  unfold notSpace in Hk. apply negb_true_iff in Hk.
  destruct w' as [|k' w''].
  - destruct (trimEnd_keeps k r Hk) as (r' & ->).
    by rewrite prefix_cons, Ascii.eqb_refl, prefix_empty.
  - assert (Hr : String.prefix (String k' w'') (trimEnd r) = true) by (by apply IH).
    rewrite trimEnd_cons; [by rewrite prefix_cons, Ascii.eqb_refl|].
    intros E. by rewrite E in Hr.
Qed.

Lemma includes_trimEnd (s : string) :
  allChars notSpace w = true -> includes s w = true -> includes (trimEnd s) w = true.
Proof using Hne.
  intros Hw. induction s as [|c r IH]; intros H; [exact H|].
  rewrite includes_cons in H. apply orb_prop in H as [Hp|Hi].
  - apply prefix_includes. by apply prefix_trimEnd.
  - specialize (IH Hi). rewrite trimEnd_cons.
    + rewrite includes_cons, IH. apply orb_true_r.
    + intros E. rewrite E, includes_empty in IH; done.
Qed.

End Words.

Lemma toLowerCase_trimStart (s : string) :
  toLowerCase (trimStart s) = trimStart (toLowerCase s).
Proof.
  induction s as [|c r IH]; [reflexivity|].
  cbn [trimStart toLowerCase]. rewrite lowerChar_space. by destruct (isSpace c).
Qed.

Lemma toLowerCase_trimEnd (s : string) :
  toLowerCase (trimEnd s) = trimEnd (toLowerCase s).
Proof.
  induction s as [|c r IH]; [reflexivity|].
  cbn [trimEnd toLowerCase]. rewrite <- IH, lowerChar_space.
  destruct (trimEnd r); [by destruct (isSpace c) | reflexivity].
Qed.

Lemma toLowerCase_trim (s : string) : toLowerCase (trim s) = trim (toLowerCase s).
Proof. unfold trim. by rewrite toLowerCase_trimEnd, toLowerCase_trimStart. Qed.

Lemma includes_trim (w s : string) :
  plainWord w = true -> includes (toLowerCase s) w = true ->
  includes (toLowerCase (trim s)) w = true.
Proof.
  unfold plainWord. intros Hw H.
  apply andb_prop in Hw as [Hw Hspace]. apply andb_prop in Hw as [Hne _].
  apply negb_true_iff, String.eqb_neq in Hne.
  rewrite toLowerCase_trim. unfold trim.
  by apply includes_trimEnd, includes_trimStart.
Qed.

Lemma trimEnd_idem (s : string) : trimEnd (trimEnd s) = trimEnd s.
Proof.
  induction s as [|c r IH]; [reflexivity|].
  cbn [trimEnd]. destruct (trimEnd r) as [|c' r'] eqn:E.
  - destruct (isSpace c) eqn:Ec; [reflexivity|]. cbn [trimEnd]. by rewrite Ec.
  - rewrite trimEnd_cons; by rewrite IH.
Qed.

Lemma trimStart_head (s : string) :
  trimStart s = "" \/ exists c r, trimStart s = String c r /\ isSpace c = false.
Proof.
  induction s as [|c r IH]; [by left|].
  cbn [trimStart]. destruct (isSpace c) eqn:E; [exact IH | right; eauto].
Qed.

Lemma trim_idem (s : string) : trim (trim s) = trim s.
Proof.
  unfold trim. destruct (trimStart_head s) as [->|(c & r & -> & Hc)]; [reflexivity|].
  destruct (trimEnd_keeps c r Hc) as (r' & E). rewrite E.
  cbn [trimStart]. rewrite Hc, <- E. apply trimEnd_idem.
Qed.

Lemma allChars_trimStart (p : ascii -> bool) (s : string) :
  allChars p s = true -> allChars p (trimStart s) = true.
Proof.
  induction s as [|c r IH]; [done|]. intros H.
  cbn [trimStart]. destruct (isSpace c); [|exact H].
  cbn [allChars] in H. apply andb_prop in H as [_ H]. by apply IH.
Qed.

Lemma allChars_trimEnd (p : ascii -> bool) (s : string) :
  allChars p s = true -> allChars p (trimEnd s) = true.
Proof.
  induction s as [|c r IH]; [done|]. intros H.
  cbn [allChars] in H. apply andb_prop in H as [Hc H]. specialize (IH H).
  cbn [trimEnd]. destruct (trimEnd r).
  - destruct (isSpace c); [reflexivity|]. cbn [allChars]. by rewrite Hc.
  - cbn [allChars] in *. by rewrite Hc, IH.
Qed.

Lemma keywords_plain : Forall (fun e => plainWord (fst e) = true) keywordMap.
Proof.
  apply Forall_forall. intros e He. apply list_elem_of_In in He.
  revert e He. apply forallb_forall. vm_compute. reflexivity.
Qed.

Lemma keywords_categories : Forall (fun e => snd e ∈ categoryNames) keywordMap.
Proof.
  apply (bool_decide_unpack (Forall (fun e => snd e ∈ categoryNames) keywordMap)).
  vm_compute. reflexivity.
Qed.

(** What a keyword records from a message that mentions it. *)
Lemma keywordHit_mentions (message : ChatMessage.t) (keyword : string) :
  plainWord keyword = true ->
  match keywordHit message keyword with
  | Some d =>
      mentions message keyword = true /\
      exists s, s ∈ splitSentences (ChatMessage.content message) /\
                includes (toLowerCase s) keyword = true /\ d = trim s
  | None => mentions message keyword = false
  end.
Proof.
  intros Hplain. unfold keywordHit, mentions.
  destruct (includes (toLowerCase (ChatMessage.content message)) keyword) eqn:Hm; [|reflexivity].
  destruct (List.filter _ _) as [|first rest] eqn:Ef.
  - exfalso. pose proof Hplain as Hw. unfold plainWord in Hw.
    apply andb_prop in Hw as [Hw _]. apply andb_prop in Hw as [Hne Hterm].
    apply negb_true_iff, String.eqb_neq in Hne.
    destruct (includes_piece keyword Hne _ false Hterm Hm) as (p & Hin & Hp).
    rewrite splitFrom_lower in Hin. apply list_elem_of_In, in_map_iff in Hin.
    destruct Hin as (s & <- & Hs).
    assert (Hin : In s (List.filter (fun s => includes (toLowerCase s) keyword)
                          (splitSentences (ChatMessage.content message)))).
    { apply List.filter_In. by split. }
    rewrite Ef in Hin. destruct Hin.
  - split; [reflexivity|]. exists first.
    assert (Hin : In first (List.filter (fun s => includes (toLowerCase s) keyword)
                              (splitSentences (ChatMessage.content message)))).
    { rewrite Ef. by left. }
    apply List.filter_In in Hin as [Hin Hinc].
    split; [by apply list_elem_of_In | by split].
Qed.

Lemma recordedIn_elem (c d : string) (events : list (string * string)) :
  d ∈ recordedIn c events <-> (c, d) ∈ events.
Proof.
  unfold recordedIn. rewrite !list_elem_of_In, in_map_iff. split.
  - intros ([c' d'] & <- & Hin). apply List.filter_In in Hin as [Hin Hc].
    cbn [fst snd] in *. apply String.eqb_eq in Hc. by subst.
  - intros Hin. exists (c, d). split; [reflexivity|].
    apply List.filter_In. split; [exact Hin|]. apply String.eqb_refl.
Qed.

Lemma recordedSentences_elem (c d : string) (messages : list ChatMessage.t) :
  (c, d) ∈ recordedSentences messages <->
  exists m kw, m ∈ messages /\ (kw, c) ∈ keywordMap /\ keywordHit m kw = Some d.
Proof.
  unfold recordedSentences. rewrite list_elem_of_In, in_flat_map. split.
  - intros (m & Hm & Hin). apply in_flat_map in Hin as ([kw c'] & Hk & Hin).
    cbn [fst snd] in Hin. destruct (keywordHit m kw) as [d'|] eqn:E; [|destruct Hin].
    destruct Hin as [Hin|[]]. inversion Hin; subst.
    exists m, kw. by rewrite !list_elem_of_In.
  - intros (m & kw & Hm & Hk & Hhit). exists m. split; [by apply list_elem_of_In|].
    apply in_flat_map. exists (kw, c). split; [by apply list_elem_of_In|].
    cbn [fst snd]. rewrite Hhit. by left.
Qed.

(** A category's bucket is filled exactly when a scanned message mentions one
    of its keywords. *)
Lemma bucket_filled (c : string) (messages : list ChatMessage.t) :
  recordedIn c (recordedSentences messages) <> [] <->
  exists m kw, m ∈ messages /\ (kw, c) ∈ keywordMap /\ mentions m kw = true.
Proof.
  split.
  - intros H. destruct (recordedIn c (recordedSentences messages)) as [|d rest] eqn:E; [done|].
    assert (Hd : d ∈ recordedIn c (recordedSentences messages))
      by (rewrite E; apply elem_of_cons; by left).
    apply recordedIn_elem, recordedSentences_elem in Hd as (m & kw & Hm & Hk & Hhit).
    exists m, kw. split; [exact Hm|]. split; [exact Hk|].
    pose proof keywords_plain as Hplain. rewrite Forall_forall in Hplain.
    pose proof (keywordHit_mentions m kw (Hplain _ Hk)) as Hspec.
    rewrite Hhit in Hspec. apply Hspec.
  - intros (m & kw & Hm & Hk & Hmention).
    pose proof keywords_plain as Hplain. rewrite Forall_forall in Hplain.
    pose proof (keywordHit_mentions m kw (Hplain _ Hk)) as Hspec.
    destruct (keywordHit m kw) as [d|] eqn:Hhit; [|by rewrite Hmention in Hspec].
    assert (Hd : d ∈ recordedIn c (recordedSentences messages)).
    { apply recordedIn_elem, recordedSentences_elem. by exists m, kw. }
    intros E. rewrite E in Hd. by apply elem_of_nil in Hd.
Qed.

Lemma Forall2_elem_r {A B} (P : A -> B -> Prop) (l : list A) (k : list B) (y : B) :
  Forall2 P l k -> y ∈ k -> exists x, x ∈ l /\ P x y.
Proof.
  induction 1 as [|x y' l k Hxy _ IH]; intros Hin; [by apply elem_of_nil in Hin|].
  apply elem_of_cons in Hin as [->|Hin].
  - exists x. split; [apply elem_of_cons; by left | exact Hxy].
  - destruct (IH Hin) as (x' & Hx' & HP). exists x'. split; [apply elem_of_cons; by right | exact HP].
Qed.

Lemma Forall2_elem_l {A B} (P : A -> B -> Prop) (l : list A) (k : list B) (x : A) :
  Forall2 P l k -> x ∈ l -> exists y, y ∈ k /\ P x y.
Proof.
  induction 1 as [|x' y l k Hxy _ IH]; intros Hin; [by apply elem_of_nil in Hin|].
  apply elem_of_cons in Hin as [->|Hin].
  - exists y. split; [apply elem_of_cons; by left | exact Hxy].
  - destruct (IH Hin) as (y' & Hy' & HP). exists y'. split; [apply elem_of_cons; by right | exact HP].
Qed.

Section ChatScanFacts.
Context `{Host}.

Lemma extractChatInsights_buckets (messages : list ChatMessage.t) (n : nat) :
  let bucket c := recordedIn c (recordedSentences (recentMessages messages)) in
  exists items n',
    extractChatInsights messages n = Returned (items, n') /\
    Forall2 (fun c item => insightOf c (bucket c) item)
            (filter (fun c => bucket c <> []) categoryNames) items.
Proof.
  intros bucket. unfold extractChatInsights. rewrite collectCategories_recorded.
  apply (forEach_categoryInsight categoryNames bucket n).
  apply Forall_forall. auto.
Qed.

Lemma insightOf_category (c : string) (sentences : list string) (item : RecommendationItem.t) :
  insightOf c sentences item -> ofCategory c item.
Proof. intros (first & rest & _ & _ & _ & _ & _ & _ & Hc). exact Hc. Qed.

Lemma plainChat_parseable (messages : list ChatMessage.t) :
  plainChat messages ->
  Forall (fun m => messageParseable m = true) (List.filter fromAssistant messages).
Proof. intros Hall. eapply Forall_impl; [exact Hall|]. by intros m [Hm _]. Qed.

(** X9. When the messages of the assistant carry valid dates and ASCII text,
    the messages scanned are the ten most recent assistant messages, and the
    chat extractor returns an item of a category exactly when one of them
    mentions, in any letter case, one of the keywords of that category: a
    keyword that occurs in the message always occurs in one of its
    sentences. *)
Theorem chat_keyword_decides (messages : list ChatMessage.t) (n : nat) :
  plainChat messages ->
  let scanned := recentMessages messages in
  mostRecent messageTimestamp 10 (List.filter fromAssistant messages) scanned /\
  exists items n',
    extractChatInsights messages n = Returned (items, n') /\
    forall category,
      (exists item, item ∈ items /\ ofCategory category item) <->
      (exists m kw, m ∈ scanned /\ (kw, category) ∈ keywordMap /\ mentions m kw = true).
Proof.
  intros Hchat scanned. subst scanned.
  split; [by apply recentMessages_mostRecent, plainChat_parseable|].
  destruct (extractChatInsights_buckets messages n) as (items & n' & Hrun & Hall).
  exists items, n'. split; [exact Hrun|]. intros category. split.
  - intros (item & Hin & Hcat).
    destruct (Forall2_elem_r _ _ _ _ Hall Hin) as (c & Hc & Hitem).
    apply list_elem_of_filter in Hc as [Hfilled _].
    apply insightOf_category in Hitem. unfold ofCategory in *.
    rewrite Hitem in Hcat. inversion Hcat; subst.
    by apply bucket_filled.
  - intros Hex. pose proof Hex as (m & kw & _ & Hk & _).
    apply bucket_filled in Hex.
    assert (Hc : category ∈ filter
              (fun c => recordedIn c (recordedSentences (recentMessages messages)) <> [])
              categoryNames).
    { apply list_elem_of_filter. split; [exact Hex|].
      pose proof keywords_categories as Hcats. rewrite Forall_forall in Hcats.
      apply (Hcats _ Hk). }
    destruct (Forall2_elem_l _ _ _ _ Hall Hc) as (item & Hin & Hitem).
    exists item. split; [exact Hin | by apply insightOf_category in Hitem].
Qed.

(** X10. When the messages of the assistant carry valid dates and ASCII
    text, the description of a chat item is a sentence of one of the ten most
    recent assistant messages, trimmed: a piece of the message text between
    sentence terminators that contains, in any letter case, a keyword of the
    item's category. It holds no terminator, trimming it again changes
    nothing, and it still contains the keyword. *)
Theorem chat_description_is_sentence (messages : list ChatMessage.t) (n n' : nat)
    (items : list RecommendationItem.t) :
  plainChat messages ->
  extractChatInsights messages n = Returned (items, n') ->
  let scanned := recentMessages messages in
  mostRecent messageTimestamp 10 (List.filter fromAssistant messages) scanned /\
  Forall (fun item =>
    exists m kw category s,
      m ∈ scanned /\ (kw, category) ∈ keywordMap /\
      ofCategory category item /\
      s ∈ splitSentences (ChatMessage.content m) /\
      RecommendationItem.description item = trim s /\
      includes (toLowerCase (RecommendationItem.description item)) kw = true /\
      allChars notTerminator (RecommendationItem.description item) = true /\
      trim (RecommendationItem.description item) = RecommendationItem.description item)
    items.
Proof.
  intros Hchat Hrun scanned. subst scanned.
  split; [by apply recentMessages_mostRecent, plainChat_parseable|].
  destruct (extractChatInsights_buckets messages n) as (items' & k & Hrun' & Hall).
  rewrite Hrun in Hrun'. inversion Hrun'; subst items' k. clear Hrun'.
  apply Forall_forall. intros item Hin.
  destruct (Forall2_elem_r _ _ _ _ Hall Hin) as (c & _ & Hitem).
  pose proof (insightOf_category _ _ _ Hitem) as Hcat.
  destruct Hitem as (first & rest & Hbucket & Hdesc & _).
  assert (Hd : first ∈ recordedIn c (recordedSentences (recentMessages messages)))
    by (rewrite Hbucket; apply elem_of_cons; by left).
  apply recordedIn_elem, recordedSentences_elem in Hd as (m & kw & Hm & Hk & Hhit).
  pose proof keywords_plain as Hplain. rewrite Forall_forall in Hplain.
  specialize (Hplain _ Hk). cbn [fst] in Hplain.
  pose proof (keywordHit_mentions m kw Hplain) as Hspec.
  rewrite Hhit in Hspec. destruct Hspec as (_ & s & Hs & Hinc & ->).
  exists m, kw, c, s. rewrite Hdesc.
  split; [exact Hm|]. split; [exact Hk|]. split; [exact Hcat|]. split; [exact Hs|].
  split; [reflexivity|]. split; [by apply includes_trim|].
  split; [|apply trim_idem].
  unfold trim. apply allChars_trimEnd, allChars_trimStart.
  pose proof (splitFrom_pieces (ChatMessage.content m) false) as Hpieces.
  rewrite Forall_forall in Hpieces. by apply Hpieces.
Qed.

End ChatScanFacts.

Lemma chat_keyword_decides_witness :
  mostRecent messageTimestamp 10 (List.filter fromAssistant (chatHistory busyInput))
    (recentMessages (chatHistory busyInput)) /\
  exists items n',
    @extractChatInsights sampleHost (chatHistory busyInput) 0%nat = Returned (items, n') /\
    forall category,
      (exists item, item ∈ items /\ ofCategory category item) <->
      (exists m kw, m ∈ recentMessages (chatHistory busyInput) /\
                    (kw, category) ∈ keywordMap /\ mentions m kw = true).
Proof.
  apply (@chat_keyword_decides sampleHost (chatHistory busyInput) 0%nat).
  vm_compute. repeat constructor.
Defined.

Lemma chat_description_is_sentence_witness :
  match @extractChatInsights sampleHost (chatHistory busyInput) 0%nat with
  | Returned (items, _) =>
      mostRecent messageTimestamp 10 (List.filter fromAssistant (chatHistory busyInput))
        (recentMessages (chatHistory busyInput)) /\
      Forall (fun item =>
        exists m kw category s,
          m ∈ recentMessages (chatHistory busyInput) /\ (kw, category) ∈ keywordMap /\
          ofCategory category item /\
          s ∈ splitSentences (ChatMessage.content m) /\
          RecommendationItem.description item = trim s /\
          includes (toLowerCase (RecommendationItem.description item)) kw = true /\
          allChars notTerminator (RecommendationItem.description item) = true /\
          trim (RecommendationItem.description item) = RecommendationItem.description item)
        items
  | TypeError => False
  end.
Proof.
  destruct (@extractChatInsights sampleHost (chatHistory busyInput) 0%nat)
    as [[items k]|] eqn:E.
  - apply (@chat_description_is_sentence sampleHost (chatHistory busyInput) 0%nat k items);
      [|exact E].
    vm_compute. repeat constructor.
  - vm_compute in E. discriminate E.
Defined.

(** ** Which sentence a chat item shows *)

Lemma hd_flat_map {A B} (f : A -> list B) (l : list A) (x : B) (rest : list B) :
  flat_map f l = x :: rest ->
  exists before a after rest',
    l = before ++ a :: after /\ Forall (fun b => f b = []) before /\ f a = x :: rest'.
Proof.
  induction l as [|a l IH]; [discriminate|]. cbn [flat_map]. intros H.
  destruct (f a) as [|y ys] eqn:E.
  - destruct (IH H) as (before & a' & after & rest' & -> & Hb & Ha).
    exists (a :: before), a', after, rest'. split; [reflexivity|]. split; [by constructor | exact Ha].
  - cbn [app] in H. inversion H; subst.
    exists [], a, l, ys. split; [reflexivity|]. split; [constructor | exact E].
Qed.

Lemma hd_filter {A} (f : A -> bool) (l : list A) (x : A) (rest : list A) :
  List.filter f l = x :: rest ->
  exists before after,
    l = before ++ x :: after /\ Forall (fun y => f y = false) before /\ f x = true.
Proof.
  induction l as [|a l IH]; [discriminate|]. cbn [List.filter]. intros H.
  destruct (f a) eqn:E.
  - inversion H; subst. exists [], l. split; [reflexivity|]. split; [constructor | exact E].
  - destruct (IH H) as (before & after & -> & Hb & Hx).
    exists (a :: before), after. split; [reflexivity|]. split; [by constructor | exact Hx].
Qed.

Lemma recordedIn_flat_map {A} (c : string) (f : A -> list (string * string)) (l : list A) :
  recordedIn c (flat_map f l) = flat_map (fun a => recordedIn c (f a)) l.
Proof.
  induction l as [|a l IH]; [reflexivity|].
  cbn [flat_map]. by rewrite recordedIn_app, IH.
Qed.

(** The first sentence a category records from one message. *)
Lemma first_recorded_of_message (c first : string) (rest : list string) (m : ChatMessage.t) :
  recordedIn c (recordedSentences [m]) = first :: rest ->
  exists kbefore kw kafter,
    keywordMap = kbefore ++ (kw, c) :: kafter /\
    (forall k, (k, c) ∈ kbefore -> mentions m k = false) /\
    keywordHit m kw = Some first.
Proof.
  unfold recordedSentences. cbn [flat_map]. rewrite app_nil_r, recordedIn_flat_map.
  intros H. apply hd_flat_map in H as (kbefore & [kw c'] & kafter & rest' & Hmap & Hb & He).
  cbn [fst snd] in He.
  destruct (keywordHit m kw) as [d|] eqn:Hhit; [|discriminate He].
  unfold recordedIn in He. cbn [List.filter fst] in He.
  destruct (String.eqb c c') eqn:Ec; [|discriminate He].
  apply String.eqb_eq in Ec. subst c'. inversion He; subst d rest'.
  exists kbefore, kw, kafter. split; [exact Hmap|]. split; [|exact Hhit].
  intros k Hk. rewrite Forall_forall in Hb. specialize (Hb _ Hk). cbn [fst snd] in Hb.
  pose proof keywords_plain as Hplain. rewrite Forall_forall in Hplain.
  assert (Hin : (k, c) ∈ keywordMap) by (rewrite Hmap, elem_of_app; by left).
  pose proof (keywordHit_mentions m k (Hplain _ Hin)) as Hspec.
  destruct (keywordHit m k) as [d|]; [|exact Hspec].
  unfold recordedIn in Hb. cbn [List.filter fst] in Hb.
  by rewrite String.eqb_refl in Hb.
Qed.

Lemma keywordHit_first (m : ChatMessage.t) (kw d : string) :
  keywordHit m kw = Some d ->
  mentions m kw = true /\
  exists pbefore s pafter,
    splitSentences (ChatMessage.content m) = pbefore ++ s :: pafter /\
    Forall (fun p => includes (toLowerCase p) kw = false) pbefore /\
    includes (toLowerCase s) kw = true /\ d = trim s.
Proof.
  unfold keywordHit, mentions.
  destruct (includes (toLowerCase (ChatMessage.content m)) kw); [|discriminate].
  destruct (List.filter _ _) as [|first rest] eqn:Ef; [discriminate|].
  intros Hd. inversion Hd; subst d. split; [reflexivity|].
  apply hd_filter in Ef as (pbefore & pafter & Hp & Hb & Hs).
  by exists pbefore, first, pafter.
Qed.

Section ChatChoiceFacts.
Context `{Host}.

(** X11. When the messages of the assistant carry valid dates and ASCII
    text, which sentence a chat item shows: among the ten most recent
    assistant messages, most recent first, the first one that mentions a
    keyword of the category; for that message, the first keyword of the
    category in the order of the keyword table that the message mentions; and
    the first sentence of the message that contains this keyword, trimmed. *)
Theorem chat_description_choice (messages : list ChatMessage.t) (n n' : nat)
    (items : list RecommendationItem.t) :
  plainChat messages ->
  extractChatInsights messages n = Returned (items, n') ->
  let scanned := recentMessages messages in
  mostRecent messageTimestamp 10 (List.filter fromAssistant messages) scanned /\
  Forall (fun item =>
    exists category before m after kbefore kw kafter pbefore s pafter,
      ofCategory category item /\
      scanned = before ++ m :: after /\
      (forall m' k, m' ∈ before -> (k, category) ∈ keywordMap -> mentions m' k = false) /\
      keywordMap = kbefore ++ (kw, category) :: kafter /\
      (forall k, (k, category) ∈ kbefore -> mentions m k = false) /\
      mentions m kw = true /\
      splitSentences (ChatMessage.content m) = pbefore ++ s :: pafter /\
      Forall (fun p => includes (toLowerCase p) kw = false) pbefore /\
      includes (toLowerCase s) kw = true /\
      RecommendationItem.description item = trim s)
    items.
Proof.
  intros Hchat Hrun scanned. subst scanned.
  split; [by apply recentMessages_mostRecent, plainChat_parseable|].
  destruct (extractChatInsights_buckets messages n) as (items' & k & Hrun' & Hall).
  rewrite Hrun in Hrun'. inversion Hrun'; subst items' k. clear Hrun'.
  apply Forall_forall. intros item Hin.
  destruct (Forall2_elem_r _ _ _ _ Hall Hin) as (c & _ & Hitem).
  pose proof (insightOf_category _ _ _ Hitem) as Hcat.
  destruct Hitem as (first & rest & Hbucket & Hdesc & _).
  unfold recordedSentences in Hbucket. rewrite recordedIn_flat_map in Hbucket.
  apply hd_flat_map in Hbucket as (before & m & after & rest' & Hmsgs & Hb & Hm).
  assert (Hm' : recordedIn c (recordedSentences [m]) = first :: rest').
  { unfold recordedSentences. cbn [flat_map]. by rewrite app_nil_r. }
  apply first_recorded_of_message in Hm' as (kbefore & kw & kafter & Hmap & Hkb & Hhit).
  apply keywordHit_first in Hhit as (Hmention & pbefore & s & pafter & Hp & Hpb & Hs & ->).
  exists c, before, m, after, kbefore, kw, kafter, pbefore, s, pafter.
  split; [exact Hcat|]. split; [exact Hmsgs|]. split; [|by rewrite Hdesc].
  intros m' k Hm' Hk. rewrite Forall_forall in Hb. specialize (Hb _ Hm').
  destruct (mentions m' k) eqn:E; [|reflexivity]. exfalso.
  assert (Hfilled : recordedIn c (recordedSentences [m']) <> []).
  { apply bucket_filled. exists m', k. split; [apply elem_of_cons; by left | by split]. }
  apply Hfilled. unfold recordedSentences. cbn [flat_map]. by rewrite app_nil_r.
Qed.

End ChatChoiceFacts.

Lemma chat_description_choice_witness :
  match @extractChatInsights sampleHost (chatHistory busyInput) 0%nat with
  | Returned (items, _) =>
      mostRecent messageTimestamp 10 (List.filter fromAssistant (chatHistory busyInput))
        (recentMessages (chatHistory busyInput)) /\
      Forall (fun item =>
        exists category before m after kbefore kw kafter pbefore s pafter,
          ofCategory category item /\
          recentMessages (chatHistory busyInput) = before ++ m :: after /\
          (forall m' k, m' ∈ before -> (k, category) ∈ keywordMap -> mentions m' k = false) /\
          keywordMap = kbefore ++ (kw, category) :: kafter /\
          (forall k, (k, category) ∈ kbefore -> mentions m k = false) /\
          mentions m kw = true /\
          splitSentences (ChatMessage.content m) = pbefore ++ s :: pafter /\
          Forall (fun p => includes (toLowerCase p) kw = false) pbefore /\
          includes (toLowerCase s) kw = true /\
          RecommendationItem.description item = trim s)
        items
  | TypeError => False
  end.
Proof.
  destruct (@extractChatInsights sampleHost (chatHistory busyInput) 0%nat)
    as [[items k]|] eqn:E.
  - apply (@chat_description_choice sampleHost (chatHistory busyInput) 0%nat k items);
      [|exact E].
    vm_compute. repeat constructor.
  - vm_compute in E. discriminate E.
Defined.

(** ** The order of the returned recommendations *)

Lemma StronglySorted_weaken {A} (P : A -> Prop) (R R' : A -> A -> Prop) (l : list A) :
  (forall a b, P a -> P b -> R a b -> R' a b) ->
  Forall P l -> StronglySorted R l -> StronglySorted R' l.
Proof.
  intros HR HP Hs. induction Hs as [|x l Hs IH Hx]; [constructor|].
  inversion HP as [|? ? Px HP']; subst. constructor; [by apply IH|].
  rewrite Forall_forall in *. intros y Hy. apply HR; auto.
Qed.

Lemma List_filter_sublist_mono {A} (f : A -> bool) (l1 l2 : list A) :
  l1 `sublist_of` l2 -> List.filter f l1 `sublist_of` List.filter f l2.
Proof.
  induction 1 as [|x l1 l2 Hsub IH|x l1 l2 Hsub IH]; cbn [List.filter].
  - constructor.
  - destruct (f x); [by constructor | exact IH].
  - destruct (f x); [by constructor | exact IH].
Qed.

(** If the elements of each key are in order, then any two elements of one
    key are. *)
Lemma sorted_by_key {A} (key : A -> Z) (R : A -> A -> Prop) (l : list A) :
  (forall t, StronglySorted R (List.filter (fun y => (key y =? t)%Z) l)) ->
  StronglySorted (fun a b => key a = key b -> R a b) l.
Proof.
  induction l as [|x l IH]; intros H; [constructor|]. constructor.
  - apply IH. intros t. specialize (H t). cbn [List.filter] in H.
    destruct (key x =? t)%Z; [by apply StronglySorted_inv in H as [H _] | exact H].
  - apply Forall_forall. intros y Hy Hkey.
    specialize (H (key x)). cbn [List.filter] in H. rewrite Z.eqb_refl in H.
    apply StronglySorted_inv in H as [_ H]. rewrite Forall_forall in H. apply H.
    apply list_elem_of_In, List.filter_In. split; [by apply list_elem_of_In|].
    apply Z.eqb_eq. by symmetry.
Qed.

Lemma num_geb_of_Z (x y : Z) : (y <= x)%Z -> num_geb (num_of_Z x) (num_of_Z y) = true.
Proof.
  intros H. unfold num_geb, num_of_Z, num_ltb. apply negb_true_iff.
  apply not_true_is_false. intros Hlt. apply Qltb_spec in Hlt.
  unfold Qlt, inject_Z in Hlt. simpl in Hlt. lia.
Qed.

Lemma levels_order (a b : num) :
  a ∈ confidenceLevels -> b ∈ confidenceLevels ->
  goes_after (num_sub b a) = (hundredths a <? hundredths b)%Z /\
  ((hundredths b <= hundredths a)%Z -> num_geb a b = true).
Proof.
  unfold confidenceLevels. intros Ha Hb.
  repeat (apply elem_of_cons in Ha as [->|Ha]); [ .. | by apply elem_of_nil in Ha ];
    repeat (apply elem_of_cons in Hb as [->|Hb]); try (by apply elem_of_nil in Hb);
    (split; [by vm_compute | vm_compute; first [reflexivity | intros H; by destruct H]]).
Qed.

Section OrderFacts.
Context {host : Host}.

Lemma stampedWithin_widen (a b a' b' : nat) (item : RecommendationItem.t) :
  (a' <= a)%nat -> (b <= b')%nat -> stampedWithin a b item -> stampedWithin a' b' item.
Proof. intros Ha Hb (j & Hj & E). exists j. split; [lia | exact E]. Qed.

Lemma stamps_app (n k n' : nat) (a b : list RecommendationItem.t) :
  (n <= k)%nat /\ Forall (stampedWithin n k) a ->
  (k <= n')%nat /\ Forall (stampedWithin k n') b ->
  (n <= n')%nat /\ Forall (stampedWithin n n') (a ++ b).
Proof.
  intros [Hnk Ha] [Hkn Hb]. split; [lia|]. apply Forall_app. split.
  - eapply Forall_impl; [exact Ha|]. intros item. apply stampedWithin_widen; lia.
  - eapply Forall_impl; [exact Hb|]. intros item. apply stampedWithin_widen; lia.
Qed.

Ltac tidy_states :=
  repeat match goal with
         | E : match ?o with Returned _ => _ | TypeError => _ end = Returned _ |- _ =>
             destruct o; [|discriminate E]; inversion E; subst; clear E
         | E : Returned _ = Returned _ |- _ => inversion E; subst; clear E
         end.

Ltac solve_stamp :=
  tidy_states;
  split; [lia | repeat (constructor; [eexists; split; [|reflexivity]; lia|]); constructor].

Lemma checkProfitability_stamps result : stamps (checkProfitability result).
Proof. intros n items n' H. unfold checkProfitability in H. invert_run H; solve_stamp. Qed.

Lemma checkROI_stamps result : stamps (checkROI result).
Proof. intros n items n' H. unfold checkROI in H. invert_run H; solve_stamp. Qed.

Lemma checkCostStructure_stamps result : stamps (checkCostStructure result).
Proof. intros n items n' H. unfold checkCostStructure in H. invert_run H; solve_stamp. Qed.

Lemma checkBreakEven_stamps result : stamps (checkBreakEven result).
Proof. intros n items n' H. unfold checkBreakEven in H. invert_run H; solve_stamp. Qed.

Lemma checkGrowthTrend_stamps result : stamps (checkGrowthTrend result).
Proof. intros n items n' H. unfold checkGrowthTrend in H. invert_run H; solve_stamp. Qed.

Lemma checkSeasonality_stamps result : stamps (checkSeasonality result).
Proof. intros n items n' H. unfold checkSeasonality in H. invert_run H; solve_stamp. Qed.

Lemma checkForecastAccuracy_stamps result : stamps (checkForecastAccuracy result).
Proof. intros n items n' H. unfold checkForecastAccuracy in H. invert_run H; solve_stamp. Qed.

Lemma checkVariables_stamps result : stamps (checkVariables result).
Proof. intros n items n' H. unfold checkVariables in H. invert_run H; solve_stamp. Qed.

Lemma checkConstraints_stamps result : stamps (checkConstraints result).
Proof. intros n items n' H. unfold checkConstraints in H. invert_run H; solve_stamp. Qed.

Lemma businessInsights_stamps result : stamps (businessInsights result).
Proof.
  intros n items n' H.
  apply businessInsights_inv in H as (a & b & c & d & k1 & k2 & k3 & Ha & Hb & Hc & Hd & ->).
  apply checkProfitability_stamps in Ha. apply checkROI_stamps in Hb.
  apply checkCostStructure_stamps in Hc. apply checkBreakEven_stamps in Hd.
  eauto using stamps_app.
Qed.

Lemma forecastInsights_stamps result : stamps (forecastInsights result).
Proof.
  intros n items n' H.
  apply forecastInsights_inv in H as (a & b & c & k1 & k2 & Ha & Hb & Hc & ->).
  apply checkGrowthTrend_stamps in Ha. apply checkSeasonality_stamps in Hb.
  apply checkForecastAccuracy_stamps in Hc.
  eauto using stamps_app.
Qed.

Lemma optimizationInsights_stamps result : stamps (optimizationInsights result).
Proof.
  intros n items n' H. unfold optimizationInsights in H.
  unfold bind at 1 in H. unfold lift in H.
  destruct (get (AnalysisResult.data result) "feasible") as [feasible|]; [|discriminate].
  destruct (strict_eq_bool feasible true).
  - unfold bind, lift, ret, newDate in H.
    destruct (get (AnalysisResult.data result) "name") as [name|]; [|discriminate].
    destruct (get (AnalysisResult.data result) "objectiveValue") as [objective|]; [|discriminate].
    destruct (ToBoolean objective);
      [destruct (toFixed objective 2); [|discriminate]|];
      (destruct (checkVariables result (S n)) as [[b k1]|] eqn:Eb; [|discriminate];
       destruct (checkConstraints result k1) as [[c k2]|] eqn:Ec; [|discriminate];
       inversion H; subst;
       apply checkVariables_stamps in Eb; apply checkConstraints_stamps in Ec;
       apply (stamps_app n (S n) n' [_] (b ++ c));
       [ solve_stamp | by apply (stamps_app (S n) k1 n') ]).
  - destruct (strict_eq_bool feasible false).
    + invert_run H. solve_stamp.
    + inversion H; subst. solve_stamp.
Qed.

Lemma categoryInsight_stamps entry : stamps (categoryInsight entry).
Proof.
  intros n items n' H. destruct entry as [category [|first rest]].
  - inversion H; subst. solve_stamp.
  - inversion H; subst. split; [lia|].
    constructor; [|constructor]. exists (S n). split; [lia | reflexivity].
Qed.

Lemma addSeasonalRecommendations_stamps season : stamps (addSeasonalRecommendations season).
Proof.
  intros n items n' H. destruct season as [season|].
  - inversion H; subst. split; [lia|].
    constructor; [|constructor; [|constructor]];
      [exists (S n) | exists (S (S (S n)))]; (split; [lia | reflexivity]).
  - inversion H; subst. solve_stamp.
Qed.

Lemma forEach_stamps {A} (f : A -> M (list RecommendationItem.t)) (l : list A) :
  (forall x, stamps (f x)) -> stamps (forEach f l).
Proof.
  intros Hf. induction l as [|x l IH]; intros n items n' H.
  - inversion H; subst. solve_stamp.
  - cbn [forEach] in H. unfold bind, ret in H.
    destruct (f x n) as [[a k]|] eqn:Ea; [|discriminate].
    destruct (forEach f l k) as [[b k']|] eqn:Eb; [|discriminate].
    inversion H; subst. apply (stamps_app n k n'); [by apply (Hf x) | by apply IH].
Qed.

Lemma fired_level (rules : list rule) (items : list RecommendationItem.t) :
  Forall (fun r => ruleConfidence r ∈ confidenceLevels) rules ->
  Forall (fun item => exists r owner, r ∈ rules /\ fires r owner item) items ->
  Forall (fun item => RecommendationItem.confidence item ∈ confidenceLevels) items.
Proof.
  intros Hrules Hitems. rewrite Forall_forall in Hrules.
  eapply Forall_impl; [exact Hitems|].
  intros item (r & owner & Hr & _ & _ & _ & Hq & _). rewrite Hq. by apply Hrules.
Qed.

Lemma table_levels (name : string) :
  Forall (fun r => ruleConfidence r ∈ confidenceLevels)
    (businessRules ++ forecastRules ++ optimizationRules ++ chatRules ++ seasonalRules name).
Proof.
  unfold businessRules, forecastRules, optimizationRules, chatRules, seasonalRules.
  cbn [app]. unfold confidenceLevels.
  repeat (constructor;
          [cbn [ruleConfidence];
           repeat first [by (apply elem_of_cons; left) | apply elem_of_cons; right]|]).
  constructor.
Qed.

Lemma byCreation_createdMs (x y : RecommendationItem.t) :
  RecommendationItem.createdAt x <> InvalidDate ->
  RecommendationItem.createdAt y <> InvalidDate ->
  goes_after (byCreation x y) = (createdMs x <? createdMs y)%Z.
Proof.
  unfold byCreation, createdMs. intros Hx Hy.
  destruct (RecommendationItem.createdAt x); [|done].
  destruct (RecommendationItem.createdAt y); [|done].
  apply goes_after_sub_Z.
Qed.

(** X12. When every clock reading of the run falls on one calendar day, the
    returned recommendations are in order of confidence, highest first, and
    recommendations of equal confidence are in order of creation, the most
    recently created first. *)
Theorem same_day_confidence_order (input : RecommendationInput) (n n' : nat)
    (set : RecommendationSet.t) :
  generateRecommendations input n = Returned (set, n') ->
  (forall j, (n <= j < n')%nat -> toDateString (clock j) = toDateString (clock n)) ->
  StronglySorted
    (fun a b => num_geb (RecommendationItem.confidence a) (RecommendationItem.confidence b) = true)
    (RecommendationSet.recommendations set) /\
  StronglySorted
    (fun a b => RecommendationItem.confidence a = RecommendationItem.confidence b ->
                num_geb (getTime (RecommendationItem.createdAt a))
                        (getTime (RecommendationItem.createdAt b)) = true)
    (RecommendationSet.recommendations set).
Proof.
  intros Hrun Hday.
  assert (Hn' : exists k5, n' = S (S k5)).
  { unfold generateRecommendations, bind, ret, Date_now, newDate in Hrun.
    destruct (extractBusinessRecommendations _ n) as [[b k1]|]; [|discriminate].
    destruct (extractForecastRecommendations _ k1) as [[f k2]|]; [|discriminate].
    destruct (extractOptimizationRecommendations _ k2) as [[o k3]|]; [|discriminate].
    destruct (extractChatInsights _ k3) as [[c k4]|]; [|discriminate].
    destruct (addSeasonalRecommendations _ k4) as [[s k5]|]; [|discriminate].
    inversion Hrun. by exists k5. }
  destruct Hn' as [k5' ->].
  pose proof Hrun as Hinv.
  apply generateRecommendations_inv in Hinv
    as (b & f & o & c & s & k1 & k2 & k3 & k4 & k5 & Hb & Hf & Ho & Hc & Hs & Hrecs & _).
  assert (k5' = k5) as ->.
  { unfold generateRecommendations, bind, ret, Date_now, newDate in Hrun.
    rewrite Hb, Hf, Ho, Hc, Hs in Hrun. inversion Hrun. reflexivity. }
  set (all := b ++ f ++ o ++ c ++ s) in *.
  (* every item was created during the run *)
  assert (Hstamp : Forall (stampedWithin n k5) all).
  { pose proof (forEach_stamps _ _ businessInsights_stamps _ _ _ Hb) as Sb.
    pose proof (forEach_stamps _ _ forecastInsights_stamps _ _ _ Hf) as Sf.
    pose proof (forEach_stamps _ _ optimizationInsights_stamps _ _ _ Ho) as So.
    pose proof (forEach_stamps _ _ categoryInsight_stamps _ _ _ Hc) as Sc.
    pose proof (addSeasonalRecommendations_stamps _ _ _ _ Hs) as Ss.
    exact (proj2 (stamps_app _ _ _ _ _ Sb (stamps_app _ _ _ _ _ Sf
             (stamps_app _ _ _ _ _ So (stamps_app _ _ _ _ _ Sc Ss))))). }
  (* every item carries a confidence of the tables *)
  assert (Hlevel : Forall (fun item => RecommendationItem.confidence item ∈ confidenceLevels) all).
  { pose proof (extractor_Forall _ _ _ _ _ _ businessInsights_pushed Hb) as Fb.
    pose proof (extractor_Forall _ _ _ _ _ _ forecastInsights_pushed Hf) as Ff.
    pose proof (extractor_Forall _ _ _ _ _ _ optimizationInsights_pushed Ho) as Fo.
    destruct (extractChatInsights_fired (chatHistory input) k3) as (c' & k4' & Hc' & Fc).
    rewrite Hc in Hc'. inversion Hc'; subst c' k4'. clear Hc'.
    destruct (addSeasonalRecommendations_fired (currentSeason input) k4)
      as (s' & k5' & Hs' & Fs).
    rewrite Hs in Hs'. inversion Hs'; subst s' k5'. clear Hs'.
    apply firedAny_Forall in Fc, Fs.
    pose proof (table_levels (match currentSeason input with
                              | Some season => seasonName season
                              | None => ""
                              end)) as Htable.
    rewrite !Forall_app in Htable. destruct Htable as (Tb & Tf & To & Tc & Ts).
    unfold all. rewrite !Forall_app.
    split; [exact (fired_level _ _ Tb Fb)|]. split; [exact (fired_level _ _ Tf Ff)|].
    split; [exact (fired_level _ _ To Fo)|]. split; [exact (fired_level _ _ Tc Fc)|].
    exact (fired_level _ _ Ts Fs). }
  set (good := fun item => stampedWithin n k5 item /\
                           RecommendationItem.confidence item ∈ confidenceLevels).
  assert (Hgood : Forall good all).
  { apply Forall_forall. intros item Hin. rewrite Forall_forall in Hstamp, Hlevel.
    split; auto. }
  assert (Hvalid : forall item, good item -> RecommendationItem.createdAt item <> InvalidDate).
  { intros item [(j & _ & E) _]. by rewrite E. }
  (* the comparator of the second sort, on items of one day *)
  assert (Hcmp : forall x y, good x -> good y ->
            goes_after (byConfidenceWithinDay x y) =
            (hundredths (RecommendationItem.confidence x)
               <? hundredths (RecommendationItem.confidence y))%Z).
  { intros x y [(jx & Hjx & Ex) Lx] [(jy & Hjy & Ey) Ly].
    unfold byConfidenceWithinDay. rewrite Ex, Ey. cbn [Date_toDateString].
    rewrite (Hday jx), (Hday jy) by lia. rewrite String.eqb_refl.
    by apply levels_order. }
  set (l1 := sort byCreation all) in *.
  assert (Hgood1 : Forall good l1) by (unfold l1; by rewrite (sort_perm byCreation)).
  assert (Hsorted1 : StronglySorted (fun a b => (createdMs b <= createdMs a)%Z) l1).
  { apply (sort_desc byCreation createdMs good); [|exact Hgood].
    intros x y Hx Hy. apply byCreation_createdMs; by apply Hvalid. }
  set (l2 := sort byConfidenceWithinDay l1) in *.
  assert (Hgood2 : Forall good l2) by (unfold l2; by rewrite (sort_perm byConfidenceWithinDay)).
  assert (Hsorted2 : StronglySorted
            (fun a b => (hundredths (RecommendationItem.confidence b)
                           <= hundredths (RecommendationItem.confidence a))%Z) l2).
  { apply (sort_desc byConfidenceWithinDay
             (fun item => hundredths (RecommendationItem.confidence item)) good);
      [exact Hcmp | exact Hgood1]. }
  assert (Hties : forall t,
            StronglySorted (fun a b => (createdMs b <= createdMs a)%Z)
              (List.filter (fun item =>
                 (hundredths (RecommendationItem.confidence item) =? t)%Z) (take 10 l2))).
  { intros t. eapply StronglySorted_sublist_of;
      [apply List_filter_sublist_mono, sublist_take|].
    unfold l2.
    rewrite (sort_same_key byConfidenceWithinDay
               (fun item => hundredths (RecommendationItem.confidence item)) good Hcmp t l1 Hgood1).
    eapply StronglySorted_sublist_of; [apply List_filter_sublist | exact Hsorted1]. }
  assert (Hgood3 : Forall good (take 10 l2)) by (by apply Forall_take).
  rewrite Hrecs. fold all l1 l2. split.
  - apply (StronglySorted_weaken good
             (fun a b => (hundredths (RecommendationItem.confidence b)
                            <= hundredths (RecommendationItem.confidence a))%Z));
      [ | exact Hgood3 | eapply StronglySorted_sublist_of; [apply sublist_take | exact Hsorted2] ].
    intros a0 b0 [_ La] [_ Lb]. by apply levels_order.
  - apply (StronglySorted_weaken good
             (fun a b => hundredths (RecommendationItem.confidence a)
                           = hundredths (RecommendationItem.confidence b) ->
                         (createdMs b <= createdMs a)%Z));
      [ | exact Hgood3 | by apply sorted_by_key ].
    intros a0 b0 [(ja & _ & Ea) _] [(jb & _ & Eb) _] HR Heq.
    specialize (HR (f_equal hundredths Heq)). unfold createdMs in HR.
    rewrite Ea, Eb in *. by apply num_geb_of_Z.
Qed.

End OrderFacts.

Lemma same_day_confidence_order_witness :
  match @generateRecommendations sampleHost busyInput 0%nat with
  | Returned (set, _) =>
      StronglySorted
        (fun a b => num_geb (RecommendationItem.confidence a)
                            (RecommendationItem.confidence b) = true)
        (RecommendationSet.recommendations set) /\
      StronglySorted
        (fun a b => RecommendationItem.confidence a = RecommendationItem.confidence b ->
                    num_geb (getTime (RecommendationItem.createdAt a))
                            (getTime (RecommendationItem.createdAt b)) = true)
        (RecommendationSet.recommendations set)
  | TypeError => False
  end.
Proof.
  destruct (@generateRecommendations sampleHost busyInput 0%nat) as [[set k]|] eqn:E.
  - apply (@same_day_confidence_order sampleHost busyInput 0%nat k set E).
    assert (Hk : (k <= 100)%nat).
    { pose proof E as E'. vm_compute in E'. injection E' as _ <-. lia. }
    intros j Hj. unfold toDateString, clock, sampleHost. f_equal. f_equal.
    assert (Hq : forall z, (0 <= z < 100)%Z ->
                           ((1700000000000 + z) / 86400000 = 19675)%Z).
    { intros z Hz. symmetry. apply (Z.div_unique _ _ _ (80000000 + z)); lia. }
    rewrite (Hq (Z.of_nat j)), (Hq (Z.of_nat 0)) by lia. reflexivity.
  - vm_compute in E. discriminate E.
Defined.

(** ** The largest entries of a list field *)






Section SortRational.
Context {A : Type} (cmp : A -> A -> num) (key : A -> Q) (P : A -> Prop).
Hypothesis cmp_key : forall x y, P x -> P y -> goes_after (cmp x y) = Qltb (key x) (key y).



End SortRational.

Section LargestFacts.
Context {host : Host}.





End LargestFacts.



(** ** A feasible optimization *)

Section FeasibleFacts.
Context {host : Host}.

Lemma optimizationInsights_feasible (result : AnalysisResult.t) (n : nat) :
  get (AnalysisResult.data result) "feasible" = Returned (VBool true) ->
  let data := AnalysisResult.data result in
  optimizationInsights result n =
  match (if ToBoolean (field data "objectiveValue")
         then match toFixed (field data "objectiveValue") 2 with
              | Returned digits => Returned ("an objective value of " +:+ digits)
              | TypeError => TypeError
              end
         else Returned "optimized resource allocation") with
  | Returned outcomeText =>
      match checkVariables result (S n) with
      | Returned (b, k1) =>
          match checkConstraints result k1 with
          | Returned (c, k2) =>
              Returned
                ([mkItem ("opt-feasible-" +:+ AnalysisResult.id result) resource
                    "Optimal Resource Allocation"
                    ("Your " +:+ ToString (field data "name")
                       +:+ " optimization model has a feasible solution with "
                       +:+ outcomeText +:+ ".")
                    (Fin 0.9)
                    (VObj [("optimizationName", field data "name");
                           ("objectiveValue", field data "objectiveValue")])
                    analysis (ValidDate (clock n))] ++ b ++ c, k2)
          | TypeError => TypeError
          end
      | TypeError => TypeError
      end
  | TypeError => TypeError
  end.
Proof.
  intros Hfeasible data.
  assert (Hdata : nullish (AnalysisResult.data result) = false)
    by (by destruct (AnalysisResult.data result)).
  unfold optimizationInsights, bind, lift. rewrite Hfeasible.
  replace (strict_eq_bool (VBool true) true) with true by reflexivity. cbv beta iota.
  rewrite !(get_field _ _ Hdata). fold data. unfold ret, newDate.
  destruct (ToBoolean (field data "objectiveValue")).
  - destruct (toFixed (field data "objectiveValue") 2); [|reflexivity].
    destruct (checkVariables result (S n)) as [[b k1]|]; [|reflexivity].
    by destruct (checkConstraints result k1) as [[c k2]|].
  - destruct (checkVariables result (S n)) as [[b k1]|]; [|reflexivity].
    by destruct (checkConstraints result k1) as [[c k2]|].
Qed.

(** X15. For an optimization marked feasible, a run of the rules that
    completes pushes "Optimal Resource Allocation" first (confidence 0.9, type
    resource), then at most the resource and the bottleneck items, and never
    "Resource Constraints Too Tight". The description quotes the objective
    value, with two decimals, when it is a Number other than zero and NaN;
    an objective value that is absent, null, zero or NaN is reported as
    "optimized resource allocation"; and one that is truthy without being a
    Number (a numeric string, say) makes the rules raise. *)
Theorem feasible_rule (result : AnalysisResult.t) (n : nat) :
  get (AnalysisResult.data result) "feasible" = Returned (VBool true) ->
  let data := AnalysisResult.data result in
  let objectiveValue := field data "objectiveValue" in
  (forall items n',
     optimizationInsights result n = Returned (items, n') ->
     exists first rest outcomeText,
       items = first :: rest /\
       itemIs first ("opt-feasible-" +:+ AnalysisResult.id result) resource
         "Optimal Resource Allocation" (Fin 0.9) analysis /\
       RecommendationItem.description first =
         "Your " +:+ ToString (field data "name")
           +:+ " optimization model has a feasible solution with " +:+ outcomeText +:+ "." /\
       (ToBoolean objectiveValue = false -> outcomeText = "optimized resource allocation") /\
       (forall v, objectiveValue = VNum v -> ToBoolean objectiveValue = true ->
                  outcomeText = "an objective value of " +:+ toFixedDigits v 2) /\
       pushedBy (take 2 (drop 1 optimizationRules)) (AnalysisResult.id result) rest) /\
  (ToBoolean objectiveValue = true -> (forall v, objectiveValue <> VNum v) ->
   optimizationInsights result n = TypeError).
Proof.
  intros Hfeasible data objectiveValue.
  rewrite (optimizationInsights_feasible result n Hfeasible).
  fold data. fold objectiveValue. split.
  - intros items n' Hrun.
    destruct (ToBoolean objectiveValue) eqn:Etruthy.
    + destruct (toFixed objectiveValue 2) as [digits|] eqn:Edigits; [|discriminate Hrun].
      destruct (checkVariables result (S n)) as [[b k1]|] eqn:Eb; [|discriminate Hrun].
      destruct (checkConstraints result k1) as [[c k2]|] eqn:Ec; [|discriminate Hrun].
      inversion Hrun; subst items n'. clear Hrun.
      eexists _, (b ++ c), ("an objective value of " +:+ digits).
      split; [reflexivity|]. split; [by repeat split|]. split; [reflexivity|].
      split; [discriminate|]. split.
      * intros v Hv _. rewrite Hv in Edigits. cbn [toFixed] in Edigits.
        by inversion Edigits.
      * apply checkVariables_pushed in Eb. apply checkConstraints_pushed in Ec.
        apply (pushedBy_app (take 1 (drop 1 optimizationRules))
                 (take 1 (drop 2 optimizationRules))); assumption.
    + destruct (checkVariables result (S n)) as [[b k1]|] eqn:Eb; [|discriminate Hrun].
      destruct (checkConstraints result k1) as [[c k2]|] eqn:Ec; [|discriminate Hrun].
      inversion Hrun; subst items n'. clear Hrun.
      eexists _, (b ++ c), "optimized resource allocation".
      split; [reflexivity|]. split; [by repeat split|]. split; [reflexivity|].
      split; [reflexivity|]. split; [discriminate|].
      apply checkVariables_pushed in Eb. apply checkConstraints_pushed in Ec.
      apply (pushedBy_app (take 1 (drop 1 optimizationRules))
               (take 1 (drop 2 optimizationRules))); assumption.
  - intros Htruthy Hnum. rewrite Htruthy.
    destruct objectiveValue as [| | |v| | |] eqn:E; try reflexivity.
    by destruct (Hnum v).
Qed.

End FeasibleFacts.

Lemma feasible_rule_witness :
  @optimizationInsights sampleHost (feasibleResult (VStr "12.5")) 0%nat = TypeError.
Proof.
  apply (@feasible_rule sampleHost (feasibleResult (VStr "12.5")) 0%nat eq_refl).
  - reflexivity.
  - discriminate.
Defined.

(** ** Profit margin and return on investment *)

Lemma above_is_truthy (m : num) (q : Q) :
  (0 <= q)%Q -> num_gtb m (Fin q) = true -> ToBoolean (VNum m) = true.
Proof.
  intros Hq H. destruct m as [x| | |]; try done.
  unfold num_gtb, num_ltb in H. apply Qltb_spec in H.
  cbn [ToBoolean]. apply negb_true_iff, not_true_is_false. intros E.
  apply Qeq_bool_iff in E. rewrite E in H.
  exact (Qlt_irrefl _ (Qle_lt_trans _ _ _ Hq H)).
Qed.

Section MarginFacts.
Context {host : Host}.

Lemma checkProfitability_number (result : AnalysisResult.t) (m : num) (n : nat) :
  get (AnalysisResult.data result) "profitMargin" = Returned (VNum m) ->
  let data := AnalysisResult.data result in
  checkProfitability result n =
  if num_gtb m (Fin 0.25) then
    Returned ([mkItem ("biz-profit-" +:+ AnalysisResult.id result) business
                 "Profitable Business Model"
                 ("Your " +:+ ToString (field data "businessName")
                    +:+ " shows a strong profit margin of " +:+ percent1 m
                    +:+ "%. Consider scaling operations while maintaining current cost structure.")
                 (Fin 0.8)
                 (VObj [("profitMargin", VNum m); ("roi", field data "roi");
                        ("businessName", field data "businessName")])
                 analysis (ValidDate (clock n))], S n)
  else Returned ([], n).
Proof.
  intros Hm data.
  assert (Hdata : nullish (AnalysisResult.data result) = false)
    by (by destruct (AnalysisResult.data result)).
  unfold checkProfitability, bind, lift. rewrite Hm.
  replace (js_gt (VNum m) (Fin 0.25)) with (num_gtb m (Fin 0.25)) by reflexivity.
  destruct (num_gtb m (Fin 0.25)) eqn:E.
  - rewrite (above_is_truthy m 0.25) by done. cbn [andb].
    by rewrite !(get_field _ _ Hdata).
  - by rewrite andb_false_r.
Qed.

Lemma checkROI_number (result : AnalysisResult.t) (r : num) (n : nat) :
  get (AnalysisResult.data result) "roi" = Returned (VNum r) ->
  let data := AnalysisResult.data result in
  checkROI result n =
  if num_gtb r (Fin 0.15) then
    Returned ([mkItem ("biz-roi-" +:+ AnalysisResult.id result) business
                 "Strong Return on Investment"
                 ("Your investment in " +:+ ToString (field data "businessName")
                    +:+ " shows a " +:+ percent1 r
                    +:+ "% ROI. Consider additional investment in similar ventures.")
                 (Fin 0.75)
                 (VObj [("roi", VNum r); ("paybackPeriod", field data "paybackPeriod")])
                 analysis (ValidDate (clock n))], S n)
  else Returned ([], n).
Proof.
  intros Hr data.
  assert (Hdata : nullish (AnalysisResult.data result) = false)
    by (by destruct (AnalysisResult.data result)).
  unfold checkROI, bind, lift. rewrite Hr.
  replace (js_gt (VNum r) (Fin 0.15)) with (num_gtb r (Fin 0.15)) by reflexivity.
  destruct (num_gtb r (Fin 0.15)) eqn:E.
  - rewrite (above_is_truthy r 0.15) by done. cbn [andb].
    by rewrite !(get_field _ _ Hdata).
  - by rewrite andb_false_r.
Qed.

(** X16. For a business analysis whose profit margin and return on
    investment are Numbers, the items of a completed callback hold exactly
    one "Profitable Business Model" item when the margin is above 0.25, and
    none otherwise; exactly one "Strong Return on Investment" item when the
    return is above 0.15, and none otherwise. The two rules do not depend on
    each other, and the profit item comes first. The profit item is of type
    business with confidence 0.8 and quotes the margin as a percentage with
    one decimal; the other is of type business with confidence 0.75. *)
Theorem margin_and_roi_rules (result : AnalysisResult.t) (m r : num) (n n' : nat)
    (items : list RecommendationItem.t) :
  get (AnalysisResult.data result) "profitMargin" = Returned (VNum m) ->
  get (AnalysisResult.data result) "roi" = Returned (VNum r) ->
  businessInsights result n = Returned (items, n') ->
  let data := AnalysisResult.data result in
  exists profit roi others,
    items = profit ++ roi ++ others /\
    List.filter (titled "Profitable Business Model") others = [] /\
    List.filter (titled "Strong Return on Investment") others = [] /\
    (if num_gtb m (Fin 0.25)
     then exists item,
       profit = [item] /\
       itemIs item ("biz-profit-" +:+ AnalysisResult.id result) business
         "Profitable Business Model" (Fin 0.8) analysis /\
       RecommendationItem.description item =
         "Your " +:+ ToString (field data "businessName")
           +:+ " shows a strong profit margin of " +:+ percent1 m
           +:+ "%. Consider scaling operations while maintaining current cost structure." /\
       get (RecommendationItem.data item) "roi" = Returned (VNum r)
     else profit = []) /\
    (if num_gtb r (Fin 0.15)
     then exists item,
       roi = [item] /\
       itemIs item ("biz-roi-" +:+ AnalysisResult.id result) business
         "Strong Return on Investment" (Fin 0.75) analysis /\
       RecommendationItem.description item =
         "Your investment in " +:+ ToString (field data "businessName")
           +:+ " shows a " +:+ percent1 r
           +:+ "% ROI. Consider additional investment in similar ventures."
     else roi = []).
Proof.
  intros Hm Hr Hrun data.
  assert (Hdata : nullish (AnalysisResult.data result) = false)
    by (by destruct (AnalysisResult.data result)).
  assert (Hroi : field data "roi" = VNum r).
  { unfold field, data. by rewrite Hr. }
  apply businessInsights_inv in Hrun
    as (a & b & c & d & k1 & k2 & k3 & Ha & Hb & Hc & Hd & ->).
  exists a, b, (c ++ d).
  split; [reflexivity|].
  apply checkCostStructure_pushed in Hc. apply checkBreakEven_pushed in Hd.
  pose proof (pushedBy_app _ _ _ _ _ Hc Hd) as Hcd.
  split; [by apply (pushedBy_no_title _ _ _ _ Hcd)|].
  split; [by apply (pushedBy_no_title _ _ _ _ Hcd)|].
  rewrite (checkProfitability_number result m n Hm) in Ha.
  rewrite (checkROI_number result r k1 Hr) in Hb.
  fold data in Ha, Hb. split.
  - destruct (num_gtb m (Fin 0.25)); inversion Ha; subst; [|reflexivity].
    eexists. split; [reflexivity|]. split; [by repeat split|]. split; [reflexivity|].
    cbn. by rewrite Hroi.
  - destruct (num_gtb r (Fin 0.15)); inversion Hb; subst; [|reflexivity].
    eexists. split; [reflexivity|]. split; [by repeat split | reflexivity].
Qed.

End MarginFacts.

Lemma margin_and_roi_rules_witness :
  match @businessInsights sampleHost (richBusiness "b1" 1) 0%nat with
  | Returned (items, _) =>
      exists profit roi others, items = profit ++ roi ++ others /\
        length profit = 1%nat /\ length roi = 1%nat
  | TypeError => False
  end.
Proof.
  destruct (@businessInsights sampleHost (richBusiness "b1" 1) 0%nat) as [[items k]|] eqn:E.
  - destruct (@margin_and_roi_rules sampleHost (richBusiness "b1" 1)
                (Fin 0.3) (Fin 0.2) 0%nat k items eq_refl eq_refl E)
      as (profit & roi & others & Hitems & _ & _ & Hp & Hr).
    exists profit, roi, others. split; [exact Hitems|].
    change (num_gtb (Fin 0.3) (Fin 0.25)) with true in Hp.
    change (num_gtb (Fin 0.2) (Fin 0.15)) with true in Hr.
    destruct Hp as (p & -> & _). destruct Hr as (q & -> & _). by split.
  - vm_compute in E. discriminate E.
Defined.
